(** * Screen-capture plugin: capture / record orchestration

    A shallow embedding of the screen-capture extension

      - [extensions/screen-capture/index.ts]              (plugin registration)
      - [extensions/screen-capture/src/screenshot-tool.ts] (list_monitors, take_screenshot)
      - [extensions/screen-capture/src/video-tool.ts]      (record_screen, monitor bounds, FFmpeg lookup)
      - [extensions/screen-capture/src/config.ts]          (plugin configuration)

    JavaScript values are modelled as the code uses them: numbers with their
    three non-finite values, strings as sequences of code units, objects as
    field lists.  Everything the tools do to the outside world (temp files,
    subprocesses, the media store, the logger) goes through a small
    state-and-exception monad over an explicit world; the answers of the
    outside world are collected in an environment record, and every theorem
    quantifies over all environments.

    The file has three parts: the embedding of the code, the vocabulary in
    which the properties are stated (with a concrete machine to run the
    tools on), and the proofs. *)

From Stdlib Require Import ZArith QArith Qround Qminmax Lia Bool Ascii.
From Stdlib Require Import DecimalString DecimalNat.
From stdpp Require Import gmap strings list.

Set Default Proof Using "Type".
Set Warnings "-register-all".

(* ===================================================================== *)
(** * JavaScript numbers *)
(* ===================================================================== *)

(** A JavaScript number is a double.  Every finite double is a rational, and
    the arithmetic the tools perform to resolve request parameters
    ([Math.round], [Math.min], [Math.max], comparisons) is exact on
    doubles, so finite numbers are kept as rationals.  The two products
    [delay * 1000] and [(duration + 30) * 1000] are kept as exact
    rationals too; where the rounding of the double matters to the code,
    for the timeout of the encoder, it is left to the environment (see
    [valid_timeout]).  The sign of zero is not tracked: none of the code
    below can observe it. *)
Module JsNumber.

Inductive number : Type :=
| NaN
| PosInf
| NegInf
| Fin (q : Q).

Definition of_Z (z : Z) : number := Fin (inject_Z z).

Definition is_nan (x : number) : bool :=
  match x with NaN => true | _ => false end.

(** [Math.round]: the nearest integer, ties towards +Infinity. *)
Definition round_half_up (q : Q) : Z := Qfloor (q + (1 # 2)).

Definition math_round (x : number) : number :=
  match x with
  | Fin q => of_Z (round_half_up q)
  | _ => x
  end.

(** [Math.max] and [Math.min] of two arguments: NaN is contagious. *)
Definition math_max (a b : number) : number :=
  match a, b with
  | NaN, _ | _, NaN => NaN
  | PosInf, _ | _, PosInf => PosInf
  | NegInf, y => y
  | x, NegInf => x
  | Fin p, Fin q => if Qle_bool p q then Fin q else Fin p
  end.

Definition math_min (a b : number) : number :=
  match a, b with
  | NaN, _ | _, NaN => NaN
  | NegInf, _ | _, NegInf => NegInf
  | PosInf, y => y
  | x, PosInf => x
  | Fin p, Fin q => if Qle_bool p q then Fin p else Fin q
  end.

(** Strict equality [===] on numbers. *)
Definition strict_eq (a b : number) : bool :=
  match a, b with
  | Fin p, Fin q => Qeq_bool p q
  | PosInf, PosInf | NegInf, NegInf => true
  | _, _ => false
  end.

(** [a > b] *)
Definition gt (a b : number) : bool :=
  match a, b with
  | NaN, _ | _, NaN => false
  | PosInf, PosInf => false
  | PosInf, _ => true
  | _, PosInf => false
  | NegInf, _ => false
  | Fin _, NegInf => true
  | Fin p, Fin q => negb (Qle_bool p q)
  end.

(** [a >= b] (PowerShell's [-ge] on the numbers it is given here). *)
Definition ge (a b : number) : bool :=
  match a, b with
  | NaN, _ | _, NaN => false
  | PosInf, _ => true
  | _, NegInf => true
  | NegInf, _ => false
  | Fin _, PosInf => false
  | Fin p, Fin q => Qle_bool q p
  end.

Definition mul (a : number) (k : Q) : number :=
  match a with
  | Fin q => Fin (q * k)
  | _ => a
  end.

Definition add (a : number) (k : Q) : number :=
  match a with
  | Fin q => Fin (q + k)
  | _ => a
  end.

(** The value lies in the closed interval [[lo, hi]]. *)
Definition within (lo hi : Q) (x : number) : Prop :=
  match x with
  | Fin q => (lo <= q /\ q <= hi)%Q
  | _ => False
  end.

End JsNumber.
Export JsNumber.

(* ===================================================================== *)
(** * JavaScript values *)
(* ===================================================================== *)

(** A template literal with interpolated numbers is kept as its pieces, so
    that [String(n)] never has to print a double. *)
Inductive piece : Type :=
| Txt (s : string)
| Num (n : number).

Definition text : Type := list piece.

Inductive value : Type :=
| VUndefined
| VNull
| VBool (b : bool)
| VNum (n : number)
| VStr (s : string)
| VText (t : text)
| VArr (l : list value)
| VObj (fields : list (string * value)).

(** [typeof v === "number"] *)
Definition as_number (v : value) : option number :=
  match v with VNum n => Some n | _ => None end.

(** Property access on a [Record<string, unknown>]: a missing key reads as
    [undefined]. *)
Definition prop (params : gmap string value) (k : string) : value :=
  default VUndefined (params !! k).

(** Field of an object literal (the first binding of the key). *)
Fixpoint lookup_field (k : string) (fields : list (string * value)) : value :=
  match fields with
  | [] => VUndefined
  | (k', v) :: rest => if String.eqb k k' then v else lookup_field k rest
  end.

Definition field (k : string) (v : value) : value :=
  match v with
  | VObj fields => lookup_field k fields
  | _ => VUndefined
  end.

(* ===================================================================== *)
(** * Plugin configuration ([config.ts]) *)
(* ===================================================================== *)

Inductive ImageFormat : Type := Png | Jpeg.

Definition format_name (f : ImageFormat) : string :=
  match f with Png => "png" | Jpeg => "jpeg" end.

Record ScreenCaptureConfig : Type := {
  ffmpegPath : option string;
  defaultMonitor : option number;
  screenshotFormat : option ImageFormat;
  maxVideoDuration : option number;
}.

Definition empty_config : ScreenCaptureConfig :=
  {| ffmpegPath := None; defaultMonitor := None;
     screenshotFormat := None; maxVideoDuration := None |}.

(* ===================================================================== *)
(** * Parameter resolution *)
(* ===================================================================== *)

(** [screenshot-tool.ts], [execute]:
    [typeof params.delay === "number" ? Math.min(Math.max(params.delay, 0), 10) : 0] *)
Definition resolveDelay (delay : value) : number :=
  match as_number delay with
  | Some d => math_min (math_max d (of_Z 0)) (of_Z 10)
  | None => of_Z 0
  end.

(** [typeof params.monitor === "number" ? params.monitor
      : (pluginConfig.defaultMonitor ?? 0)] *)
Definition resolveMonitor (monitor : value) (cfg : ScreenCaptureConfig) : number :=
  match as_number monitor with
  | Some m => m
  | None => default (of_Z 0) (defaultMonitor cfg)
  end.

(** [video-tool.ts], [createVideoTool]:
    [const maxDuration = pluginConfig.maxVideoDuration ?? 60] *)
Definition maxDurationOf (cfg : ScreenCaptureConfig) : number :=
  default (of_Z 60) (maxVideoDuration cfg).

(** [typeof params.duration === "number"
      ? Math.min(Math.max(Math.round(params.duration), 1), maxDuration) : null] *)
Definition resolveDuration (duration : value) (maxDuration : number) : option number :=
  match as_number duration with
  | Some d => Some (math_min (math_max (math_round d) (of_Z 1)) maxDuration)
  | None => None
  end.

(** [typeof params.fps === "number"
      ? Math.min(Math.max(Math.round(params.fps), 10), 60) : 30] *)
Definition resolveFps (fps : value) : number :=
  match as_number fps with
  | Some f => math_min (math_max (math_round f) (of_Z 10)) (of_Z 60)
  | None => of_Z 30
  end.

(** [typeof params.monitor === "number" ? params.monitor : undefined] *)
Definition requestedMonitor (monitor : value) : option number :=
  as_number monitor.

(* ===================================================================== *)
(** * JavaScript strings *)
(* ===================================================================== *)

(** A string is its sequence of code units; the subprocess output handled
    here is Latin-1 text, one byte per code unit. *)
Module JsString.

(** The code units below 256 that [String.prototype.trim] and [parseInt]
    treat as white space: TAB, LF, VT, FF, CR, SPACE and NBSP. *)
Definition is_ws (c : ascii) : bool :=
  match N_of_ascii c with
  | 9 | 10 | 11 | 12 | 13 | 32 | 160 => true
  | _ => false
  end%N.

Fixpoint trimStart (s : string) : string :=
  match s with
  | EmptyString => EmptyString
  | String c rest => if is_ws c then trimStart rest else s
  end.

Fixpoint trimEnd (s : string) : string :=
  match s with
  | EmptyString => EmptyString
  | String c rest =>
      match trimEnd rest with
      | EmptyString => if is_ws c then EmptyString else String c EmptyString
      | kept => String c kept
      end
  end.

Definition trim (s : string) : string := trimEnd (trimStart s).

(** [s.split(sep)] for a one-character separator: always at least one
    piece, the empty string splits into one empty piece. *)
Fixpoint split (sep : ascii) (s : string) : list string :=
  match s with
  | EmptyString => [EmptyString]
  | String c rest =>
      if Ascii.eqb c sep then EmptyString :: split sep rest
      else match split sep rest with
           | piece :: pieces => String c piece :: pieces
           | [] => [String c EmptyString]
           end
  end.

(** [Boolean(s)] on a string: the empty string is the only falsy one. *)
Definition truthy (s : string) : bool :=
  match s with EmptyString => false | _ => true end.

Definition digit_of (c : ascii) : option Z :=
  let n := N_of_ascii c in
  if ((48 <=? n) && (n <=? 57))%N then Some (Z.of_N n - 48)%Z else None.

(** The value of the longest prefix of decimal digits, together with the
    number of digits read. *)
Fixpoint read_digits (acc : Z) (count : nat) (s : string) : Z * nat :=
  match s with
  | EmptyString => (acc, count)
  | String c rest =>
      match digit_of c with
      | Some d => read_digits (10 * acc + d) (S count) rest
      | None => (acc, count)
      end
  end.

(** The number value of an integer: the nearest double, with a tie going
    to the even mantissa, and an infinity beyond the largest double.  The
    integers below 2^53 are doubles themselves; above, a double keeps the
    53 leading bits. *)
Definition to_double (z : Z) : number :=
  let a := Z.abs z in
  if (a <? 2 ^ 53)%Z then of_Z z
  else
    let e := (Z.log2 a - 52)%Z in
    let q := Z.shiftr a e in
    let r := Z.land a (Z.ones e) in
    let half := (2 ^ (e - 1))%Z in
    let q' :=
      if (half <? r)%Z || ((r =? half)%Z && Z.odd q) then (q + 1)%Z else q in
    let m := Z.shiftl q' e in
    if (2 ^ 1024 <=? m)%Z then (if (z <? 0)%Z then NegInf else PosInf)
    else of_Z (Z.sgn z * m).

Arguments to_double : simpl never.

(** [parseInt(s, 10)]: skip leading white space, read an optional sign and
    the longest run of decimal digits; NaN when there is no digit, else
    the number value of the integer read. *)
Definition parseInt (s : string) : number :=
  let body := trimStart s in
  let '(sign, digits) :=
    match body with
    | String "-" rest => ((-1)%Z, rest)
    | String "+" rest => (1%Z, rest)
    | _ => (1%Z, body)
    end in
  match read_digits 0 0 digits with
  | (_, O) => NaN
  | (v, S _) => to_double (sign * v)
  end.

(** [parseInt(x, 10)] where [x] is a destructured array element that may
    be [undefined]: the argument is first converted with [ToString]. *)
Definition parseIntOpt (x : option string) : number :=
  parseInt (default "undefined" x).

End JsString.
Export JsString.

(* ===================================================================== *)
(** * Parsing the enumeration output *)
(* ===================================================================== *)

(** [output.trim().split("\n").filter(Boolean)] *)
Definition recordLines (output : string) : list string :=
  List.filter truthy (split "010" (trim output)).

(** [line.trim().split("|")] *)
Definition recordFields (line : string) : list string :=
  split "|" (trim line).

Module Monitor.
(** One element of the [monitors] array built by [list_monitors]. *)
Record t : Type := {
  index : number;
  name : option string;
  width : number;
  height : number;
  x : number;
  y : number;
  primary : bool;
}.

Definition to_value (m : t) : value :=
  VObj [("index", VNum (index m));
        ("name", from_option VStr VUndefined (name m));
        ("width", VNum (width m));
        ("height", VNum (height m));
        ("x", VNum (x m));
        ("y", VNum (y m));
        ("primary", VBool (primary m))].
End Monitor.

(** The callback of [.map(...)] in [list_monitors]:
    [const [index, name, width, height, x, y, primary] = line.trim().split("|")] *)
Definition parseMonitorLine (line : string) : Monitor.t :=
  let fields := recordFields line in
  {| Monitor.index := parseIntOpt (fields !! 0%nat);
     Monitor.name := trim <$> (fields !! 1%nat);
     Monitor.width := parseIntOpt (fields !! 2%nat);
     Monitor.height := parseIntOpt (fields !! 3%nat);
     Monitor.x := parseIntOpt (fields !! 4%nat);
     Monitor.y := parseIntOpt (fields !! 5%nat);
     Monitor.primary := bool_decide (fields !! 6%nat = Some "PRIMARY") |}.

Definition parseMonitors (output : string) : list Monitor.t :=
  map parseMonitorLine (recordLines output).

Module MonitorBounds.
Record t : Type := {
  x : number;
  y : number;
  width : number;
  height : number;
}.

Definition to_value (b : t) : value :=
  VObj [("x", VNum (x b)); ("y", VNum (y b));
        ("width", VNum (width b)); ("height", VNum (height b))].
End MonitorBounds.

(** The object literal returned in both places of [getMonitorBounds]:
    fields 1..4 of the line are x, y, width, height. *)
Definition boundsOfLine (line : string) : MonitorBounds.t :=
  let fields := recordFields line in
  {| MonitorBounds.x := parseIntOpt (fields !! 1%nat);
     MonitorBounds.y := parseIntOpt (fields !! 2%nat);
     MonitorBounds.width := parseIntOpt (fields !! 3%nat);
     MonitorBounds.height := parseIntOpt (fields !! 4%nat) |}.

(** The index field a line echoes: [parseInt(idx, 10)]. *)
Definition echoedIndex (line : string) : number :=
  parseIntOpt (recordFields line !! 0%nat).

(** [for (const line of lines) { if (parseInt(idx, 10) === monitorIndex) return {...} }] *)
Fixpoint findBounds (lines : list string) (monitorIndex : number)
  : option MonitorBounds.t :=
  match lines with
  | [] => None
  | line :: rest =>
      if strict_eq (echoedIndex line) monitorIndex
      then Some (boundsOfLine line)
      else findBounds rest monitorIndex
  end.

(** Lines 60-84 of [getMonitorBounds]: the loop, then the first line as a
    fallback, then [null]. *)
Definition boundsFromOutput (output : string) (monitorIndex : number)
  : option MonitorBounds.t :=
  let lines := recordLines output in
  match findBounds lines monitorIndex with
  | Some b => Some b
  | None =>
      match lines with
      | first :: _ => Some (boundsOfLine first)
      | [] => None
      end
  end.

(* ===================================================================== *)
(** * The outside world *)
(* ===================================================================== *)

(** The three PowerShell scripts the tools generate.  A script is kept by
    what it was instantiated with rather than by its text. *)
Inductive Script : Type :=
| ListMonitorsScript
| GetMonitorBoundsScript
| ScreenshotScript (outputPath : string) (monitorIndex : number)
                   (imageFormat : ImageFormat).

(** [createListMonitorsScript()], [createGetMonitorBoundsScript()] and
    [createScreenshotScript(outputPath, monitorIndex, imageFormat)]: the
    templates interpolate nothing else.  (The screenshot template doubles
    the backslashes of [outputPath]; Windows resolves the doubled
    separators to the same file.) *)
Definition createListMonitorsScript : Script := ListMonitorsScript.

Definition createGetMonitorBoundsScript : Script := GetMonitorBoundsScript.

Definition createScreenshotScript (outputPath : string) (monitorIndex : number)
    (imageFormat : ImageFormat) : Script :=
  ScreenshotScript outputPath monitorIndex imageFormat.

(** Lines 58-65 of the screenshot script:
    [$monitorIndex = <n>], then
    [if ($monitorIndex -ge $screens.Length) { $monitorIndex = 0 }],
    then [$screens[$monitorIndex]] is captured.  This is the value of
    [$monitorIndex] after the guard, on a system with [screens] displays. *)
Definition scriptScreenIndex (monitorIndex : number) (screens : nat) : number :=
  if ge monitorIndex (of_Z (Z.of_nat screens)) then of_Z 0 else monitorIndex.

Inductive FileData : Type :=
| ScriptFile (s : Script)
| Bytes (b : string).

Inductive LogLevel : Type := Warn | Info.

(** What the tools do to the outside world, in order. *)
Inductive Event : Type :=
| EAllocTemp (path : string)
    (** a temp path was built from [os.tmpdir()] and [crypto.randomUUID()] *)
| EWriteFile (path : string) (s : Script)
| EExec (scriptPath : string) (timeoutMs : Z)
    (** [execSync(`powershell ... -File "${scriptPath}"`)] *)
| ESpawn (command : string) (args : list text) (shell : bool) (timeoutMs : number)
| EUnlink (path : string)
    (** a deletion attempt, [fs.unlink] or [fsSync.unlinkSync] *)
| EStat (path : string) (size : option nat)
| EReadFile (path : string)
| ESleep (ms : number)
| ESave (contentType subdir : string) (maxBytes : Z) (filename : text)
| ELog (level : LogLevel) (message : text)
| ERegisterTool (name : string).

Inductive IoFailure : Type :=
| WriteFailed (path : string)
| UnlinkFailed (path : string)
| StatFailed (path : string)
| ScriptMissing (path : string)
| SpawnFailed (command : string)
| TimeoutOutOfRange (timeoutMs : number).

(** Result of running a generated script with [execSync]. *)
Inductive ExecResult : Type :=
| Completed (stdout : string)
| ExecFailed (message : string).      (* non-zero exit, timeout, spawn error *)

Record PsOutcome : Type := {
  ps_result : ExecResult;
  ps_saved : option string;  (* bytes the screenshot script saved, if any *)
}.

(** Result of a [spawnSync(cmd, ["-version"], ...)] probe. *)
Inductive ProbeResult : Type :=
| ProbeStatus (status : option Z)     (* [result.status]; [null] is [None] *)
| ProbeThrew.

(** Result of the encoder run: [spawnSync] reports failures in the object
    it returns, and the encoder may or may not leave a file behind. *)
Record EncoderOutcome : Type := {
  enc_status : option Z;
  enc_output : option string;
}.

(** What [saveMediaBuffer] resolves to. *)
Record SavedMedia : Type := {
  saved_path : string;
  saved_size : value;
  saved_contentType : value;
}.

Inductive SaveResult : Type :=
| Saved (s : SavedMedia)
| SaveFailed (message : string).

(** The answers of the operating system, the subprocesses and the two
    collaborators of the host ([media/store], [agents/tools/common]). *)
Record Env : Type := {
  platform : string;                           (* [process.platform] *)
  tmpdir : string;                             (* [os.tmpdir()] *)
  homedir : string;                            (* [os.homedir()] *)
  uuid_at : nat -> string;                     (* successive [crypto.randomUUID()] *)
  write_fails : string -> bool;                (* [writeFileSync] throws *)
  unlink_fails : string -> bool;               (* a deletion of this path fails *)
  io_message : IoFailure -> string;            (* [error.message] of an I/O error *)
  script_source : Script -> string;            (* text of a generated script *)
  powershell : Script -> PsOutcome;
  probe : string -> bool -> ProbeResult;       (* command, [shell] option *)
  encoder : string -> list text -> EncoderOutcome;  (* command, arguments *)
  timeout_is_whole : Q -> bool;
    (* whether the double JavaScript computes for the product
       [(duration + 30) * 1000] is a finite whole number, where that
       double can differ from the exact product *)
  media_save : string -> string -> string -> Z -> text -> SaveResult;
  image_result_fails : string -> option string;
    (* [imageResultFromFile] rejects, given the [path] it is passed *)
}.

Record World : Type := {
  files : gmap string FileData;
    (* the files on disk, as the synchronous and the awaited operations
       have left them; a deletion that was started and not awaited has
       not taken effect here *)
  uuids : nat;                     (* how many UUIDs have been drawn *)
  trace : list Event;
}.

Definition file_bytes (env : Env) (d : FileData) : string :=
  match d with
  | ScriptFile s => script_source env s
  | Bytes b => b
  end.

(** [path.join(dir, file)] on win32, for a directory without trailing
    separator (as [os.tmpdir()] and [os.homedir()] return it). *)
Definition path_join (dir file : string) : string :=
  dir +:+ String "092" file.

(* ===================================================================== *)
(** * A state-and-exception monad *)
(* ===================================================================== *)

Inductive Outcome (A : Type) : Type :=
| Returned (a : A)
| Thrown (message : string).
Arguments Returned {A} a.
Arguments Thrown {A} message.

Definition M (A : Type) : Type := World -> Outcome A * World.

Definition ret {A : Type} (a : A) : M A := fun w => (Returned a, w).

Definition bind {A B : Type} (m : M A) (k : A -> M B) : M B :=
  fun w =>
    match m w with
    | (Returned a, w') => k a w'
    | (Thrown msg, w') => (Thrown msg, w')
    end.

Declare Scope tool_scope.
Notation "x ← y ; z" := (bind y (fun x => z))
  (at level 20, y at level 100, z at level 200, only parsing) : tool_scope.
Notation "x ;; z" := (bind x (fun _ => z))
  (at level 100, z at level 200, only parsing, right associativity) : tool_scope.
Open Scope tool_scope.

(** [throw new Error(message)] *)
Definition throw {A : Type} (message : string) : M A :=
  fun w => (Thrown message, w).

(** [try { body } catch (error) { handler(error.message) }]: what the body
    did to the world before throwing stays done. *)
Definition try_catch {A : Type} (body : M A) (handler : string -> M A) : M A :=
  fun w =>
    match body w with
    | (Returned a, w') => (Returned a, w')
    | (Thrown msg, w') => handler msg w'
    end.

Definition emit (e : Event) : M unit :=
  fun w => (Returned tt,
            {| files := files w; uuids := uuids w; trace := trace w ++ [e] |}).

Definition set_files (f : gmap string FileData -> gmap string FileData) : M unit :=
  fun w => (Returned tt,
            {| files := f (files w); uuids := uuids w; trace := trace w |}).

Definition get_files : M (gmap string FileData) :=
  fun w => (Returned (files w), w).

Definition initial_world (fs : gmap string FileData) (n : nat) : World :=
  {| files := fs; uuids := n; trace := [] |}.

(* ===================================================================== *)
(** * Primitive operations *)
(* ===================================================================== *)

(** The message of the error Node raises for a missing file. *)
Definition enoent (syscall path : string) : string :=
  "ENOENT: no such file or directory, " +:+ syscall +:+ " '" +:+ path +:+ "'".

Section Primitives.
Variable env : Env.

Definition randomUUID : M string :=
  fun w => (Returned (uuid_at env (uuids w)),
            {| files := files w; uuids := S (uuids w); trace := trace w |}).

(** [path.join(os.tmpdir(), `${prefix}${crypto.randomUUID()}${suffix}`)] *)
Definition tempPath (prefix suffix : string) : M string :=
  u ← randomUUID;
  let p := path_join (tmpdir env) (prefix +:+ u +:+ suffix) in
  emit (EAllocTemp p);;
  ret p.

(** [fsSync.writeFileSync(path, script, "utf-8")] *)
Definition writeFileSync (path : string) (s : Script) : M unit :=
  emit (EWriteFile path s);;
  if write_fails env path then throw (io_message env (WriteFailed path))
  else set_files (insert path (ScriptFile s)).

(** What running a script leaves on disk: the screenshot script may save
    an image at its output path, the two enumeration scripts write
    nothing. *)
Definition after_script (s : Script) (fs : gmap string FileData)
  : gmap string FileData :=
  match s, ps_saved (powershell env s) with
  | ScreenshotScript out _ _, Some image => <[out := Bytes image]> fs
  | _, _ => fs
  end.

(** [execSync(`powershell -NoProfile -ExecutionPolicy Bypass -File "${scriptPath}"`, ...)]:
    PowerShell runs whatever script the file holds; [execSync] returns
    what the script printed, or throws when the process fails or times
    out. *)
Definition execPowershell (scriptPath : string) (timeoutMs : Z) : M string :=
  emit (EExec scriptPath timeoutMs);;
  fs ← get_files;
  match fs !! scriptPath with
  | Some (ScriptFile s) =>
      set_files (after_script s);;
      match ps_result (powershell env s) with
      | Completed stdout => ret stdout
      | ExecFailed message => throw message
      end
  | _ => throw (io_message env (ScriptMissing scriptPath))
  end.

(** The disk after a deletion attempt has taken effect. *)
Definition after_unlink (path : string) (fs : gmap string FileData)
  : gmap string FileData :=
  if unlink_fails env path then fs else delete path fs.

(** [fs.unlink(path).catch(() => {})]: the deletion is started and not
    awaited, and its failure is swallowed.  It takes effect at some later
    time, possibly after the tool has answered: the disk once the started
    deletions are done is [after_unlink] applied for each of them. *)
Definition unlink (path : string) : M unit :=
  emit (EUnlink path).

(** [fsSync.unlinkSync(path)]: throws when the file is missing or cannot
    be deleted. *)
Definition unlinkSync (path : string) : M unit :=
  emit (EUnlink path);;
  fs ← get_files;
  match fs !! path with
  | Some _ =>
      if unlink_fails env path then throw (io_message env (UnlinkFailed path))
      else set_files (delete path)
  | None => throw (io_message env (UnlinkFailed path))
  end.

(** [(await fs.stat(path)).size] *)
Definition stat_size (path : string) : M nat :=
  fs ← get_files;
  match fs !! path with
  | Some d =>
      let size := String.length (file_bytes env d) in
      emit (EStat path (Some size));;
      ret size
  | None =>
      emit (EStat path None);;
      throw (io_message env (StatFailed path))
  end.

(** [await fs.readFile(path)]: for a missing file Node's error message is
    [ENOENT: no such file or directory, open '<path>']. *)
Definition readFile (path : string) : M string :=
  emit (EReadFile path);;
  fs ← get_files;
  match fs !! path with
  | Some d => ret (file_bytes env d)
  | None => throw (enoent "open" path)
  end.

(** [await new Promise((resolve) => setTimeout(resolve, ms))] *)
Definition sleep (ms : number) : M unit := emit (ESleep ms).

(** [saveMediaBuffer(buffer, contentType, subdir, maxBytes, originalFilename)]:
    the media store persists the buffer in a file of its own and answers
    with the path of that file. *)
Definition saveMediaBuffer (buffer contentType subdir : string)
    (maxBytes : Z) (originalFilename : text) : M SavedMedia :=
  emit (ESave contentType subdir maxBytes originalFilename);;
  match media_save env buffer contentType subdir maxBytes originalFilename with
  | Saved s =>
      set_files (insert (saved_path s) (Bytes buffer));;
      ret s
  | SaveFailed message => throw message
  end.

(** [spawnSync(command, ["-version"], { timeout: 5000, windowsHide: true, shell })] *)
Definition spawnVersion (command : string) (shell : bool) : M (option Z) :=
  emit (ESpawn command [[Txt "-version"]] shell (of_Z 5000));;
  match probe env command shell with
  | ProbeStatus status => ret status
  | ProbeThrew => throw (io_message env (SpawnFailed command))
  end.

(** The disk after the encoder ran with [outputPath] as its last
    argument. *)
Definition after_encoder (command : string) (args : list text)
    (outputPath : string) (fs : gmap string FileData) : gmap string FileData :=
  match enc_output (encoder env command args) with
  | Some video => <[outputPath := Bytes video]> fs
  | None => fs
  end.

(** The [timeout] option [spawnSync] accepts: an unsigned integer.  The
    product [(duration + 30) * 1000] is exact in doubles when the duration
    is a whole number and the product is at most 2^53, that is when the
    exact product is a whole multiple of 1000 up to 2^53; otherwise the
    double that JavaScript computes is rounded, and whether it is a finite
    whole number is left to the environment. *)
Definition valid_timeout (timeoutMs : number) : bool :=
  match timeoutMs with
  | Fin t =>
      Qle_bool 0 t
      && (if Qeq_bool (t / 1000) (inject_Z (Qfloor (t / 1000)))
             && Qle_bool t (inject_Z (2 ^ 53))
          then true
          else timeout_is_whole env t)
  | _ => false
  end.

(** [spawnSync(ffmpeg, args, { timeout, windowsHide: true, stdio: "ignore" })]:
    [spawnSync] throws [ERR_OUT_OF_RANGE] before it starts anything when
    the timeout is no unsigned integer; it reports a failed or timed-out
    child in the object it returns. *)
Definition spawnEncoder (command : string) (args : list text) (outputPath : string)
    (timeoutMs : number) : M (option Z) :=
  if valid_timeout timeoutMs then
    emit (ESpawn command args false timeoutMs);;
    set_files (after_encoder command args outputPath);;
    ret (enc_status (encoder env command args))
  else throw (io_message env (TimeoutOutOfRange timeoutMs)).

End Primitives.

(* ===================================================================== *)
(** * The plugin *)
(* ===================================================================== *)

(** The parts of [OpenClawPluginApi] the plugin touches.  [warn] and [info]
    say whether the logger has the method ([api.logger?.warn?.(...)]). *)
Record Logger : Type := { has_warn : bool; has_info : bool }.

Record Api : Type := {
  pluginConfig : option ScreenCaptureConfig;
  logger : option Logger;
}.

(** What a tool's [execute] resolves to. *)
Inductive ToolResult : Type :=
| JsonResult (payload : value)
    (** [jsonResult(payload)]: the payload, pretty-printed and as [details] *)
| ImageResult (label path : string) (extraText : text) (details : value).
    (** what [imageResultFromFile] built from these arguments *)

Definition payload_of (r : ToolResult) : value :=
  match r with
  | JsonResult payload => payload
  | ImageResult _ _ _ details => details
  end.

Section Plugin.
Variable env : Env.
Variable api : Api.

(** [(api.pluginConfig ?? {}) as ScreenCaptureConfig] *)
Definition config : ScreenCaptureConfig := default empty_config (pluginConfig api).

(** [api.logger?.warn?.(message)] and [api.logger?.info?.(message)] *)
Definition log (level : LogLevel) (message : text) : M unit :=
  match logger api with
  | Some l =>
      if match level with Warn => has_warn l | Info => has_info l end
      then emit (ELog level message)
      else ret tt
  | None => ret tt
  end.

(** [api.registerTool(tool)], by the tool's [name] *)
Definition registerTool (name : string) : M unit := emit (ERegisterTool name).

(** [index.ts], [register] *)
Definition register : M unit :=
  if negb (String.eqb (platform env) "win32") then
    log Warn [Txt "Screen Capture plugin is currently Windows-only"]
  else
    registerTool "list_monitors";;
    registerTool "take_screenshot";;
    registerTool "record_screen";;
    log Info [Txt "Screen Capture plugin registered (list_monitors + screenshot + video tools)"].

(* ------------------------------------------------------------------- *)
(** ** list_monitors *)

Definition list_monitors_hint : string :=
  "Use the 'monitor' parameter in take_screenshot or record_screen to capture a specific monitor by index.".

Definition list_monitors (params : gmap string value) : M ToolResult :=
  scriptPath ← tempPath env "list-monitors-" ".ps1";
  try_catch
    (writeFileSync env scriptPath createListMonitorsScript;;
     output ← execPowershell env scriptPath 10000;
     unlink scriptPath;;
     let monitors := parseMonitors output in
     ret (JsonResult (VObj
       [("monitors", VArr (map Monitor.to_value monitors));
        ("count", VNum (of_Z (Z.of_nat (length monitors))));
        ("hint", VStr list_monitors_hint)])))
    (fun message =>
       unlink scriptPath;;
       ret (JsonResult (VObj
         [("error", VStr "Failed to list monitors");
          ("details", VStr message)]))).

(* ------------------------------------------------------------------- *)
(** ** take_screenshot *)

Definition mime_of (format : ImageFormat) : string :=
  match format with Jpeg => "image/jpeg" | Png => "image/png" end.

(** [imageResultFromFile({ label, path, extraText, details })] *)
Definition imageResultFromFile (label path : string) (extraText : text)
    (details : value) : M ToolResult :=
  match image_result_fails env path with
  | Some message => throw message
  | None => ret (ImageResult label path extraText details)
  end.

Definition take_screenshot (params : gmap string value) : M ToolResult :=
  let delay := resolveDelay (prop params "delay") in
  let monitor := resolveMonitor (prop params "monitor") config in
  let format := default Png (screenshotFormat config) in
  (if gt delay (of_Z 0) then sleep (mul delay 1000) else ret tt);;
  outputPath ← tempPath env "screenshot-" ("." +:+ format_name format);
  scriptPath ← tempPath env "screenshot-" ".ps1";
  try_catch
    (writeFileSync env scriptPath (createScreenshotScript outputPath monitor format);;
     execPowershell env scriptPath 30000;;
     buffer ← readFile env outputPath;
     saved ← saveMediaBuffer env buffer (mime_of format) "screenshots"
               (10 * 1024 * 1024) [Txt "screenshot."; Txt (format_name format)];
     unlink outputPath;;
     unlink scriptPath;;
     imageResultFromFile "Screenshot" (saved_path saved)
       [Txt "Screenshot captured (monitor "; Num monitor; Txt ", ";
        Txt (format_name format); Txt "). Saved to: "; Txt (saved_path saved)]
       (VObj [("monitor", VNum monitor);
              ("format", VStr (format_name format));
              ("delay", VNum delay);
              ("savedPath", VStr (saved_path saved))]))
    (fun message =>
       unlink outputPath;;
       unlink scriptPath;;
       ret (JsonResult (VObj
         [("error", VStr "Screenshot capture failed");
          ("details", VStr message);
          ("platform", VStr (platform env))]))).

(* ------------------------------------------------------------------- *)
(** ** Monitor bounds ([video-tool.ts], [getMonitorBounds]) *)

Definition getMonitorBounds (monitorIndex : number) : M (option MonitorBounds.t) :=
  scriptPath ← tempPath env "get-monitor-bounds-" ".ps1";
  try_catch
    (writeFileSync env scriptPath createGetMonitorBoundsScript;;
     output ← execPowershell env scriptPath 10000;
     unlinkSync env scriptPath;;
     ret (boundsFromOutput output monitorIndex))
    (fun _ =>
       try_catch (unlinkSync env scriptPath) (fun _ => ret tt);;
       ret None).

(* ------------------------------------------------------------------- *)
(** ** FFmpeg lookup ([video-tool.ts], [findFfmpeg]) *)

(** [try { const result = spawnSync(command, ["-version"], ...);
          if (result.status === 0) return command; } catch { }] *)
Definition respondsToVersion (command : string) (shell : bool) : M bool :=
  try_catch
    (status ← spawnVersion env command shell;
     ret (bool_decide (status = Some 0%Z)))
    (fun _ => ret false).

Definition commonPaths : list string :=
  ["C:\ffmpeg\bin\ffmpeg.exe";
   "C:\Program Files\ffmpeg\bin\ffmpeg.exe";
   "C:\Program Files (x86)\ffmpeg\bin\ffmpeg.exe";
   path_join (path_join (path_join (homedir env) "ffmpeg") "bin") "ffmpeg.exe";
   path_join (path_join (path_join (homedir env) "scoop") "shims") "ffmpeg.exe"].

(** [for (const p of commonPaths) { ... }] *)
Fixpoint probeEach (paths : list string) : M (option string) :=
  match paths with
  | [] => ret None
  | p :: rest =>
      ok ← respondsToVersion p false;
      if ok then ret (Some p) else probeEach rest
  end.

Definition findFfmpeg (configPath : option string) : M (option string) :=
  fromConfig ←
    match configPath with
    | Some p =>
        if truthy p then
          ok ← respondsToVersion p false;
          ret (if ok then Some p else None)
        else ret None
    | None => ret None
    end;
  match fromConfig with
  | Some p => ret (Some p)
  | None =>
      ok ← respondsToVersion "ffmpeg" true;
      if ok then ret (Some "ffmpeg") else probeEach commonPaths
  end.

(* ------------------------------------------------------------------- *)
(** ** record_screen *)

Definition maxDuration : number := maxDurationOf config.

(** The argument vector built in lines 249-278. *)
Definition encoderArgs (fps duration : number)
    (monitorBounds : option MonitorBounds.t) (outputPath : string) : list text :=
  [[Txt "-f"]; [Txt "gdigrab"]; [Txt "-framerate"]; [Num fps]]
  ++ match monitorBounds return list text with
     | Some b =>
         [[Txt "-offset_x"]; [Num (MonitorBounds.x b)];
          [Txt "-offset_y"]; [Num (MonitorBounds.y b)];
          [Txt "-video_size"];
          [Num (MonitorBounds.width b); Txt "x"; Num (MonitorBounds.height b)]]
     | None => []
     end
  ++ [[Txt "-i"]; [Txt "desktop"]; [Txt "-t"]; [Num duration];
      [Txt "-vf"]; [Txt "pad=ceil(iw/2)*2:ceil(ih/2)*2"];
      [Txt "-c:v"]; [Txt "libx264"]; [Txt "-pix_fmt"]; [Txt "yuv420p"];
      [Txt "-preset"]; [Txt "ultrafast"]; [Txt "-y"]; [Txt outputPath]].

Definition recordingSucceeded (duration fps : number)
    (monitorIndex : option number) (monitorBounds : option MonitorBounds.t)
    (saved : SavedMedia) : value :=
  VObj [("success", VBool true);
        ("message",
          VText ([Txt "Recorded "; Num duration; Txt "s of "]
                 ++ match monitorIndex return text with
                    | Some m => [Txt "monitor "; Num m]
                    | None => [Txt "all monitors"]
                    end
                 ++ [Txt " at "; Num fps; Txt "fps"]));
        ("path", VStr (saved_path saved));
        ("size", saved_size saved);
        ("contentType", saved_contentType saved);
        ("duration", VNum duration);
        ("fps", VNum fps);
        ("monitor", from_option VNum VUndefined monitorIndex);
        ("monitorBounds", from_option MonitorBounds.to_value VNull monitorBounds)].

Definition recordingFailed (message : string) : value :=
  VObj [("error", VStr "Screen recording failed");
        ("details", VStr message);
        ("hint", VStr "Ensure FFmpeg is installed and accessible. Try: winget install ffmpeg")].

(** Lines 290-300: the artifact must exist and be non-empty. *)
Definition verifyArtifact (outputPath : string) : M unit :=
  size ← try_catch (stat_size env outputPath)
           (fun _ => throw "Recording failed - no output file created");
  if Nat.eqb size 0 then throw "Recording produced empty file" else ret tt.

(** Lines 243-337: from the allocation of the output path to the result. *)
Definition recordToTemp (ffmpeg : string) (duration fps : number)
    (monitorIndex : option number) (monitorBounds : option MonitorBounds.t)
  : M ToolResult :=
  outputPath ← tempPath env "recording-" ".mp4";
  try_catch
    (let args := encoderArgs fps duration monitorBounds outputPath in
     log Info [Txt "Recording screen for "; Num duration; Txt "s..."];;
     spawnEncoder env ffmpeg args outputPath (mul (add duration 30) 1000);;
     verifyArtifact outputPath;;
     videoBuffer ← readFile env outputPath;
     saved ← saveMediaBuffer env videoBuffer "video/mp4" "recordings"
               (100 * 1024 * 1024)
               [Txt "screen-recording-"; Num duration; Txt "s.mp4"];
     unlink outputPath;;
     ret (JsonResult
             (recordingSucceeded duration fps monitorIndex monitorBounds saved)))
    (fun message =>
       unlink outputPath;;
       ret (JsonResult (recordingFailed message))).

Definition durationRequired : value :=
  VObj [("error", VStr "duration is required");
        ("hint", VText [Txt "Specify duration in seconds (1-"; Num maxDuration; Txt ")"])].

Definition ffmpegNotFound : value :=
  VObj [("error", VStr "FFmpeg not found");
        ("hint", VStr "Install FFmpeg: winget install ffmpeg, or download from ffmpeg.org and add to PATH, or set ffmpegPath in plugin config")].

Definition boundsFailed : value :=
  VObj [("error", VStr "Failed to get monitor bounds");
        ("hint", VStr "Use list_monitors to see available monitors")].

Definition record_screen (params : gmap string value) : M ToolResult :=
  match resolveDuration (prop params "duration") maxDuration with
  | None => ret (JsonResult durationRequired)
  | Some duration =>
      let monitorIndex := requestedMonitor (prop params "monitor") in
      let fps := resolveFps (prop params "fps") in
      found ← findFfmpeg (ffmpegPath config);
      match found with
      | None | Some EmptyString => ret (JsonResult ffmpegNotFound)
      | Some ffmpeg =>
          monitorBounds ←
            match monitorIndex with
            | Some m => getMonitorBounds m
            | None => ret None
            end;
          match monitorIndex, monitorBounds with
          | Some _, None => ret (JsonResult boundsFailed)
          | _, _ => recordToTemp ffmpeg duration fps monitorIndex monitorBounds
          end
      end
  end.

End Plugin.

(* ===================================================================== *)
(** * Parsing the configuration ([config.ts], [configSchema.parse]) *)
(* ===================================================================== *)

(** What the host hands to [configSchema.parse]: the plugin's entry of the
    configuration file as a JavaScript value, [undefined] when there is
    none.  Strings are literals here, nothing is interpolated. *)
Inductive raw : Type :=
| RUndefined
| RNull
| RBool (b : bool)
| RNum (n : number)
| RStr (s : string)
| RArr (items : list raw)
| RObj (members : list (string * raw)).

(** [!value] *)
Definition falsy (v : raw) : bool :=
  match v with
  | RUndefined | RNull => true
  | RBool b => negb b
  | RNum n => is_nan n || strict_eq n (of_Z 0)
  | RStr s => negb (truthy s)
  | RArr _ | RObj _ => false
  end.

(** [typeof value] *)
Definition typeof (v : raw) : string :=
  match v with
  | RUndefined => "undefined"
  | RNull | RArr _ | RObj _ => "object"
  | RBool _ => "boolean"
  | RNum _ => "number"
  | RStr _ => "string"
  end.

(** The member of an object (the first binding of the key). *)
Fixpoint member (k : string) (members : list (string * raw)) : raw :=
  match members with
  | [] => RUndefined
  | (k', v) :: rest => if String.eqb k k' then v else member k rest
  end.

(** [raw.key] for the keys [parse] reads: an object has the member or
    not, an array has none of them. *)
Definition get (v : raw) (k : string) : raw :=
  match v with
  | RObj members => member k members
  | _ => RUndefined
  end.

Module configSchema.

Definition parse (value : raw) : ScreenCaptureConfig :=
  if falsy value || negb (String.eqb (typeof value) "object") then empty_config
  else
    {| ffmpegPath :=
         match get value "ffmpegPath" with RStr s => Some s | _ => None end;
       defaultMonitor :=
         match get value "defaultMonitor" with RNum n => Some n | _ => None end;
       screenshotFormat :=
         Some (match get value "screenshotFormat" with
               | RStr s =>
                   if String.eqb s "png" || String.eqb s "jpeg"
                   then (if String.eqb s "jpeg" then Jpeg else Png)
                   else Png
               | _ => Png
               end);
       maxVideoDuration :=
         Some (match get value "maxVideoDuration" with
               | RNum n => math_min n (of_Z 60)
               | _ => of_Z 60
               end) |}.

End configSchema.

(* ===================================================================== *)
(** * Vocabulary of the properties *)
(* ===================================================================== *)

(** The clamp of the specification, on rationals: round to the nearest
    integer, then bring the value into [[lo, hi]]. *)
Definition clampQ (lo hi q : Q) : Q := Qmin (Qmax q lo) hi.

(** [n] is the integer nearest to [q], the upper one on a tie. *)
Definition nearest_integer (q : Q) (n : Z) : Prop :=
  (inject_Z n - (1 # 2) <= q /\ q < inject_Z n + (1 # 2))%Q.

(** The temp paths a trace allocated, and the paths it tried to delete, in
    order. *)
Definition allocs (t : list Event) : list string :=
  omap (fun e => match e with EAllocTemp p => Some p | _ => None end) t.

Definition unlinks (t : list Event) : list string :=
  omap (fun e => match e with EUnlink p => Some p | _ => None end) t.

(** How many times the trace tried to delete [p]. *)
Definition attempts (p : string) (t : list Event) : nat :=
  length (List.filter (String.eqb p) (unlinks t)).

(** Every allocated temp path saw at least one deletion attempt. *)
Definition released (t : list Event) : Prop :=
  forall p, p ∈ allocs t -> 1 <= attempts p t.

(** Every allocated temp path saw exactly one deletion attempt. *)
Definition released_once (t : list Event) : Prop :=
  forall p, p ∈ allocs t -> attempts p t = 1.

(** No allocated temp path is on disk. *)
Definition removed (t : list Event) (fs : gmap string FileData) : Prop :=
  forall p, p ∈ allocs t -> fs !! p = None.

Definition deletions_succeed (env : Env) : Prop :=
  forall p, unlink_fails env p = false.

Definition result_construction_succeeds (env : Env) : Prop :=
  forall p, image_result_fails env p = None.

(** The last code unit of a string; temp paths of different kinds differ
    in it. *)
Fixpoint last_char (s : string) : option ascii :=
  match s with
  | EmptyString => None
  | String c rest =>
      match rest with
      | EmptyString => Some c
      | String _ _ => last_char rest
      end
  end.

(** The world after some more events. *)
Definition add_events (w : World) (evs : list Event) : World :=
  {| files := files w; uuids := uuids w; trace := trace w ++ evs |}.

(** The commands [findFfmpeg] may probe, in priority order, each with the
    [shell] option it is probed with: the configured path when it is a
    non-empty string, the bare name looked up through the shell, the
    well-known install locations. *)
Definition candidates (env : Env) (configPath : option string)
  : list (string * bool) :=
  match configPath with
  | Some p => if truthy p then [(p, false)] else []
  | None => []
  end
  ++ [("ffmpeg", true)]
  ++ map (fun p => (p, false)) (commonPaths env).

(** The candidate answers the ["-version"] probe with exit status 0. *)
Definition responds (env : Env) (c : string * bool) : bool :=
  match probe env c.1 c.2 with
  | ProbeStatus (Some 0%Z) => true
  | _ => false
  end.

Definition firstResponding (env : Env) (cs : list (string * bool)) : option string :=
  fst <$> List.find (responds env) cs.

(** The candidates up to and including the first that responds. *)
Fixpoint probed (env : Env) (cs : list (string * bool)) : list (string * bool) :=
  match cs with
  | [] => []
  | c :: rest => c :: (if responds env c then [] else probed env rest)
  end.

Definition probeEvent (c : string * bool) : Event :=
  ESpawn c.1 [[Txt "-version"]] c.2 (of_Z 5000).

Definition is_version_probe (e : Event) : Prop :=
  match e with
  | ESpawn _ args _ _ => args = [[Txt "-version"]]
  | _ => False
  end.

(** The temp paths the operations build when they start in world [w]. *)
Definition boundsScriptPath (env : Env) (w : World) : string :=
  path_join (tmpdir env) ("get-monitor-bounds-" +:+ uuid_at env (uuids w) +:+ ".ps1").

Definition recordingPath (env : Env) (w : World) : string :=
  path_join (tmpdir env) ("recording-" +:+ uuid_at env (uuids w) +:+ ".mp4").

(** What the bounds lookup answers, by the answers of the outside world:
    [null] when the script cannot be written, when PowerShell fails, or
    when the script file cannot be deleted afterwards; otherwise the
    bounds read from the output. *)
Definition boundsAnswer (env : Env) (monitorIndex : number) (scriptPath : string)
  : option MonitorBounds.t :=
  if write_fails env scriptPath then None
  else match ps_result (powershell env GetMonitorBoundsScript) with
       | ExecFailed _ => None
       | Completed output =>
           if unlink_fails env scriptPath then None
           else boundsFromOutput output monitorIndex
       end.

(** The observations [fs.stat] made, in order. *)
Definition stats (t : list Event) : list (string * option nat) :=
  omap (fun e => match e with EStat p size => Some (p, size) | _ => None end) t.

(** The file at the output path when the encoder has run, started in
    world [w]: the artifact that is verified. *)
Definition artifact (env : Env) (ffmpeg : string) (duration fps : number)
    (monitorBounds : option MonitorBounds.t) (w : World) : option FileData :=
  after_encoder env ffmpeg
    (encoderArgs fps duration monitorBounds (recordingPath env w))
    (recordingPath env w) (files w)
  !! recordingPath env w.

Definition artifactSize (env : Env) (art : option FileData) : option nat :=
  (fun d => String.length (file_bytes env d)) <$> art.

(** The payload [record_screen] answers with once the encoder has run, by
    the artifact found and the answer of the media store. *)
Definition recordOutcome (env : Env) (duration fps : number)
    (monitorIndex : option number) (monitorBounds : option MonitorBounds.t)
    (art : option FileData) : value :=
  match art with
  | None => recordingFailed "Recording failed - no output file created"
  | Some d =>
      if Nat.eqb (String.length (file_bytes env d)) 0
      then recordingFailed "Recording produced empty file"
      else match media_save env (file_bytes env d) "video/mp4" "recordings"
                   (100 * 1024 * 1024)
                   [Txt "screen-recording-"; Num duration; Txt "s.mp4"] with
           | Saved saved =>
               recordingSucceeded duration fps monitorIndex monitorBounds saved
           | SaveFailed message => recordingFailed message
           end
  end.

(** The payload [record_screen] answers with once the output path is
    allocated: the error [spawnSync] raises when it rejects the timeout,
    and otherwise what the artifact decides. *)
Definition recordAnswer (env : Env) (duration fps : number)
    (monitorIndex : option number) (monitorBounds : option MonitorBounds.t)
    (art : option FileData) : value :=
  if valid_timeout env (mul (add duration 30) 1000)
  then recordOutcome env duration fps monitorIndex monitorBounds art
  else recordingFailed
         (io_message env (TimeoutOutOfRange (mul (add duration 30) 1000))).

(** The two shapes of a [take_screenshot] result. *)
Definition screenshotSucceeded (monitor delay : number) (format : ImageFormat)
    (saved : SavedMedia) : ToolResult :=
  ImageResult "Screenshot" (saved_path saved)
    [Txt "Screenshot captured (monitor "; Num monitor; Txt ", ";
     Txt (format_name format); Txt "). Saved to: "; Txt (saved_path saved)]
    (VObj [("monitor", VNum monitor);
           ("format", VStr (format_name format));
           ("delay", VNum delay);
           ("savedPath", VStr (saved_path saved))]).

Definition screenshotFailed (env : Env) (message : string) : ToolResult :=
  JsonResult (VObj [("error", VStr "Screenshot capture failed");
                    ("details", VStr message);
                    ("platform", VStr (platform env))]).

(** What [take_screenshot] answers, started on the disk [fs] with the
    temp paths [out] and [script], by the answers of the outside world: the
    failure payload with the message of the first operation that throws,
    the success result when none does.  The image is read from where the
    script was told to save it; when the script completed without saving
    anything there, the message is that of the missing file. *)
Definition screenshotAnswer (env : Env) (fs : gmap string FileData)
    (out script : string) (monitor delay : number) (format : ImageFormat)
  : ToolResult :=
  let s := ScreenshotScript out monitor format in
  if write_fails env script
  then screenshotFailed env (io_message env (WriteFailed script))
  else match ps_result (powershell env s) with
       | ExecFailed message => screenshotFailed env message
       | Completed _ =>
           match after_script env s (<[script := ScriptFile s]> fs) !! out with
           | None => screenshotFailed env (enoent "open" out)
           | Some image =>
               match media_save env (file_bytes env image) (mime_of format)
                       "screenshots" (10 * 1024 * 1024)
                       [Txt "screenshot."; Txt (format_name format)] with
               | SaveFailed message => screenshotFailed env message
               | Saved saved =>
                   match image_result_fails env (saved_path saved) with
                   | Some message => screenshotFailed env message
                   | None => screenshotSucceeded monitor delay format saved
                   end
               end
           end
       end.

(** [needle] occurs in [hay]. *)
Fixpoint starts_with (needle hay : string) : bool :=
  match needle, hay with
  | EmptyString, _ => true
  | String a needle', String b hay' => Ascii.eqb a b && starts_with needle' hay'
  | String _ _, EmptyString => false
  end.

Fixpoint mentions (needle hay : string) : bool :=
  starts_with needle hay
  || match hay with
     | EmptyString => false
     | String _ rest => mentions needle rest
     end.

(** The screenshot scripts a trace wrote. *)
Definition writtenScripts (t : list Event) : list Script :=
  omap (fun e => match e with EWriteFile _ s => Some s | _ => None end) t.

(** The tools a trace registered, in order. *)
Definition registeredTools (t : list Event) : list string :=
  omap (fun e => match e with ERegisterTool n => Some n | _ => None end) t.

(** [api.logger?.warn] and [api.logger?.info] are callable. *)
Definition can_warn (api : Api) : bool :=
  from_option has_warn false (logger api).

Definition can_info (api : Api) : bool :=
  from_option has_info false (logger api).

(** The same environment on another platform. *)
Definition with_platform (p : string) (env : Env) : Env :=
  {| platform := p; tmpdir := tmpdir env; homedir := homedir env;
     uuid_at := uuid_at env; write_fails := write_fails env;
     unlink_fails := unlink_fails env; io_message := io_message env;
     script_source := script_source env; powershell := powershell env;
     probe := probe env; encoder := encoder env;
     timeout_is_whole := timeout_is_whole env; media_save := media_save env;
     image_result_fails := image_result_fails env |}.

(** The result carries an [error] field. *)
Definition is_error (r : ToolResult) : bool :=
  match r with
  | JsonResult payload =>
      match field "error" payload with VUndefined => false | _ => true end
  | ImageResult _ _ _ _ => false
  end.

Definition as_returned {A : Type} (o : Outcome A) : option A :=
  match o with Returned a => Some a | Thrown _ => None end.

(* ===================================================================== *)
(** * A concrete machine *)
(* ===================================================================== *)

Definition LF : string := String "010" EmptyString.
Definition CRLF : string := String "013" LF.

(** A Windows machine with two displays and FFmpeg on the search path, on
    which every operation of the outside world succeeds.  The output of
    the two enumeration scripts starts with the [True] that PowerShell
    prints for their bare [[DpiHelper]::SetProcessDPIAware()] statement. *)
Definition demo_env : Env :=
  {| platform := "win32";
     tmpdir := "C:\Temp";
     homedir := "C:\Users\me";
     uuid_at := fun n =>
       match n with
       | O => "1f0e" | S O => "2a9c" | S (S O) => "3b7d" | _ => "4c5e"
       end;
     write_fails := fun _ => false;
     unlink_fails := fun _ => false;
     io_message := fun _ => "I/O error";
     script_source := fun _ => "Add-Type -AssemblyName System.Windows.Forms";
     powershell := fun s =>
       match s with
       | ListMonitorsScript =>
           {| ps_result :=
                Completed ("True" +:+ CRLF
                           +:+ "0|\\.\DISPLAY1|1920|1080|0|0|PRIMARY" +:+ CRLF
                           +:+ "1|\\.\DISPLAY2|1280|1024|1920|0|" +:+ CRLF);
              ps_saved := None |}
       | GetMonitorBoundsScript =>
           {| ps_result :=
                Completed ("True" +:+ CRLF
                           +:+ "0|0|0|1920|1080" +:+ CRLF
                           +:+ "1|1920|0|1280|1024" +:+ CRLF);
              ps_saved := None |}
       | ScreenshotScript _ _ _ =>
           {| ps_result := Completed ("True" +:+ CRLF +:+ "OK" +:+ CRLF);
              ps_saved := Some "image bytes" |}
       end;
     probe := fun command shell =>
       if String.eqb command "ffmpeg" then ProbeStatus (Some 0%Z)
       else ProbeStatus None;
     encoder := fun _ _ =>
       {| enc_status := Some 0%Z; enc_output := Some "video bytes" |};
     timeout_is_whole := fun _ => false;
     media_save := fun buffer contentType subdir _ _ =>
       Saved {| saved_path := path_join (path_join "C:\media" subdir) "4d2a";
                saved_size := VNum (of_Z (Z.of_nat (String.length buffer)));
                saved_contentType := VStr contentType |};
     image_result_fails := fun _ => None |}.

Definition demo_api : Api :=
  {| pluginConfig := None;
     logger := Some {| has_warn := true; has_info := true |} |}.

Definition no_files : gmap string FileData := ∅.

Definition demo_world : World := initial_world no_files 0.

(** [take_screenshot({ monitor: 5 })] *)
Definition screenshot_monitor_5 : gmap string value :=
  {["monitor" := VNum (of_Z 5)]}.

(** The script files a trace ran through PowerShell. *)
Definition execs (t : list Event) : list string :=
  omap (fun e => match e with EExec p _ => Some p | _ => None end) t.

(** The indices 0, 1, ..., n-1. *)
Definition positions (n : nat) : list number :=
  map (fun i => of_Z (Z.of_nat i)) (seq 0 n).

(** Every record line echoes its own position as its index field. *)
Definition echoes_position (lines : list string) : Prop :=
  forall i line, lines !! i = Some line -> echoedIndex line = of_Z (Z.of_nat i).

(** The first record line whose echoed index is the requested one. *)
Definition matchingLine (lines : list string) (monitorIndex : number) : option string :=
  List.find (fun line => strict_eq (echoedIndex line) monitorIndex) lines.

(** An enumeration output whose only line echoes index 5, and one whose
    lines echo their indices in reverse order. *)
Definition echo_5 : string := "5|\\.\DISPLAY1|1920|1080|0|0|PRIMARY".
Definition echo_swapped : string := "1|0|0|1920|1080" +:+ LF +:+ "0|1920|0|1280|1024".

(** The output of the monitor list script on [demo_env]. *)
Definition two_monitors : string :=
  "True" +:+ CRLF
  +:+ "0|\\.\DISPLAY1|1920|1080|0|0|PRIMARY" +:+ CRLF
  +:+ "1|\\.\DISPLAY2|1280|1024|1920|0|" +:+ CRLF.


(** [record_screen({ duration: 5, monitor: 1 })] *)
Definition record_5s_monitor_1 : gmap string value :=
  {["duration" := VNum (of_Z 5); "monitor" := VNum (of_Z 1)]}.

(** [record_screen({ duration: 5 })] *)
Definition record_5s : gmap string value :=
  {["duration" := VNum (of_Z 5)]}.

(** [env] with other answers to the ["-version"] probes. *)
Definition with_probe (answer : string -> bool -> ProbeResult) (env : Env) : Env :=
  {| platform := platform env; tmpdir := tmpdir env; homedir := homedir env;
     uuid_at := uuid_at env; write_fails := write_fails env;
     unlink_fails := unlink_fails env; io_message := io_message env;
     script_source := script_source env; powershell := powershell env;
     probe := answer; encoder := encoder env;
     timeout_is_whole := timeout_is_whole env; media_save := media_save env;
     image_result_fails := image_result_fails env |}.

(** A machine without FFmpeg: every probe fails to start. *)
Definition no_ffmpeg_env : Env :=
  with_probe (fun _ _ => ProbeStatus None) demo_env.

(** The same environment, except that the encoder process reports the exit
    status [status] says. *)
Definition override_status (status : string -> list text -> option Z) (env : Env)
  : Env :=
  {| platform := platform env; tmpdir := tmpdir env; homedir := homedir env;
     uuid_at := uuid_at env; write_fails := write_fails env;
     unlink_fails := unlink_fails env; io_message := io_message env;
     script_source := script_source env; powershell := powershell env;
     probe := probe env;
     encoder := fun command args =>
       {| enc_status := status command args;
          enc_output := enc_output (encoder env command args) |};
     timeout_is_whole := timeout_is_whole env;
     media_save := media_save env;
     image_result_fails := image_result_fails env |}.

(** [env] with another encoder. *)
Definition with_encoder (run : string -> list text -> EncoderOutcome) (env : Env)
  : Env :=
  {| platform := platform env; tmpdir := tmpdir env; homedir := homedir env;
     uuid_at := uuid_at env; write_fails := write_fails env;
     unlink_fails := unlink_fails env; io_message := io_message env;
     script_source := script_source env; powershell := powershell env;
     probe := probe env; encoder := run;
     timeout_is_whole := timeout_is_whole env; media_save := media_save env;
     image_result_fails := image_result_fails env |}.

(** An encoder that exits with status 0 and leaves no file behind. *)
Definition silent_encoder_env : Env :=
  with_encoder (fun _ _ => {| enc_status := Some 0%Z; enc_output := None |}) demo_env.

(** How often [p] occurs in a list of paths. *)
Definition occurrences (p : string) (paths : list string) : nat :=
  length (List.filter (String.eqb p) paths).

(** The disk once the deletions that were [started] have taken effect. *)
Definition settle (env : Env) (started : list string) (fs : gmap string FileData)
  : gmap string FileData :=
  foldr (after_unlink env) fs started.

(** Between [w] and [w'] every temp path that was allocated saw a deletion
    attempt; exactly one when [once] holds; and none is left on disk once
    the deletions have taken effect, when they succeed. *)
Definition cleans_up (once : Prop) (env : Env) (w w' : World) : Prop :=
  exists allocated deleted,
    allocs (trace w') = allocs (trace w) ++ allocated
    /\ unlinks (trace w') = unlinks (trace w) ++ deleted
    /\ (forall p, p ∈ allocated -> 1 <= occurrences p deleted)
    /\ (once -> forall p, p ∈ allocated -> occurrences p deleted = 1)
    /\ (deletions_succeed env ->
        forall p, p ∈ allocated -> settle env deleted (files w') !! p = None).

(** The path in a result: the [path] field of a JSON payload, the [path]
    an image result was built from. *)
Definition result_path (r : ToolResult) : option string :=
  match r with
  | JsonResult payload =>
      match field "path" payload with VStr p => Some p | _ => None end
  | ImageResult _ path _ _ => Some path
  end.

(** [env] where building the image result is rejected. *)
Definition with_image_failure (message : string) (env : Env) : Env :=
  {| platform := platform env; tmpdir := tmpdir env; homedir := homedir env;
     uuid_at := uuid_at env; write_fails := write_fails env;
     unlink_fails := unlink_fails env; io_message := io_message env;
     script_source := script_source env; powershell := powershell env;
     probe := probe env; encoder := encoder env;
     timeout_is_whole := timeout_is_whole env; media_save := media_save env;
     image_result_fails := fun _ => Some message |}.

(** [env] with another answer of PowerShell to every screenshot script. *)
Definition with_capture (answer : PsOutcome) (env : Env) : Env :=
  {| platform := platform env; tmpdir := tmpdir env; homedir := homedir env;
     uuid_at := uuid_at env; write_fails := write_fails env;
     unlink_fails := unlink_fails env; io_message := io_message env;
     script_source := script_source env;
     powershell := fun s =>
       match s with
       | ScreenshotScript _ _ _ => answer
       | _ => powershell env s
       end;
     probe := probe env; encoder := encoder env;
     timeout_is_whole := timeout_is_whole env; media_save := media_save env;
     image_result_fails := image_result_fails env |}.

(** The machine of [demo_env], on which the capture script runs to its end
    without saving an image: a failing method call such as
    [$bitmap.Save(...)] is reported on the error stream and does not stop
    a PowerShell script. *)
Definition blank_capture_env : Env :=
  with_capture {| ps_result := Completed ("True" +:+ CRLF +:+ "OK" +:+ CRLF);
                  ps_saved := None |} demo_env.

(** A call without parameters. *)
Definition no_params : gmap string value := ∅.

(** The machine of [demo_env], on which the host fails to build the image
    result from the saved screenshot. *)
Definition unreadable_image_env : Env :=
  with_image_failure "ENOENT: no such file or directory" demo_env.

(* ===================================================================== *)
(** * What the enumeration scripts print *)
(* ===================================================================== *)

(** One element of [[System.Windows.Forms.Screen]::AllScreens]. *)
Module Screen.
Record t : Type := {
  DeviceName : string;
  X : Z;
  Y : Z;
  Width : Z;
  Height : Z;
  Primary : bool;
}.
End Screen.

(** PowerShell's rendering of an integer inside a double-quoted string. *)
Definition decimal (n : nat) : string :=
  NilEmpty.string_of_uint (Nat.to_uint n).

Definition decimalZ (z : Z) : string :=
  match z with
  | Zneg p => "-" +:+ decimal (Pos.to_nat p)
  | _ => decimal (Z.to_nat z)
  end.

(** The [Write-Output] of [createListMonitorsScript], for the screen at
    [$index]. *)
Definition listMonitorsLine (index : nat) (s : Screen.t) : string :=
  decimal index +:+ "|" +:+ Screen.DeviceName s
  +:+ "|" +:+ decimalZ (Screen.Width s) +:+ "|" +:+ decimalZ (Screen.Height s)
  +:+ "|" +:+ decimalZ (Screen.X s) +:+ "|" +:+ decimalZ (Screen.Y s)
  +:+ "|" +:+ (if Screen.Primary s then "PRIMARY" else "").

(** The [Write-Output] of [createGetMonitorBoundsScript]. *)
Definition boundsLine (index : nat) (s : Screen.t) : string :=
  decimal index +:+ "|" +:+ decimalZ (Screen.X s) +:+ "|" +:+ decimalZ (Screen.Y s)
  +:+ "|" +:+ decimalZ (Screen.Width s) +:+ "|" +:+ decimalZ (Screen.Height s).

(** [$index = 0; foreach ($screen in $screens) { Write-Output ...; $index++ }]:
    one line per screen, each ended by CR LF. *)
Fixpoint writeLines (line : nat -> Screen.t -> string) (index : nat)
    (screens : list Screen.t) : string :=
  match screens with
  | [] => EmptyString
  | s :: rest => line index s +:+ CRLF +:+ writeLines line (S index) rest
  end.

(** What the bare statement [[DpiHelper]::SetProcessDPIAware()] of both
    enumeration scripts writes before the loop: PowerShell sends the
    Boolean the call returns to the output, as [True] or [False]. *)
Definition dpiLine (aware : bool) : string :=
  if aware then "True" else "False".

(** The output of [createListMonitorsScript] and of
    [createGetMonitorBoundsScript]: the line of the DPI call, then the
    lines of the loop. *)
Definition listMonitorsOutput (aware : bool) (screens : list Screen.t) : string :=
  dpiLine aware +:+ CRLF +:+ writeLines listMonitorsLine 0 screens.

Definition boundsOutput (aware : bool) (screens : list Screen.t) : string :=
  dpiLine aware +:+ CRLF +:+ writeLines boundsLine 0 screens.

(** What PowerShell writes for a list of lines, each ended by CR LF. *)
Fixpoint writeOutput (lines : list string) : string :=
  match lines with
  | [] => EmptyString
  | l :: rest => l +:+ CRLF +:+ writeOutput rest
  end.

(** The code unit [c] occurs in [s]. *)
Fixpoint occurs (c : ascii) (s : string) : bool :=
  match s with
  | EmptyString => false
  | String d rest => Ascii.eqb d c || occurs c rest
  end.

(** The line starts with a character that is no white space. *)
Definition started (line : string) : Prop :=
  exists c rest, line = String c rest /\ is_ws c = false.

(** A line PowerShell writes as one line that the parsers read from its
    first character. *)
Definition one_line (line : string) : Prop :=
  started line /\ occurs "010" line = false.

(** The screens with their positions from [k] on, as the loops of the
    scripts number them. *)
Definition numbered (k : nat) (screens : list Screen.t) : list (Z * Screen.t) :=
  imap (fun j s => (Z.of_nat (k + j), s)) screens.

(** The two displays of [demo_env]. *)
Definition demo_screens : list Screen.t :=
  [{| Screen.DeviceName := "\\.\DISPLAY1"; Screen.X := 0; Screen.Y := 0;
      Screen.Width := 1920; Screen.Height := 1080; Screen.Primary := true |};
   {| Screen.DeviceName := "\\.\DISPLAY2"; Screen.X := 1920; Screen.Y := 0;
      Screen.Width := 1280; Screen.Height := 1024; Screen.Primary := false |}].

(* ===================================================================== *)
(** * Vocabulary of the further properties *)
(* ===================================================================== *)

(** What the tools read from a configuration, with the defaults they
    apply: [pluginConfig.ffmpegPath], [pluginConfig.defaultMonitor ?? 0],
    [pluginConfig.screenshotFormat ?? "png"] and
    [pluginConfig.maxVideoDuration ?? 60]. *)
Definition settings (cfg : ScreenCaptureConfig)
  : option string * number * ImageFormat * number :=
  (ffmpegPath cfg, default (of_Z 0) (defaultMonitor cfg),
   default Png (screenshotFormat cfg), maxDurationOf cfg).

(** The value is an object or an array: what passes the first test of
    [parse]. *)
Definition is_object (v : raw) : bool :=
  match v with RObj _ | RArr _ => true | _ => false end.

(** A configuration as the object [parse] returns, seen as a value
    again; an absent field reads as [undefined]. *)
Definition config_value (cfg : ScreenCaptureConfig) : raw :=
  RObj [("ffmpegPath", from_option RStr RUndefined (ffmpegPath cfg));
        ("defaultMonitor", from_option RNum RUndefined (defaultMonitor cfg));
        ("screenshotFormat",
          from_option (fun f => RStr (format_name f)) RUndefined (screenshotFormat cfg));
        ("maxVideoDuration", from_option RNum RUndefined (maxVideoDuration cfg))].

(** The host with the configuration [cfg] and the logger [lg]. *)
Definition configured (cfg : option ScreenCaptureConfig) (lg : option Logger) : Api :=
  {| pluginConfig := cfg; logger := lg |}.

(** The subprocesses a trace started with [spawnSync], in order: command,
    arguments, [shell] option and timeout. *)
Definition spawns (t : list Event) : list (string * list text * bool * number) :=
  omap (fun e => match e with
                 | ESpawn c args sh ms => Some (c, args, sh, ms)
                 | _ => None
                 end) t.

(** The waits of a trace, in milliseconds. *)
Definition sleeps (t : list Event) : list number :=
  omap (fun e => match e with ESleep ms => Some ms | _ => None end) t.

Definition probeSpawn (c : string * bool) : string * list text * bool * number :=
  (c.1, [[Txt "-version"]], c.2, of_Z 5000).

(** The number is NaN or has a fractional part. *)
Definition is_fractional (n : number) : bool :=
  match n with
  | NaN => true
  | Fin q => negb (Qeq_bool q (inject_Z (Qfloor q)))
  | _ => false
  end.

(** [a <= b] on numbers that are not NaN. *)
Definition at_most (a b : number) : Prop :=
  is_nan a = false /\ gt a b = false.

(** The descriptor and the bounds of a screen: its integers as numbers
    (themselves below 2^53, see [to_double]). *)
Definition descriptorOf (e : Z * Screen.t) : Monitor.t :=
  {| Monitor.index := to_double e.1;
     Monitor.name := Some (trim (Screen.DeviceName e.2));
     Monitor.width := to_double (Screen.Width e.2);
     Monitor.height := to_double (Screen.Height e.2);
     Monitor.x := to_double (Screen.X e.2);
     Monitor.y := to_double (Screen.Y e.2);
     Monitor.primary := Screen.Primary e.2 |}.

Definition monitorOf (i : nat) (s : Screen.t) : Monitor.t :=
  descriptorOf (Z.of_nat i, s).

Definition boundsOf (s : Screen.t) : MonitorBounds.t :=
  {| MonitorBounds.x := to_double (Screen.X s);
     MonitorBounds.y := to_double (Screen.Y s);
     MonitorBounds.width := to_double (Screen.Width s);
     MonitorBounds.height := to_double (Screen.Height s) |}.

(** What the two parsers make of a line that holds no record, such as the
    line of the DPI call: no field but the first, which is no numeral. *)
Definition strayMonitor : Monitor.t :=
  {| Monitor.index := NaN; Monitor.name := None;
     Monitor.width := NaN; Monitor.height := NaN;
     Monitor.x := NaN; Monitor.y := NaN; Monitor.primary := false |}.

Definition strayBounds : MonitorBounds.t :=
  {| MonitorBounds.x := NaN; MonitorBounds.y := NaN;
     MonitorBounds.width := NaN; MonitorBounds.height := NaN |}.

(** A record line of the bounds script with any integer as its index
    field. *)
Definition boundsRecord (e : Z * Screen.t) : string :=
  decimalZ e.1 +:+ "|" +:+ decimalZ (Screen.X e.2) +:+ "|" +:+ decimalZ (Screen.Y e.2)
  +:+ "|" +:+ decimalZ (Screen.Width e.2) +:+ "|" +:+ decimalZ (Screen.Height e.2).

(** A record line of the monitor list script with any integer as its
    index field. *)
Definition monitorRecord (e : Z * Screen.t) : string :=
  decimalZ e.1 +:+ "|" +:+ Screen.DeviceName e.2
  +:+ "|" +:+ decimalZ (Screen.Width e.2) +:+ "|" +:+ decimalZ (Screen.Height e.2)
  +:+ "|" +:+ decimalZ (Screen.X e.2) +:+ "|" +:+ decimalZ (Screen.Y e.2)
  +:+ "|" +:+ (if Screen.Primary e.2 then "PRIMARY" else "").

(** The entry the bounds lookup answers with for [m]: the first whose
    index is [m], else the first. *)
Definition entryFor (entries : list (Z * Screen.t)) (m : number)
  : option (Z * Screen.t) :=
  match List.find (fun e => strict_eq (to_double e.1) m) entries with
  | Some e => Some e
  | None => head entries
  end.

(** A device name the list script can print in one field of one line. *)
Definition plain_name (s : Screen.t) : Prop :=
  occurs "|" (Screen.DeviceName s) = false
  /\ occurs "010" (Screen.DeviceName s) = false.

(** The temp path [list_monitors] builds when it starts in world [w]. *)
Definition listScriptPath (env : Env) (w : World) : string :=
  path_join (tmpdir env) ("list-monitors-" +:+ uuid_at env (uuids w) +:+ ".ps1").

(** The two payloads of [list_monitors]. *)
Definition monitorsListed (monitors : list Monitor.t) : value :=
  VObj [("monitors", VArr (map Monitor.to_value monitors));
        ("count", VNum (of_Z (Z.of_nat (length monitors))));
        ("hint", VStr list_monitors_hint)].

Definition listFailed (message : string) : value :=
  VObj [("error", VStr "Failed to list monitors"); ("details", VStr message)].

(** A machine whose displays are [screens] and on which the DPI call
    answers [aware]: the two enumeration scripts print the line of the
    call and what their [Write-Output] lines produce for the screens. *)
Definition with_screens (aware : bool) (screens : list Screen.t) (env : Env) : Env :=
  {| platform := platform env; tmpdir := tmpdir env; homedir := homedir env;
     uuid_at := uuid_at env; write_fails := write_fails env;
     unlink_fails := unlink_fails env; io_message := io_message env;
     script_source := script_source env;
     powershell := fun s =>
       match s with
       | ListMonitorsScript =>
           {| ps_result := Completed (listMonitorsOutput aware screens);
              ps_saved := None |}
       | GetMonitorBoundsScript =>
           {| ps_result := Completed (boundsOutput aware screens);
              ps_saved := None |}
       | _ => powershell env s
       end;
     probe := probe env; encoder := encoder env;
     timeout_is_whole := timeout_is_whole env; media_save := media_save env;
     image_result_fails := image_result_fails env |}.

(** What [list_monitors] answers, by the answers of the outside world. *)
Definition listAnswer (env : Env) (scriptPath : string) : value :=
  if write_fails env scriptPath
  then listFailed (io_message env (WriteFailed scriptPath))
  else match ps_result (powershell env ListMonitorsScript) with
       | Completed output => monitorsListed (parseMonitors output)
       | ExecFailed message => listFailed message
       end.

(** Two record entries that echo their positions in reverse order. *)
Definition swapped_entries : list (Z * Screen.t) :=
  [(1%Z, {| Screen.DeviceName := "\\.\DISPLAY1"; Screen.X := 0; Screen.Y := 0;
            Screen.Width := 1920; Screen.Height := 1080; Screen.Primary := true |});
   (0%Z, {| Screen.DeviceName := "\\.\DISPLAY2"; Screen.X := 1920; Screen.Y := 0;
            Screen.Width := 1280; Screen.Height := 1024; Screen.Primary := false |})].

(** A bounds output of two lines, and a request between them. *)
Definition two_bounds : string :=
  "True" +:+ CRLF +:+ "0|0|0|1920|1080" +:+ CRLF +:+ "1|1920|0|1280|1024" +:+ CRLF.

(** The encoder run of a recording as [spawns] shows it: the command, the
    arguments ending in the output path, no shell, and the timeout
    [(duration + 30) * 1000]. *)
Definition encoderSpawn (ffmpeg : string) (duration fps : number)
    (monitorBounds : option MonitorBounds.t) (outputPath : string)
  : string * list text * bool * number :=
  (ffmpeg, encoderArgs fps duration monitorBounds outputPath, false,
   mul (add duration 30) 1000).


(** A configuration file that asks for a ceiling of 300 seconds, and a
    request for 120 seconds. *)
Definition ceiling_300 : raw := RObj [("maxVideoDuration", RNum (of_Z 300))].

Definition record_120s : gmap string value := {["duration" := VNum (of_Z 120)]}.

(** Between [w] and [w'] the invocation worked on temp paths of its own:
    the paths it allocated are pairwise distinct, it tried to delete
    nothing else, and every file at another path is as it was, now and
    once its deletions have taken effect, except the one file the media
    store may have [stored]. *)
Definition keeps_to_its_temp_files (env : Env) (w w' : World) : Prop :=
  exists allocated deleted stored,
    allocs (trace w') = allocs (trace w) ++ allocated
    /\ unlinks (trace w') = unlinks (trace w) ++ deleted
    /\ NoDup allocated
    /\ (forall p, p ∈ deleted -> p ∈ allocated)
    /\ (stored = []
        \/ exists buffer contentType subdir maxBytes filename saved,
             media_save env buffer contentType subdir maxBytes filename = Saved saved
             /\ stored = [saved_path saved])
    /\ (forall p, p ∉ allocated -> p ∉ stored ->
        files w' !! p = files w !! p
        /\ settle env deleted (files w') !! p = files w !! p).

(** [env] with other answers to deletions. *)
Definition with_unlink_failures (fails : string -> bool) (env : Env) : Env :=
  {| platform := platform env; tmpdir := tmpdir env; homedir := homedir env;
     uuid_at := uuid_at env; write_fails := write_fails env;
     unlink_fails := fails; io_message := io_message env;
     script_source := script_source env; powershell := powershell env;
     probe := probe env; encoder := encoder env;
     timeout_is_whole := timeout_is_whole env; media_save := media_save env;
     image_result_fails := image_result_fails env |}.

(** The wait of [take_screenshot] for a resolved delay. *)
Definition waitFor (delay : number) : list Event :=
  if gt delay (of_Z 0) then [ESleep (mul delay 1000)] else [].

(** The steps of [take_screenshot] when nothing fails, after the wait. *)
Definition screenshotSteps (out script : string) (monitor : number)
    (format : ImageFormat) : list Event :=
  [EAllocTemp out; EAllocTemp script;
   EWriteFile script (ScreenshotScript out monitor format);
   EExec script 30000;
   EReadFile out;
   ESave (mime_of format) "screenshots" (10 * 1024 * 1024)
     [Txt "screenshot."; Txt (format_name format)];
   EUnlink out; EUnlink script].

(** The steps of the bounds lookup when nothing fails. *)
Definition boundsSteps (script : string) : list Event :=
  [EAllocTemp script; EWriteFile script GetMonitorBoundsScript;
   EExec script 10000; EUnlink script].

(** The steps of a recording when nothing fails: allocation, the log line
    when the host's logger takes it, the encoder, the examination of the
    file, its reading, its saving, its deletion. *)
Definition recordingSteps (api : Api) (ffmpeg : string) (duration fps : number)
    (monitorBounds : option MonitorBounds.t) (out : string) (size : nat)
  : list Event :=
  [EAllocTemp out]
  ++ (if can_info api
      then [ELog Info [Txt "Recording screen for "; Num duration; Txt "s..."]]
      else [])
  ++ [ESpawn ffmpeg (encoderArgs fps duration monitorBounds out) false
        (mul (add duration 30) 1000);
      EStat out (Some size);
      EReadFile out;
      ESave "video/mp4" "recordings" (100 * 1024 * 1024)
        [Txt "screen-recording-"; Num duration; Txt "s.mp4"];
      EUnlink out].

(* ===================================================================== *)
(** * Numbers: rounding and clamping *)
(* ===================================================================== *)

Section NumberFacts.
Local Open Scope Q_scope.

Lemma Qle_bool_false (p q : Q) : Qle_bool p q = false -> q < p.
Proof.
  intros H. apply Qnot_le_lt. intros Hle.
  apply Qle_bool_iff in Hle. congruence.
Qed.

Lemma round_half_up_nearest (q : Q) : nearest_integer q (round_half_up q).
Proof.
  unfold nearest_integer, round_half_up.
  pose proof (Qfloor_le (q + (1 # 2))) as Hlo.
  pose proof (Qlt_floor (q + (1 # 2))) as Hhi.
  rewrite inject_Z_plus in Hhi. simpl inject_Z at 2 in Hhi.
  split.
  - apply Qplus_le_l with (z := 1 # 2). ring_simplify.
    ring_simplify in Hlo. exact Hlo.
  - apply Qplus_lt_l with (z := 1 # 2).
    eapply Qlt_le_trans; [exact Hhi |].
    ring_simplify. apply Qle_refl.
Qed.

Lemma nearest_integer_unique (q : Q) (n m : Z) :
  nearest_integer q n -> nearest_integer q m -> n = m.
Proof.
  unfold nearest_integer. intros [Hn1 Hn2] [Hm1 Hm2].
  assert (Hnm : inject_Z n < inject_Z m + 1).
  { apply Qplus_lt_l with (z := - (1 # 2)).
    eapply Qle_lt_trans; [| eapply Qlt_le_trans; [exact Hm2 |]].
    - ring_simplify. ring_simplify in Hn1. exact Hn1.
    - ring_simplify. apply Qle_refl. }
  assert (Hmn : inject_Z m < inject_Z n + 1).
  { apply Qplus_lt_l with (z := - (1 # 2)).
    eapply Qle_lt_trans; [| eapply Qlt_le_trans; [exact Hn2 |]].
    - ring_simplify. ring_simplify in Hm1. exact Hm1.
    - ring_simplify. apply Qle_refl. }
  change 1 with (inject_Z 1) in Hnm, Hmn.
  rewrite <- inject_Z_plus in Hnm, Hmn.
  rewrite <- Zlt_Qlt in Hnm, Hmn. lia.
Qed.

(** On finite numbers the code's clamp is the clamp of the
    specification. *)
Lemma clamp_finite (q lo hi : Q) :
  exists r, math_min (math_max (Fin q) (Fin lo)) (Fin hi) = Fin r
            /\ r == clampQ lo hi q.
Proof.
  unfold clampQ. simpl.
  destruct (Qle_bool q lo) eqn:E1; simpl.
  - apply Qle_bool_iff in E1.
    destruct (Qle_bool lo hi) eqn:E2; simpl; eexists; (split; [reflexivity |]).
    + apply Qle_bool_iff in E2.
      rewrite (Q.max_r q lo E1). symmetry. apply Q.min_l. exact E2.
    + apply Qle_bool_false in E2.
      rewrite (Q.max_r q lo E1). symmetry. apply Q.min_r.
      apply Qlt_le_weak, E2.
  - apply Qle_bool_false in E1. apply Qlt_le_weak in E1.
    destruct (Qle_bool q hi) eqn:E2; simpl; eexists; (split; [reflexivity |]).
    + apply Qle_bool_iff in E2.
      rewrite (Q.max_l q lo E1). symmetry. apply Q.min_l. exact E2.
    + apply Qle_bool_false in E2.
      rewrite (Q.max_l q lo E1). symmetry. apply Q.min_r.
      apply Qlt_le_weak, E2.
Qed.

End NumberFacts.

(* ===================================================================== *)
(** * Running the monad *)
(* ===================================================================== *)

Ltac run :=
  cbv beta iota zeta delta
    [bind ret throw try_catch emit set_files get_files
     randomUUID tempPath writeFileSync execPowershell unlink unlinkSync
     stat_size readFile sleep saveMediaBuffer spawnVersion spawnEncoder
     log registerTool imageResultFromFile verifyArtifact
     createListMonitorsScript createGetMonitorBoundsScript
     createScreenshotScript] in *;
  cbn [files trace uuids fst snd] in *.

Lemma after_script_bounds (env : Env) (fs : gmap string FileData) :
  after_script env GetMonitorBoundsScript fs = fs.
Proof. reflexivity. Qed.

Lemma after_script_list (env : Env) (fs : gmap string FileData) :
  after_script env ListMonitorsScript fs = fs.
Proof. reflexivity. Qed.

Ltac simp :=
  repeat progress
    (cbv beta iota zeta; cbn [files trace uuids fst snd];
     rewrite ?after_script_bounds, ?after_script_list, ?lookup_insert_eq).

(** One case distinction on an answer of the outside world. *)
Ltac case_step :=
  match goal with
  | |- context [if ?b then _ else _] => destruct b eqn:?
  | |- context [match ?x with Some _ => _ | None => _ end] => destruct x eqn:?
  | |- context [match ?x with Completed _ => _ | ExecFailed _ => _ end] =>
      destruct x eqn:?
  | |- context [match ?x with Saved _ => _ | SaveFailed _ => _ end] =>
      destruct x eqn:?
  | |- context [match ?x with ScriptFile _ => _ | Bytes _ => _ end] =>
      destruct x eqn:?
  | |- context [match ?x with ProbeStatus _ => _ | ProbeThrew => _ end] =>
      destruct x eqn:?
  | |- context [match ?x with O => _ | S _ => _ end] => destruct x eqn:?
  end.

Ltac cases := repeat (simp; case_step); simp.

Lemma allocs_app (t u : list Event) : allocs (t ++ u) = allocs t ++ allocs u.
Proof. apply omap_app. Qed.

Lemma unlinks_app (t u : list Event) : unlinks (t ++ u) = unlinks t ++ unlinks u.
Proof. apply omap_app. Qed.


(* ===================================================================== *)
(** * Temp paths of different kinds are different *)
(* ===================================================================== *)

Lemma append_nonempty (s t : string) : t <> EmptyString -> s +:+ t <> EmptyString.
Proof. destruct s; simpl; [auto | discriminate]. Qed.

Lemma last_char_app (s t : string) :
  t <> EmptyString -> last_char (s +:+ t) = last_char t.
Proof.
  intros Ht. induction s as [|c s IH]; simpl; [reflexivity |].
  destruct (s +:+ t) eqn:E.
  - exfalso. exact (append_nonempty s t Ht E).
  - exact IH.
Qed.

Lemma last_char_path_join (dir file : string) :
  file <> EmptyString -> last_char (path_join dir file) = last_char file.
Proof.
  intros Hf. unfold path_join. rewrite last_char_app by discriminate.
  simpl. destruct file; [contradiction | reflexivity].
Qed.

Lemma last_char_temp (dir pre u suffix : string) :
  suffix <> EmptyString ->
  last_char (path_join dir (pre +:+ u +:+ suffix)) = last_char suffix.
Proof.
  intros Hs. rewrite last_char_path_join.
  - rewrite !last_char_app by (try apply append_nonempty; exact Hs). reflexivity.
  - do 2 apply append_nonempty. exact Hs.
Qed.

Lemma screenshot_paths_differ (dir u1 u2 : string) (format : ImageFormat) :
  path_join dir ("screenshot-" +:+ u1 +:+ "." +:+ format_name format)
  <> path_join dir ("screenshot-" +:+ u2 +:+ ".ps1").
Proof.
  intros E. apply (f_equal last_char) in E.
  rewrite !last_char_temp in E by (destruct format; discriminate).
  destruct format; discriminate.
Qed.

Lemma recording_paths_differ (dir u1 u2 : string) :
  path_join dir ("get-monitor-bounds-" +:+ u1 +:+ ".ps1")
  <> path_join dir ("recording-" +:+ u2 +:+ ".mp4").
Proof.
  intros E. apply (f_equal last_char) in E.
  rewrite !last_char_temp in E by discriminate. discriminate.
Qed.

Lemma after_unlink_gone (env : Env) (p : string) (fs : gmap string FileData) :
  unlink_fails env p = false -> after_unlink env p fs !! p = None.
Proof. intros H. unfold after_unlink. rewrite H. apply lookup_delete_eq. Qed.

Lemma after_unlink_stays_gone (env : Env) (p q : string) (fs : gmap string FileData) :
  fs !! p = None -> after_unlink env q fs !! p = None.
Proof.
  intros H. unfold after_unlink. destruct (unlink_fails env q); [exact H |].
  destruct (decide (q = p)) as [->|Hne];
    [apply lookup_delete_eq | rewrite lookup_delete_ne by exact Hne; exact H].
Qed.

Lemma after_unlink_other (env : Env) (p q : string) (fs : gmap string FileData) :
  p <> q -> after_unlink env q fs !! p = fs !! p.
Proof.
  intros H. unfold after_unlink. destruct (unlink_fails env q); [reflexivity |].
  apply lookup_delete_ne. auto.
Qed.

(** Once the started deletions have taken effect, a path among them whose
    deletion succeeds is gone, and a path not among them is untouched. *)
Lemma settle_gone (env : Env) (started : list string) (p : string)
    (fs : gmap string FileData) :
  p ∈ started -> unlink_fails env p = false -> settle env started fs !! p = None.
Proof.
  intros Hin Hok. induction started as [|q rest IH]; [inversion Hin |].
  cbn [settle foldr]. fold (settle env rest fs).
  destruct (decide (p = q)) as [<- | Hne].
  - apply after_unlink_gone, Hok.
  - apply after_unlink_stays_gone. apply IH.
    apply elem_of_cons in Hin as [Hin | Hin]; [contradiction | exact Hin].
Qed.

Lemma settle_other (env : Env) (started : list string) (p : string)
    (fs : gmap string FileData) :
  p ∉ started -> settle env started fs !! p = fs !! p.
Proof.
  intros Hout. induction started as [|q rest IH]; [reflexivity |].
  cbn [settle foldr]. fold (settle env rest fs).
  rewrite after_unlink_other.
  - apply IH. intros Hin. apply Hout. apply elem_of_cons. right. exact Hin.
  - intros ->. apply Hout. apply elem_of_cons. left. reflexivity.
Qed.

(* ===================================================================== *)
(** * Effects of the tools on the trace and on the disk *)
(* ===================================================================== *)

Lemma stats_app (t u : list Event) : stats (t ++ u) = stats t ++ stats u.
Proof. apply omap_app. Qed.

Lemma writtenScripts_app (t u : list Event) :
  writtenScripts (t ++ u) = writtenScripts t ++ writtenScripts u.
Proof. apply omap_app. Qed.

Lemma execs_app (t u : list Event) : execs (t ++ u) = execs t ++ execs u.
Proof. apply omap_app. Qed.

Ltac trace_norm :=
  cbn [files trace uuids];
  rewrite ?allocs_app, ?unlinks_app, ?stats_app, ?writtenScripts_app, ?execs_app;
  cbn [allocs unlinks stats writtenScripts execs omap list_omap];
  rewrite <- ?app_assoc, ?app_nil_r; cbn [app].

Lemma list_monitors_effects (env : Env) (params : gmap string value) (w : World) :
  exists r w',
    list_monitors env params w = (Returned r, w')
    /\ allocs (trace w') = allocs (trace w) ++ [listScriptPath env w]
    /\ unlinks (trace w') = unlinks (trace w) ++ [listScriptPath env w]
    /\ files w'
       = (if write_fails env (listScriptPath env w) then files w
          else <[listScriptPath env w := ScriptFile ListMonitorsScript]> (files w)).
Proof.
  unfold list_monitors, listScriptPath. run.
  set (script := path_join _ _). clearbody script.
  cases.
  all: do 2 eexists; split; [reflexivity |]; trace_norm.
  all: repeat split; reflexivity.
Qed.

Lemma take_screenshot_effects (env : Env) (api : Api)
    (params : gmap string value) (w : World) :
  exists r w' out script,
    take_screenshot env api params w = (Returned r, w')
    /\ out <> script
    /\ allocs (trace w') = allocs (trace w) ++ [out; script]
    /\ (unlinks (trace w') = unlinks (trace w) ++ [out; script]
        \/ (unlinks (trace w') = unlinks (trace w) ++ [out; script; out; script]
            /\ ~ result_construction_succeeds env)).
Proof.
  unfold take_screenshot.
  set (delay := resolveDelay _). set (monitor := resolveMonitor _ _).
  set (format := default Png _).
  destruct (gt delay (of_Z 0)); run.
  all: set (out := path_join (tmpdir env)
                ("screenshot-" +:+ uuid_at env (uuids w) +:+ "." +:+ format_name format)).
  all: set (script := path_join (tmpdir env)
                   ("screenshot-" +:+ uuid_at env (S (uuids w)) +:+ ".ps1")).
  all: assert (Hne : out <> script) by apply screenshot_paths_differ.
  all: clearbody out script delay monitor.
  all: cases.
  all: do 4 eexists; split; [reflexivity |].
  all: split; [exact Hne |]; trace_norm.
  all: split; [reflexivity |].
  all: first
    [ left; reflexivity
    | right; split; [reflexivity |];
      intros Hok; unfold result_construction_succeeds in Hok; congruence ].
Qed.

Lemma add_events_nil (w : World) : add_events w [] = w.
Proof. destruct w. unfold add_events. cbn. by rewrite app_nil_r. Qed.

Lemma add_events_app (w : World) (a b : list Event) :
  add_events (add_events w a) b = add_events w (a ++ b).
Proof. unfold add_events. cbn. by rewrite app_assoc. Qed.

(* ===================================================================== *)
(** * FFmpeg lookup *)
(* ===================================================================== *)

Lemma respondsToVersion_run (env : Env) (command : string) (shell : bool) (w : World) :
  respondsToVersion env command shell w
  = (Returned (responds env (command, shell)),
     add_events w [probeEvent (command, shell)]).
Proof.
  unfold respondsToVersion, responds, probeEvent, add_events. run. cbn [fst snd].
  destruct (probe env command shell) as [[[| |]|]|]; reflexivity.
Qed.

Lemma probeEach_run (env : Env) (paths : list string) (w : World) :
  probeEach env paths w
  = (Returned (firstResponding env (map (fun p => (p, false)) paths)),
     add_events w (map probeEvent (probed env (map (fun p => (p, false)) paths)))).
Proof.
  revert w. induction paths as [|p rest IH]; intros w; cbn.
  - unfold ret. by rewrite add_events_nil.
  - unfold bind at 1. rewrite respondsToVersion_run.
    unfold firstResponding. cbn.
    destruct (responds env (p, false)); cbn.
    + reflexivity.
    + rewrite IH. by rewrite add_events_app.
Qed.

Lemma findFfmpeg_run (env : Env) (configPath : option string) (w : World) :
  findFfmpeg env configPath w
  = (Returned (firstResponding env (candidates env configPath)),
     add_events w (map probeEvent (probed env (candidates env configPath)))).
Proof.
  unfold findFfmpeg, candidates, firstResponding.
  destruct configPath as [p|]; [destruct (truthy p) |].
  all: unfold bind, ret; rewrite ?respondsToVersion_run.
  all: cbn -[probeEach commonPaths].
  all: repeat
         (match goal with
          | |- context [responds ?e ?c] => destruct (responds e c) eqn:?
          end;
          rewrite ?respondsToVersion_run; cbn -[probeEach commonPaths]).
  all: rewrite ?probeEach_run, ?add_events_app; reflexivity.
Qed.

Lemma getMonitorBounds_effects (env : Env) (monitorIndex : number) (w : World) :
  exists r w',
    getMonitorBounds env monitorIndex w = (Returned r, w')
    /\ uuids w' = S (uuids w)
    /\ allocs (trace w') = allocs (trace w) ++ [boundsScriptPath env w]
    /\ (unlinks (trace w') = unlinks (trace w) ++ [boundsScriptPath env w]
        \/ (unlinks (trace w')
            = unlinks (trace w) ++ [boundsScriptPath env w; boundsScriptPath env w]
            /\ ~ deletions_succeed env))
    /\ stats (trace w') = stats (trace w)
    /\ (deletions_succeed env -> files w' !! boundsScriptPath env w = None)
    /\ (forall p, p <> boundsScriptPath env w -> files w' !! p = files w !! p).
Proof.
  unfold getMonitorBounds, boundsScriptPath. run.
  set (script := path_join _ _). clearbody script.
  cases.
  all: do 2 eexists; split; [reflexivity |]; trace_norm.
  all: split; [reflexivity |].
  all: split; [reflexivity |].
  all: split;
    [ first [ left; reflexivity
            | right; split; [reflexivity |];
              intros Hd; unfold deletions_succeed in Hd; congruence ] |].
  all: split; [reflexivity |].
  all: split;
    [ intros Hd; unfold deletions_succeed in Hd;
      first [ apply lookup_delete_eq | congruence | assumption ]
    | intros p Hp; rewrite ?lookup_delete_ne, ?lookup_insert_ne by (apply not_eq_sym, Hp);
      reflexivity ].
Qed.

Lemma getMonitorBounds_result (env : Env) (monitorIndex : number) (w : World) :
  (getMonitorBounds env monitorIndex w).1
  = Returned (boundsAnswer env monitorIndex (boundsScriptPath env w)).
Proof.
  unfold getMonitorBounds, boundsAnswer, boundsScriptPath. run.
  set (script := path_join _ _). clearbody script.
  cases; reflexivity.
Qed.

Lemma after_encoder_other (env : Env) (c : string) (args : list text)
    (p q : string) (fs : gmap string FileData) :
  p <> q -> after_encoder env c args q fs !! p = fs !! p.
Proof.
  intros H. unfold after_encoder. destruct (enc_output _); [| reflexivity].
  apply lookup_insert_ne. auto.
Qed.

Lemma recordToTemp_run (env : Env) (api : Api) (ffmpeg : string)
    (duration fps : number) (monitorIndex : option number)
    (monitorBounds : option MonitorBounds.t) (w : World) :
  exists w',
    recordToTemp env api ffmpeg duration fps monitorIndex monitorBounds w
    = (Returned (JsonResult
         (recordAnswer env duration fps monitorIndex monitorBounds
            (artifact env ffmpeg duration fps monitorBounds w))), w')
    /\ uuids w' = S (uuids w)
    /\ allocs (trace w') = allocs (trace w) ++ [recordingPath env w]
    /\ unlinks (trace w') = unlinks (trace w) ++ [recordingPath env w]
    /\ stats (trace w')
       = stats (trace w)
         ++ (if valid_timeout env (mul (add duration 30) 1000)
             then [(recordingPath env w,
                    artifactSize env
                      (artifact env ffmpeg duration fps monitorBounds w))]
             else [])
    /\ writtenScripts (trace w') = writtenScripts (trace w)
    /\ execs (trace w') = execs (trace w).
Proof.
  unfold recordToTemp, recordAnswer, recordOutcome, artifact, artifactSize,
    recordingPath.
  destruct (logger api) as [[hw hi]|] eqn:Hlog; [destruct hi eqn:Hi |].
  all: unfold log; rewrite Hlog; cbn [has_info]; run.
  all: set (out := path_join _ _); clearbody out.
  all: destruct (valid_timeout env _) eqn:Hvalid; simp.
  all: try (destruct (after_encoder _ _ _ _ _ !! out) as [d|] eqn:Hart; simp).
  all: try (destruct (String.length (file_bytes env d)) as [|k] eqn:Hsize;
            cbn [Nat.eqb]; simp; rewrite ?Hart; simp).
  all: try (destruct (media_save _ _ _ _ _ _) as [saved|message] eqn:Hsave; simp).
  all: eexists; split; [reflexivity |]; trace_norm.
  all: repeat (split; [reflexivity |]).
  all: cbn [fmap option_fmap option_map]; rewrite ?Hsize.
  all: repeat split; reflexivity.
Qed.

(* ===================================================================== *)
(** * The shape of [record_screen] *)
(* ===================================================================== *)

(** [record_screen] is: validate, look FFmpeg up, look the bounds up when
    a monitor was asked for, then record to a temp file. *)
Lemma record_screen_unfold (env : Env) (api : Api)
    (params : gmap string value) (w : World) :
  record_screen env api params w
  = match resolveDuration (prop params "duration") (maxDuration api) with
    | None => (Returned (JsonResult (durationRequired api)), w)
    | Some duration =>
        let cs := candidates env (ffmpegPath (config api)) in
        let w1 := add_events w (map probeEvent (probed env cs)) in
        let fps := resolveFps (prop params "fps") in
        match firstResponding env cs with
        | None | Some EmptyString => (Returned (JsonResult ffmpegNotFound), w1)
        | Some ffmpeg =>
            match requestedMonitor (prop params "monitor") with
            | None => recordToTemp env api ffmpeg duration fps None None w1
            | Some m =>
                let w2 := (getMonitorBounds env m w1).2 in
                match boundsAnswer env m (boundsScriptPath env w1) with
                | None => (Returned (JsonResult boundsFailed), w2)
                | Some b =>
                    recordToTemp env api ffmpeg duration fps (Some m) (Some b) w2
                end
            end
        end
    end.
Proof.
  unfold record_screen.
  destruct (resolveDuration _ _) as [duration|]; [| reflexivity].
  unfold bind at 1. rewrite findFfmpeg_run. cbv zeta.
  destruct (firstResponding _ _) as [[|c ffmpeg]|]; try reflexivity.
  destruct (requestedMonitor _) as [m|].
  - unfold bind at 1.
    pose proof (getMonitorBounds_result env m
                  (add_events w (map probeEvent
                     (probed env (candidates env (ffmpegPath (config api))))))) as Hr.
    destruct (getMonitorBounds env m _) as [o w2]. cbn [fst snd] in *. subst o.
    destruct (boundsAnswer _ _ _); reflexivity.
  - reflexivity.
Qed.

(* ===================================================================== *)
(** * The shape of a [take_screenshot] result *)
(* ===================================================================== *)

Lemma take_screenshot_result (env : Env) (api : Api)
    (params : gmap string value) (w : World) :
  let monitor := resolveMonitor (prop params "monitor") (config api) in
  let delay := resolveDelay (prop params "delay") in
  let format := default Png (screenshotFormat (config api)) in
  exists r w' out,
    take_screenshot env api params w = (Returned r, w')
    /\ writtenScripts (trace w')
       = writtenScripts (trace w) ++ [ScreenshotScript out monitor format]
    /\ ((exists message, r = screenshotFailed env message)
        \/ (exists buffer saved,
              media_save env buffer (mime_of format) "screenshots"
                (10 * 1024 * 1024) [Txt "screenshot."; Txt (format_name format)]
              = Saved saved
              /\ r = screenshotSucceeded monitor delay format saved)).
Proof.
  intros monitor delay format. unfold take_screenshot.
  fold monitor delay format.
  destruct (gt delay (of_Z 0)); run.
  all: set (out := path_join (tmpdir env)
                ("screenshot-" +:+ uuid_at env (uuids w) +:+ "." +:+ format_name format)).
  all: set (script := path_join (tmpdir env)
                   ("screenshot-" +:+ uuid_at env (S (uuids w)) +:+ ".ps1")).
  all: clearbody out script delay monitor.
  all: cases.
  all: do 3 eexists; split; [reflexivity |].
  all: cbn [files trace uuids]; rewrite ?writtenScripts_app;
       cbn [writtenScripts omap list_omap]; rewrite <- ?app_assoc, ?app_nil_r;
       cbn [app].
  all: split; [reflexivity |].
  all: first [ left; eexists; reflexivity
             | right; do 2 eexists; split; [eassumption | reflexivity] ].
Qed.

(* ===================================================================== *)
(** * Registration *)
(* ===================================================================== *)

Lemma list_monitors_ignores_platform (env : Env) (p : string)
    (params : gmap string value) (w : World) :
  list_monitors (with_platform p env) params w = list_monitors env params w.
Proof. reflexivity. Qed.

Lemma record_screen_ignores_platform (env : Env) (api : Api) (p : string)
    (params : gmap string value) (w : World) :
  record_screen (with_platform p env) api params w = record_screen env api params w.
Proof. reflexivity. Qed.

Lemma take_screenshot_ignores_platform (env : Env) (api : Api) (p : string)
    (params : gmap string value) (w : World) :
  (take_screenshot (with_platform p env) api params w).2
  = (take_screenshot env api params w).2
  /\ is_error <$> as_returned (take_screenshot (with_platform p env) api params w).1
     = is_error <$> as_returned (take_screenshot env api params w).1.
Proof.
  unfold take_screenshot.
  set (delay := resolveDelay _). set (monitor := resolveMonitor _ _).
  set (format := default Png _).
  destruct (gt delay (of_Z 0)); run; cbn [with_platform tmpdir uuid_at write_fails
    unlink_fails io_message script_source powershell media_save image_result_fails].
  all: set (out := path_join (tmpdir env)
                ("screenshot-" +:+ uuid_at env (uuids w) +:+ "." +:+ format_name format)).
  all: set (script := path_join (tmpdir env)
                   ("screenshot-" +:+ uuid_at env (S (uuids w)) +:+ ".ps1")).
  all: clearbody out script delay monitor.
  all: change (after_unlink (with_platform p env)) with (after_unlink env).
  all: change (after_script (with_platform p env)) with (after_script env).
  all: change (file_bytes (with_platform p env)) with (file_bytes env).
  all: cases; split; reflexivity.
Qed.

(** C9. The platform is checked once, in [register]: off win32 the plugin
    logs a warning (when the host's logger can warn) and registers no tool;
    on win32 it registers list_monitors, take_screenshot and record_screen,
    in this order, and nothing else.  None of the tools looks at the
    platform again: list_monitors and record_screen do not read it, and
    take_screenshot only echoes it in its error payload. *)
Theorem platform_checked_at_registration (env : Env) (api : Api)
    (fs : gmap string FileData) (n : nat) :
  let t := trace (register env api (initial_world fs n)).2 in
  (register env api (initial_world fs n)).1 = Returned tt
  /\ registeredTools t
     = (if String.eqb (platform env) "win32"
        then ["list_monitors"; "take_screenshot"; "record_screen"]
        else [])
  /\ t = (if String.eqb (platform env) "win32"
          then [ERegisterTool "list_monitors"; ERegisterTool "take_screenshot";
                ERegisterTool "record_screen"]
               ++ (if can_info api
                   then [ELog Info [Txt "Screen Capture plugin registered (list_monitors + screenshot + video tools)"]]
                   else [])
          else if can_warn api
               then [ELog Warn [Txt "Screen Capture plugin is currently Windows-only"]]
               else [])
  /\ (forall p params w,
        list_monitors (with_platform p env) params w = list_monitors env params w
        /\ record_screen (with_platform p env) api params w
           = record_screen env api params w
        /\ (take_screenshot (with_platform p env) api params w).2
           = (take_screenshot env api params w).2
        /\ is_error <$> as_returned (take_screenshot (with_platform p env) api params w).1
           = is_error <$> as_returned (take_screenshot env api params w).1).
Proof.
  cbv zeta. unfold register, can_warn, can_info.
  destruct (String.eqb (platform env) "win32") eqn:Hp; cbn [negb];
    unfold log; destruct (logger api) as [[hw hi]|]; cbn [from_option has_warn has_info];
    try destruct hw; try destruct hi; run.
  all: repeat split; try reflexivity.
  all: intros; try apply list_monitors_ignores_platform;
       try apply record_screen_ignores_platform;
       apply take_screenshot_ignores_platform.
Qed.

(* ===================================================================== *)
(** * Validation of the recording parameters *)
(* ===================================================================== *)

Lemma recordOutcome_not_durationRequired (env : Env) (api : Api)
    (duration fps : number) (monitorIndex : option number)
    (monitorBounds : option MonitorBounds.t) (art : option FileData) :
  recordOutcome env duration fps monitorIndex monitorBounds art
  <> durationRequired api.
Proof.
  unfold recordOutcome, durationRequired, recordingFailed, recordingSucceeded.
  destruct art as [d|]; [| discriminate].
  destruct (Nat.eqb _ 0); [discriminate |].
  destruct (media_save _ _ _ _ _ _); discriminate.
Qed.

Lemma recordAnswer_not_durationRequired (env : Env) (api : Api)
    (duration fps : number) (monitorIndex : option number)
    (monitorBounds : option MonitorBounds.t) (art : option FileData) :
  recordAnswer env duration fps monitorIndex monitorBounds art
  <> durationRequired api.
Proof.
  unfold recordAnswer. destruct (valid_timeout env _);
    [apply recordOutcome_not_durationRequired | discriminate].
Qed.

(** [record_screen] answers "duration is required" exactly when
    [params.duration] is not a number. *)
Lemma record_screen_rejects_iff (env : Env) (api : Api)
    (params : gmap string value) (w : World) :
  (record_screen env api params w).1 = Returned (JsonResult (durationRequired api))
  <-> as_number (prop params "duration") = None.
Proof.
  rewrite record_screen_unfold. unfold resolveDuration.
  destruct (as_number (prop params "duration")) as [d|]; cbn [fst]; [| tauto].
  split; [| discriminate]. intros H. exfalso. revert H. cbv zeta.
  destruct (firstResponding _ _) as [[|c ffmpeg]|]; cbn [fst]; try discriminate.
  destruct (requestedMonitor _) as [m|].
  - destruct (boundsAnswer _ _ _); cbn [fst]; try discriminate.
    destruct (recordToTemp_run env api (String c ffmpeg)
                (math_min (math_max (math_round d) (of_Z 1)) (maxDuration api))
                (resolveFps (prop params "fps")) (Some m) (Some t)
                (getMonitorBounds env m
                   (add_events w (map probeEvent
                      (probed env (candidates env (ffmpegPath (config api))))))).2)
      as (w' & -> & _).
    cbn [fst]. intros [= H]. exact (recordAnswer_not_durationRequired _ _ _ _ _ _ _ H).
  - destruct (recordToTemp_run env api (String c ffmpeg)
                (math_min (math_max (math_round d) (of_Z 1)) (maxDuration api))
                (resolveFps (prop params "fps")) None None
                (add_events w (map probeEvent
                   (probed env (candidates env (ffmpegPath (config api)))))))
      as (w' & -> & _).
    cbn [fst]. intros [= H]. exact (recordAnswer_not_durationRequired _ _ _ _ _ _ _ H).
Qed.



(* ===================================================================== *)
(** * The monitor of a screenshot *)
(* ===================================================================== *)

(** C8. take_screenshot captures the monitor the caller gave as a number,
    else the configured default, else 0.  A success result echoes that
    requested value in its [monitor] field, and the capture script is
    instantiated with it, even when the script's own guard falls back to
    screen 0 because the value is at or beyond the number of screens. *)
Theorem screenshot_echoes_requested_monitor (env : Env) (api : Api)
    (params : gmap string value) (w : World) (r : ToolResult) (screens : nat) :
  let monitor := resolveMonitor (prop params "monitor") (config api) in
  (take_screenshot env api params w).1 = Returned r ->
  is_error r = false ->
  ge monitor (of_Z (Z.of_nat screens)) = true ->
  monitor = match prop params "monitor" with
            | VNum m => m
            | _ => match defaultMonitor (config api) with
                   | Some m => m
                   | None => of_Z 0
                   end
            end
  /\ field "monitor" (payload_of r) = VNum monitor
  /\ (exists out format,
        writtenScripts (trace (take_screenshot env api params w).2)
        = writtenScripts (trace w) ++ [ScreenshotScript out monitor format])
  /\ scriptScreenIndex monitor screens = of_Z 0.
Proof.
  intros monitor Hrun Hok Hge.
  split.
  { unfold monitor, resolveMonitor. destruct (prop params "monitor"); reflexivity. }
  destruct (take_screenshot_result env api params w)
    as (r' & w' & out & Hrun' & Hscripts & Hshape).
  rewrite Hrun' in Hrun. cbn [fst] in Hrun. injection Hrun as ->.
  split.
  { destruct Hshape as [[message ->] | (buffer & saved & _ & ->)].
    - discriminate.
    - reflexivity. }
  split.
  { rewrite Hrun'. cbn [snd]. eauto. }
  unfold scriptScreenIndex. fold monitor in Hge |- *. rewrite Hge. reflexivity.
Qed.

Lemma screenshot_echoes_requested_monitor_witness :
  exists r,
    (take_screenshot demo_env demo_api screenshot_monitor_5 demo_world).1
    = Returned r
    /\ field "monitor" (payload_of r) = VNum (of_Z 5)
    /\ scriptScreenIndex (of_Z 5) 2 = of_Z 0.
Proof.
  eexists. split; [vm_compute; reflexivity |].
  pose proof (screenshot_echoes_requested_monitor demo_env demo_api
                screenshot_monitor_5 demo_world _ 2
                ltac:(vm_compute; reflexivity) ltac:(vm_compute; reflexivity)
                ltac:(vm_compute; reflexivity)) as (_ & Hecho & _ & Hfallback).
  split; [exact Hecho | exact Hfallback].
Defined.

(* ===================================================================== *)
(** * Monitor indices *)
(* ===================================================================== *)

Lemma strict_eq_of_Z (a b : Z) : strict_eq (of_Z a) (of_Z b) = bool_decide (a = b).
Proof.
  unfold strict_eq, of_Z. case_bool_decide as H.
  - subst. apply Qeq_bool_iff. reflexivity.
  - destruct (Qeq_bool (inject_Z a) (inject_Z b)) eqn:E; [| reflexivity].
    apply Qeq_bool_iff in E. exfalso. apply H.
    unfold Qeq in E. cbn in E. lia.
Qed.

Lemma indices_offset (lines : list string) (k : nat) :
  (forall j l, lines !! j = Some l -> echoedIndex l = of_Z (Z.of_nat (k + j))) ->
  map echoedIndex lines
  = map (fun i => of_Z (Z.of_nat i)) (seq k (length lines)).
Proof.
  revert k. induction lines as [|first rest IH]; intros k Hecho; [reflexivity |].
  cbn. f_equal.
  - rewrite (Hecho 0%nat first eq_refl). by rewrite Nat.add_0_r.
  - apply IH. intros j l Hj. replace (S k + j)%nat with (k + S j)%nat by lia.
    apply Hecho. exact Hj.
Qed.

Lemma indices_positional (lines : list string) :
  echoes_position lines -> map echoedIndex lines = positions (length lines).
Proof. intros Hecho. exact (indices_offset lines 0 Hecho). Qed.

(* ===================================================================== *)
(** * Reading the lines of an enumeration output *)
(* ===================================================================== *)

Lemma trimEnd_CRLF (s : string) : trimEnd (s +:+ CRLF) = trimEnd s.
Proof.
  induction s as [|c s IH]; [reflexivity |].
  change (trimEnd (String c (s +:+ CRLF)) = trimEnd (String c s)).
  cbn [trimEnd]. by rewrite IH.
Qed.

Lemma trimEnd_guard (c : ascii) (x : string) :
  is_ws c = false -> trimEnd (String c x) = String c (trimEnd x).
Proof. intros H. cbn. rewrite H. destruct (trimEnd x); reflexivity. Qed.

Lemma trimEnd_app_kept (a b : string) :
  trimEnd b <> EmptyString -> trimEnd (a +:+ b) = a +:+ trimEnd b.
Proof.
  intros Hb. induction a as [|c a IH]; [reflexivity |].
  change (String c a +:+ b) with (String c (a +:+ b)).
  change (String c a +:+ trimEnd b) with (String c (a +:+ trimEnd b)).
  cbn [trimEnd]. rewrite IH. destruct (a +:+ trimEnd b) eqn:E; [| reflexivity].
  exfalso. exact (append_nonempty a _ Hb E).
Qed.

Lemma trimEnd_step (c : ascii) (x : string) :
  trimEnd (String c x)
  = match trimEnd x with
    | EmptyString => if is_ws c then EmptyString else String c EmptyString
    | kept => String c kept
    end.
Proof. reflexivity. Qed.

Lemma trimEnd_idem (s : string) : trimEnd (trimEnd s) = trimEnd s.
Proof.
  induction s as [|c s IH]; [reflexivity |].
  rewrite (trimEnd_step c s). destruct (trimEnd s) as [|d kept] eqn:E.
  - destruct (is_ws c) eqn:Hc; [reflexivity |].
    rewrite trimEnd_step. cbn [trimEnd]. rewrite Hc. reflexivity.
  - rewrite trimEnd_step, IH. reflexivity.
Qed.

Lemma trimEnd_CR (s : string) : trimEnd (s +:+ String "013" EmptyString) = trimEnd s.
Proof.
  induction s as [|c s IH]; [reflexivity |].
  change (trimEnd (String c (s +:+ String "013" EmptyString)) = trimEnd (String c s)).
  rewrite !trimEnd_step. by rewrite IH.
Qed.

Lemma trimEnd_bar (a rest : string) :
  trimEnd (a +:+ String "|" rest) = a +:+ String "|" (trimEnd rest).
Proof.
  rewrite trimEnd_app_kept by (rewrite trimEnd_guard by reflexivity; discriminate).
  rewrite trimEnd_guard by reflexivity. reflexivity.
Qed.

Lemma trimStart_head (s : string) :
  trimStart s = EmptyString
  \/ exists c r, trimStart s = String c r /\ is_ws c = false.
Proof.
  induction s as [|c s IH]; [left; reflexivity |].
  cbn [trimStart]. destruct (is_ws c) eqn:E; [exact IH |].
  right. eauto.
Qed.

Lemma trim_head (s : string) :
  trim s = EmptyString \/ exists c r, trim s = String c r /\ is_ws c = false.
Proof.
  unfold trim. destruct (trimStart_head s) as [-> | (c & r & -> & Hc)].
  - left. reflexivity.
  - right. rewrite trimEnd_guard by exact Hc. eauto.
Qed.

Lemma trim_idem (s : string) : trim (trim s) = trim s.
Proof.
  unfold trim. destruct (trimStart_head s) as [-> | (c & r & -> & Hc)];
    [reflexivity |].
  rewrite (trimEnd_guard c r Hc). cbn [trimStart]. rewrite Hc.
  rewrite (trimEnd_guard c _ Hc). by rewrite trimEnd_idem.
Qed.

Lemma occurs_app (c : ascii) (a b : string) :
  occurs c (a +:+ b) = occurs c a || occurs c b.
Proof.
  induction a as [|d a IH]; [reflexivity |].
  change (String d a +:+ b) with (String d (a +:+ b)). cbn [occurs].
  rewrite IH. by rewrite orb_assoc.
Qed.

Lemma occurs_trimEnd (c : ascii) (s : string) :
  occurs c s = false -> occurs c (trimEnd s) = false.
Proof.
  induction s as [|d s IH]; [reflexivity |]. cbn [occurs trimEnd].
  intros H. apply orb_false_elim in H as [Hd Hs]. specialize (IH Hs).
  destruct (trimEnd s) eqn:E.
  - destruct (is_ws d); cbn [occurs]; [reflexivity |]. rewrite Hd. reflexivity.
  - cbn [occurs] in *. rewrite Hd. exact IH.
Qed.

Lemma occurs_head (c : ascii) (r : string) : occurs c (String c r) = true.
Proof. cbn [occurs]. rewrite Ascii.eqb_refl. reflexivity. Qed.

(** A string without white space is its own trim. *)
Lemma trimEnd_no_ws (s : string) :
  (forall c, is_ws c = true -> occurs c s = false) -> trimEnd s = s.
Proof.
  induction s as [|a r IH]; intros Hs; [reflexivity |].
  assert (Ha : is_ws a = false).
  { destruct (is_ws a) eqn:E; [| reflexivity].
    specialize (Hs a E). rewrite occurs_head in Hs. discriminate. }
  rewrite trimEnd_guard by exact Ha. f_equal. apply IH.
  intros c Hc. specialize (Hs c Hc). cbn [occurs] in Hs.
  apply orb_false_elim in Hs. tauto.
Qed.

Lemma split_none (sep : ascii) (s : string) :
  occurs sep s = false -> split sep s = [s].
Proof.
  induction s as [|d s IH]; [reflexivity |]. cbn [occurs split].
  intros H. apply orb_false_elim in H as [Hd Hs].
  rewrite Hd, (IH Hs). reflexivity.
Qed.

Lemma split_at (sep : ascii) (a b : string) :
  occurs sep a = false -> split sep (a +:+ String sep b) = a :: split sep b.
Proof.
  induction a as [|d a IH].
  - intros _. change (EmptyString +:+ String sep b) with (String sep b).
    cbn [split]. rewrite Ascii.eqb_refl. reflexivity.
  - change (String d a +:+ String sep b) with (String d (a +:+ String sep b)).
    cbn [occurs split].
    intros H. apply orb_false_elim in H as [Hd Ha].
    rewrite Hd, (IH Ha). reflexivity.
Qed.

Lemma split_cons (sep : ascii) (s : string) :
  exists piece pieces, split sep s = piece :: pieces.
Proof.
  induction s as [|c s (piece & pieces & IH)]; cbn [split]; [eauto |].
  destruct (Ascii.eqb c sep); [eauto |]. rewrite IH. eauto.
Qed.

Lemma append_assoc (a b c : string) : (a +:+ b) +:+ c = a +:+ (b +:+ c).
Proof.
  induction a as [|d a IH]; [reflexivity |].
  change (String d ((a +:+ b) +:+ c) = String d (a +:+ (b +:+ c))).
  by rewrite IH.
Qed.

(** ** The number value of an integer *)

Lemma to_double_small (z : Z) : (Z.abs z < 2 ^ 53)%Z -> to_double z = of_Z z.
Proof.
  intros H. unfold to_double. cbv zeta.
  rewrite (proj2 (Z.ltb_lt _ _) H). reflexivity.
Qed.

(** The number value of an integer is an integer or an infinity. *)
Lemma to_double_cases (z : Z) :
  (exists k, to_double z = of_Z k) \/ to_double z = PosInf \/ to_double z = NegInf.
Proof.
  unfold to_double. cbv zeta.
  destruct (Z.abs z <? 2 ^ 53)%Z; [left; eauto |].
  destruct (2 ^ 1024 <=? _)%Z; [| left; eauto].
  destruct (z <? 0)%Z; auto.
Qed.

Lemma to_double_position (i : nat) :
  (Z.of_nat i < 2 ^ 53)%Z -> to_double (Z.of_nat i) = of_Z (Z.of_nat i).
Proof. intros H. apply to_double_small. lia. Qed.

(** ** Decimal numerals *)

Lemma to_uint_nonnil (n : nat) : Nat.to_uint n <> Decimal.Nil.
Proof.
  rewrite <- (Unsigned.of_to n) at 1. rewrite Unsigned.to_of.
  apply DecimalFacts.unorm_nonnil.
Qed.

Lemma numeral_occurs (c : ascii) (d : Decimal.uint) :
  digit_of c = None -> occurs c (NilEmpty.string_of_uint d) = false.
Proof.
  intros Hc. induction d; cbn [NilEmpty.string_of_uint occurs];
    [reflexivity | ..]; rewrite IHd, orb_false_r;
    match goal with
    | |- Ascii.eqb ?k c = false =>
        destruct (Ascii.eqb_spec k c) as [<-|]; [discriminate Hc | reflexivity]
    end.
Qed.

Lemma decimal_occurs (c : ascii) (n : nat) :
  digit_of c = None -> occurs c (decimal n) = false.
Proof. apply numeral_occurs. Qed.

Lemma decimalZ_occurs (c : ascii) (z : Z) :
  digit_of c = None -> c <> "-"%char -> occurs c (decimalZ z) = false.
Proof.
  intros Hdigit Hminus. destruct z; cbn [decimalZ]; try apply decimal_occurs, Hdigit.
  rewrite occurs_app, decimal_occurs by exact Hdigit.
  cbn [occurs]. destruct (Ascii.eqb_spec "-" c) as [<-|]; [contradiction | reflexivity].
Qed.

Lemma ws_no_digit (c : ascii) :
  is_ws c = true -> digit_of c = None /\ c <> "-"%char.
Proof.
  destruct c as [[] [] [] [] [] [] [] []]; try discriminate;
    intros _; split; reflexivity || discriminate.
Qed.

Lemma trimEnd_decimalZ (z : Z) : trimEnd (decimalZ z) = decimalZ z.
Proof.
  apply trimEnd_no_ws. intros c Hc. destruct (ws_no_digit c Hc).
  apply decimalZ_occurs; assumption.
Qed.

Lemma read_numeral (d : Decimal.uint) (a count : nat) :
  read_digits (Z.of_nat a) count (NilEmpty.string_of_uint d)
  = (Z.of_nat (Nat.of_uint_acc d a), (count + Decimal.nb_digits d)%nat).
Proof.
  revert a count.
  induction d; intros a count;
    cbn [NilEmpty.string_of_uint read_digits Nat.of_uint_acc Decimal.nb_digits];
    [f_equal; lia | ..];
    match goal with
    | |- context [digit_of ?k] =>
        let v := eval vm_compute in (digit_of k) in
        change (digit_of k) with v
    end;
    cbv beta iota;
    match goal with
    | |- read_digits ?z _ _ = (Z.of_nat (Nat.of_uint_acc _ ?a'), _) =>
        replace z with (Z.of_nat a')
          by (rewrite ?Nat.tail_mul_spec; lia)
    end;
    rewrite IHd; f_equal; lia.
Qed.

(** A decimal numeral starts with a digit: no white space, no sign. *)
Lemma decimal_head (n : nat) :
  exists c rest,
    decimal n = String c rest
    /\ is_ws c = false /\ c <> "-"%char /\ c <> "+"%char.
Proof.
  unfold decimal. pose proof (to_uint_nonnil n) as Hn.
  destruct (Nat.to_uint n); [contradiction | ..];
    cbn [NilEmpty.string_of_uint]; do 2 eexists;
    (split; [reflexivity |]); repeat split; discriminate.
Qed.

Lemma read_decimal (n : nat) :
  exists k, read_digits 0 0 (decimal n) = (Z.of_nat n, S k).
Proof.
  unfold decimal.
  pose proof (read_numeral (Nat.to_uint n) 0 0) as Hread.
  change (Z.of_nat 0) with 0%Z in Hread. rewrite Hread. clear Hread.
  pose proof (to_uint_nonnil n) as Hn.
  destruct (Decimal.nb_digits (Nat.to_uint n)) eqn:Hdigits.
  - destruct (Nat.to_uint n); [contradiction | ..]; discriminate.
  - exists n0. cbn [Nat.add]. f_equal. fold (Nat.of_uint (Nat.to_uint n)).
    rewrite Unsigned.of_to. reflexivity.
Qed.

Lemma parseInt_decimal (n : nat) : parseInt (decimal n) = to_double (Z.of_nat n).
Proof.
  unfold parseInt.
  destruct (decimal_head n) as (c & rest & Heq & Hws & Hminus & Hplus).
  rewrite Heq. cbn [trimStart]. rewrite Hws.
  assert (Hsign :
    match String c rest with
    | String "-" r => ((-1)%Z, r)
    | String "+" r => (1%Z, r)
    | _ => (1%Z, String c rest)
    end = (1%Z, String c rest)).
  { destruct c as [[] [] [] [] [] [] [] []]; try reflexivity; contradiction. }
  rewrite Hsign, <- Heq.
  destruct (read_decimal n) as [k ->]. f_equal. lia.
Qed.

(** [parseInt] reads back the numeral PowerShell prints for an integer,
    as the number value of that integer. *)
Lemma parseInt_decimalZ (z : Z) : parseInt (decimalZ z) = to_double z.
Proof.
  destruct z as [|p|p]; cbn [decimalZ].
  - rewrite parseInt_decimal. reflexivity.
  - rewrite parseInt_decimal. f_equal. apply Z2Nat.id. lia.
  - change ("-" +:+ decimal (Pos.to_nat p)) with (String "-" (decimal (Pos.to_nat p))).
    unfold parseInt. cbn [trimStart].
    destruct (read_decimal (Pos.to_nat p)) as [k Hk].
    change (is_ws "-") with false.
    cbv beta iota zeta. rewrite Hk. f_equal. lia.
Qed.

Lemma decimalZ_of_nat (i : nat) : decimalZ (Z.of_nat i) = decimal i.
Proof.
  pose proof (Nat2Z.is_nonneg i) as Hi.
  destruct (Z.of_nat i) eqn:E; cbn [decimalZ]; [| | lia];
    by rewrite <- E, Nat2Z.id.
Qed.

(** What [parseInt] answers is NaN, an integer or an infinity. *)
Lemma parseInt_integer (s : string) :
  parseInt s = NaN
  \/ (exists z, parseInt s = of_Z z) \/ parseInt s = PosInf \/ parseInt s = NegInf.
Proof.
  unfold parseInt.
  destruct (match trimStart s with
            | String "-" rest => ((-1)%Z, rest)
            | String "+" rest => (1%Z, rest)
            | _ => (1%Z, trimStart s)
            end) as [sign digits].
  destruct (read_digits 0 0 digits) as [v [|count]]; [left; reflexivity |].
  right. apply to_double_cases.
Qed.

(** ** Lines *)

Lemma started_nonempty (l : string) : started l -> l <> EmptyString.
Proof. intros (c & r & -> & _). discriminate. Qed.

Lemma started_trimStart (l rest : string) :
  started l -> trimStart (l +:+ rest) = l +:+ rest.
Proof.
  intros (c & r & -> & Hc).
  change (String c r +:+ rest) with (String c (r +:+ rest)).
  cbn [trimStart]. rewrite Hc. reflexivity.
Qed.

Lemma started_trimEnd (l : string) : started l -> started (trimEnd l).
Proof.
  intros (c & r & -> & Hc). rewrite trimEnd_guard by exact Hc.
  exists c, (trimEnd r). auto.
Qed.

Lemma started_app (l more : string) : started l -> started (l +:+ more).
Proof. intros (c & r & -> & Hc). exists c, (r +:+ more). auto. Qed.

Lemma started_trim (l : string) : started l -> trim l = trimEnd l.
Proof.
  intros (c & r & -> & Hc). unfold trim. cbn [trimStart]. rewrite Hc. reflexivity.
Qed.

Lemma started_decimalZ (z : Z) (rest : string) : started (decimalZ z +:+ rest).
Proof.
  apply started_app. unfold decimalZ. destruct z as [|p|p].
  1, 2: match goal with
        | |- started (decimal ?n) =>
            destruct (decimal_head n) as (c & r & -> & Hc & _); exists c, r; auto
        end.
  exists "-"%char, (decimal (Pos.to_nat p)). auto.
Qed.

Lemma filter_truthy_started (ls : list string) :
  Forall started ls -> List.filter truthy ls = ls.
Proof.
  induction 1 as [|l ls Hl _ IH]; [reflexivity |].
  cbn [List.filter]. destruct Hl as (c & r & -> & _). cbn [truthy]. by rewrite IH.
Qed.

Lemma map_started_trim (ls : list string) :
  Forall started ls -> map trim ls = map trimEnd ls.
Proof.
  induction 1 as [|l ls Hl _ IH]; [reflexivity |].
  cbn [map]. by rewrite IH, (started_trim l Hl).
Qed.

(** The pieces between the line feeds of what PowerShell wrote are, up to
    the line ends, the lines it was given. *)
Lemma writeOutput_split (ls : list string) :
  ls <> [] -> Forall one_line ls ->
  exists parts,
    split "010" (trimEnd (writeOutput ls)) = parts
    /\ Forall started parts
    /\ map trimEnd parts = map trimEnd ls.
Proof.
  induction ls as [|l rest IH]; intros Hne Hls; [contradiction |].
  apply Forall_cons in Hls as [[Hst Hlf] Hrest].
  destruct rest as [|l' rest].
  - cbn [writeOutput]. change (CRLF +:+ EmptyString) with CRLF.
    rewrite trimEnd_CRLF.
    exists [trimEnd l]. split; [apply split_none, occurs_trimEnd, Hlf |].
    split; [constructor; [apply started_trimEnd, Hst | constructor] |].
    cbn [map]. by rewrite trimEnd_idem.
  - destruct (IH ltac:(discriminate) Hrest) as (parts & Hsplit & Hparts & Hmap).
    set (W := writeOutput (l' :: rest)) in *.
    assert (HW : trimEnd W <> EmptyString).
    { intros E. rewrite E in Hsplit. cbn in Hsplit. subst parts.
      apply Forall_cons in Hparts as [Hp _]. exact (started_nonempty _ Hp eq_refl). }
    change (writeOutput (l :: l' :: rest)) with (l +:+ CRLF +:+ W).
    assert (HCW : trimEnd (CRLF +:+ W) = CRLF +:+ trimEnd W)
      by (apply trimEnd_app_kept, HW).
    rewrite (trimEnd_app_kept l (CRLF +:+ W)) by (rewrite HCW; discriminate).
    rewrite HCW.
    change (l +:+ CRLF +:+ trimEnd W)
      with (l +:+ (String "013" EmptyString +:+ String "010" (trimEnd W))).
    rewrite <- append_assoc.
    rewrite split_at by (rewrite occurs_app, Hlf; reflexivity).
    rewrite Hsplit.
    exists ((l +:+ String "013" EmptyString) :: parts).
    split; [reflexivity |].
    split; [constructor; [apply started_app, Hst | exact Hparts] |].
    cbn [map]. rewrite trimEnd_CR, Hmap. reflexivity.
Qed.

(** The record lines of an output are, up to the line ends, the lines that
    were written. *)
Lemma recordLines_writeOutput (ls : list string) :
  Forall one_line ls -> map trim (recordLines (writeOutput ls)) = map trim ls.
Proof.
  intros Hls. destruct ls as [|l rest]; [reflexivity |].
  assert (Hstarted : Forall started (l :: rest)).
  { eapply Forall_impl; [exact Hls |]. intros x [Hx _]. exact Hx. }
  unfold recordLines.
  assert (Htrim : trim (writeOutput (l :: rest)) = trimEnd (writeOutput (l :: rest))).
  { unfold trim. f_equal. cbn [writeOutput]. apply started_trimStart.
    apply Forall_cons in Hstarted as [H _]. exact H. }
  rewrite Htrim.
  destruct (writeOutput_split (l :: rest)) as (parts & -> & Hparts & Hmap);
    [discriminate | exact Hls |].
  rewrite (filter_truthy_started parts Hparts).
  rewrite (map_started_trim parts Hparts), Hmap.
  symmetry. apply map_started_trim, Hstarted.
Qed.

Lemma recordLines_nil (output : string) :
  recordLines output = [] <-> trim output = EmptyString.
Proof.
  unfold recordLines.
  destruct (trim_head output) as [-> | (c & r & -> & Hc)].
  - split; reflexivity.
  - split; [| discriminate].
    cbn [split].
    assert (Hlf : Ascii.eqb c "010" = false).
    { destruct (Ascii.eqb_spec c "010") as [-> |]; [discriminate Hc | reflexivity]. }
    rewrite Hlf. destruct (split_cons "010" r) as (piece & pieces & ->).
    cbn. discriminate.
Qed.

(** The parsers look at a line through its trim only. *)
Lemma parseMonitorLine_trim (line : string) :
  parseMonitorLine (trim line) = parseMonitorLine line.
Proof. unfold parseMonitorLine, recordFields. by rewrite trim_idem. Qed.

Lemma boundsOfLine_trim (line : string) :
  boundsOfLine (trim line) = boundsOfLine line.
Proof. unfold boundsOfLine, recordFields. by rewrite trim_idem. Qed.

Lemma echoedIndex_trim (line : string) : echoedIndex (trim line) = echoedIndex line.
Proof. unfold echoedIndex, recordFields. by rewrite trim_idem. Qed.

Lemma map_parse_trim {A : Type} (parse : string -> A) (ls : list string) :
  (forall l, parse (trim l) = parse l) ->
  map parse ls = map parse (map trim ls).
Proof.
  intros H. induction ls as [|l ls IH]; [reflexivity |].
  cbn [map]. by rewrite IH, H.
Qed.

Lemma map_imap {A B C : Type} (g : B -> C) (f : nat -> A -> B) (l : list A) :
  map g (imap f l) = imap (fun i x => g (f i x)) l.
Proof.
  revert f. induction l as [|x l IH]; intros f; [reflexivity |].
  cbn [imap map]. f_equal. apply IH.
Qed.

(** [list_monitors] has one descriptor per line that was written. *)
Lemma parseMonitors_lines (ls : list string) :
  Forall one_line ls -> parseMonitors (writeOutput ls) = map parseMonitorLine ls.
Proof.
  intros Hls. unfold parseMonitors.
  rewrite (map_parse_trim parseMonitorLine _ parseMonitorLine_trim).
  rewrite (recordLines_writeOutput ls Hls).
  symmetry. apply map_parse_trim, parseMonitorLine_trim.
Qed.

Lemma findBounds_matchingLine (lines : list string) (monitorIndex : number) :
  findBounds lines monitorIndex = boundsOfLine <$> matchingLine lines monitorIndex.
Proof.
  unfold matchingLine. induction lines as [|line rest IH]; cbn; [reflexivity |].
  destruct (strict_eq (echoedIndex line) monitorIndex); [reflexivity | exact IH].
Qed.

Lemma boundsFromOutput_spec (output : string) (monitorIndex : number) :
  boundsFromOutput output monitorIndex
  = match matchingLine (recordLines output) monitorIndex with
    | Some line => Some (boundsOfLine line)
    | None => boundsOfLine <$> head (recordLines output)
    end.
Proof.
  unfold boundsFromOutput. rewrite findBounds_matchingLine.
  destruct (matchingLine _ _); cbn; [reflexivity |].
  destruct (recordLines output); reflexivity.
Qed.

Lemma matchingLine_trimmed (a b : list string) (m : number) :
  map trim a = map trim b ->
  boundsOfLine <$> matchingLine a m = boundsOfLine <$> matchingLine b m.
Proof.
  unfold matchingLine. revert b.
  induction a as [|x a IH]; intros [|y b] H; try discriminate; [reflexivity |].
  cbn [map] in H. injection H as Hxy Hab. cbn [List.find].
  rewrite <- (echoedIndex_trim x), <- (echoedIndex_trim y), Hxy.
  destruct (strict_eq _ m).
  - cbn. by rewrite <- (boundsOfLine_trim x), <- (boundsOfLine_trim y), Hxy.
  - apply IH, Hab.
Qed.

Lemma head_trimmed (a b : list string) :
  map trim a = map trim b -> boundsOfLine <$> head a = boundsOfLine <$> head b.
Proof.
  destruct a as [|x a], b as [|y b]; try discriminate; [reflexivity |].
  cbn. intros [= Hxy _].
  by rewrite <- (boundsOfLine_trim x), <- (boundsOfLine_trim y), Hxy.
Qed.

(** The bounds lookup answers from the lines that were written: the first
    whose index field is the requested index, else the first. *)
Lemma boundsFromOutput_lines (ls : list string) (m : number) :
  Forall one_line ls ->
  boundsFromOutput (writeOutput ls) m
  = match boundsOfLine <$> matchingLine ls m with
    | Some b => Some b
    | None => boundsOfLine <$> head ls
    end.
Proof.
  intros Hls. rewrite boundsFromOutput_spec.
  pose proof (recordLines_writeOutput ls Hls) as Hback.
  rewrite <- (matchingLine_trimmed _ _ m Hback), <- (head_trimmed _ _ Hback).
  destruct (matchingLine _ m); reflexivity.
Qed.

(** ** The lines of the two scripts *)

Lemma boundsRecord_shape (e : Z * Screen.t) :
  boundsRecord e
  = decimalZ e.1 +:+ String "|" (decimalZ (Screen.X e.2)
    +:+ String "|" (decimalZ (Screen.Y e.2)
    +:+ String "|" (decimalZ (Screen.Width e.2)
    +:+ String "|" (decimalZ (Screen.Height e.2))))).
Proof. reflexivity. Qed.

Lemma monitorRecord_shape (e : Z * Screen.t) :
  monitorRecord e
  = decimalZ e.1 +:+ String "|" (Screen.DeviceName e.2
    +:+ String "|" (decimalZ (Screen.Width e.2)
    +:+ String "|" (decimalZ (Screen.Height e.2)
    +:+ String "|" (decimalZ (Screen.X e.2)
    +:+ String "|" (decimalZ (Screen.Y e.2)
    +:+ String "|" (if Screen.Primary e.2 then "PRIMARY" else "")))))).
Proof. reflexivity. Qed.

Lemma boundsRecord_one_line (e : Z * Screen.t) : one_line (boundsRecord e).
Proof.
  split; [apply started_decimalZ |]. unfold boundsRecord.
  rewrite !occurs_app, !decimalZ_occurs by (reflexivity || discriminate).
  reflexivity.
Qed.

Lemma monitorRecord_one_line (e : Z * Screen.t) :
  occurs "010" (Screen.DeviceName e.2) = false -> one_line (monitorRecord e).
Proof.
  intros Hname. split; [apply started_decimalZ |]. unfold monitorRecord.
  rewrite !occurs_app, !decimalZ_occurs, Hname by (reflexivity || discriminate).
  destruct (Screen.Primary e.2); reflexivity.
Qed.

Lemma dpiLine_one_line (aware : bool) : one_line (dpiLine aware).
Proof.
  destruct aware; (split; [do 2 eexists; split; reflexivity | reflexivity]).
Qed.

Lemma boundsRecord_fields (e : Z * Screen.t) :
  recordFields (boundsRecord e)
  = [decimalZ e.1; decimalZ (Screen.X e.2); decimalZ (Screen.Y e.2);
     decimalZ (Screen.Width e.2); decimalZ (Screen.Height e.2)].
Proof.
  unfold recordFields.
  rewrite (started_trim _ (proj1 (boundsRecord_one_line e))).
  rewrite boundsRecord_shape, !trimEnd_bar, trimEnd_decimalZ.
  rewrite !split_at by (apply decimalZ_occurs; reflexivity || discriminate).
  rewrite split_none by (apply decimalZ_occurs; reflexivity || discriminate).
  reflexivity.
Qed.

Lemma monitorRecord_fields (e : Z * Screen.t) :
  occurs "|" (Screen.DeviceName e.2) = false ->
  recordFields (monitorRecord e)
  = [decimalZ e.1; Screen.DeviceName e.2;
     decimalZ (Screen.Width e.2); decimalZ (Screen.Height e.2);
     decimalZ (Screen.X e.2); decimalZ (Screen.Y e.2);
     if Screen.Primary e.2 then "PRIMARY" else ""].
Proof.
  intros Hname. unfold recordFields.
  assert (Hst : started (monitorRecord e))
    by (unfold monitorRecord; apply started_decimalZ).
  rewrite (started_trim _ Hst).
  rewrite monitorRecord_shape, !trimEnd_bar.
  assert (Hp : trimEnd (if Screen.Primary e.2 then "PRIMARY" else "")
               = if Screen.Primary e.2 then "PRIMARY" else "")
    by (destruct (Screen.Primary e.2); reflexivity).
  rewrite Hp.
  rewrite split_at by (apply decimalZ_occurs; reflexivity || discriminate).
  rewrite split_at by exact Hname.
  rewrite !split_at by (apply decimalZ_occurs; reflexivity || discriminate).
  rewrite split_none by (destruct (Screen.Primary e.2); reflexivity).
  reflexivity.
Qed.

(** One record line, read back by each parser. *)
Lemma parseMonitorLine_monitorRecord (e : Z * Screen.t) :
  occurs "|" (Screen.DeviceName e.2) = false ->
  parseMonitorLine (monitorRecord e) = descriptorOf e.
Proof.
  intros Hname. unfold parseMonitorLine, descriptorOf.
  rewrite (monitorRecord_fields e Hname).
  cbn [lookup list_lookup fmap option_fmap option_map].
  unfold parseIntOpt. cbn [from_option id].
  rewrite !parseInt_decimalZ.
  f_equal.
  destruct (Screen.Primary e.2);
    [apply bool_decide_eq_true_2; reflexivity
    | apply bool_decide_eq_false_2; discriminate].
Qed.

Lemma boundsOfLine_boundsRecord (e : Z * Screen.t) :
  boundsOfLine (boundsRecord e) = boundsOf e.2.
Proof.
  unfold boundsOfLine, boundsOf. rewrite boundsRecord_fields.
  cbn [lookup list_lookup].
  unfold parseIntOpt. cbn [from_option id].
  rewrite !parseInt_decimalZ. reflexivity.
Qed.

Lemma echoedIndex_boundsRecord (e : Z * Screen.t) :
  echoedIndex (boundsRecord e) = to_double e.1.
Proof.
  unfold echoedIndex. rewrite boundsRecord_fields.
  cbn [lookup list_lookup]. unfold parseIntOpt. cbn [from_option id].
  apply parseInt_decimalZ.
Qed.

(** The line of the DPI call holds no record: every number read from it is
    NaN. *)
Lemma dpiLine_parsed (aware : bool) :
  parseMonitorLine (dpiLine aware) = strayMonitor
  /\ boundsOfLine (dpiLine aware) = strayBounds
  /\ echoedIndex (dpiLine aware) = NaN.
Proof. destruct aware; repeat split; vm_compute; reflexivity. Qed.

(** The loops of the two scripts write the record lines of the screens
    numbered from 0. *)
Lemma listMonitorsLine_record (i : nat) (s : Screen.t) :
  listMonitorsLine i s = monitorRecord (Z.of_nat i, s).
Proof.
  unfold listMonitorsLine, monitorRecord. cbn [fst snd]. by rewrite decimalZ_of_nat.
Qed.

Lemma boundsLine_record (i : nat) (s : Screen.t) :
  boundsLine i s = boundsRecord (Z.of_nat i, s).
Proof.
  unfold boundsLine, boundsRecord. cbn [fst snd]. by rewrite decimalZ_of_nat.
Qed.

Lemma numbered_cons (k : nat) (s : Screen.t) (rest : list Screen.t) :
  numbered k (s :: rest) = (Z.of_nat k, s) :: numbered (S k) rest.
Proof.
  unfold numbered. cbn [imap]. rewrite Nat.add_0_r. f_equal.
  apply imap_ext. intros j x _. cbn. f_equal. f_equal. lia.
Qed.

Lemma writeLines_writeOutput (line : nat -> Screen.t -> string)
    (record : Z * Screen.t -> string) (k : nat) (screens : list Screen.t) :
  (forall i s, line i s = record (Z.of_nat i, s)) ->
  writeLines line k screens = writeOutput (map record (numbered k screens)).
Proof.
  intros Hline. revert k. induction screens as [|s rest IH]; intros k; [reflexivity |].
  rewrite numbered_cons. cbn [writeLines map writeOutput].
  by rewrite IH, Hline.
Qed.

Lemma listMonitorsOutput_lines (aware : bool) (screens : list Screen.t) :
  listMonitorsOutput aware screens
  = writeOutput (dpiLine aware :: map monitorRecord (numbered 0 screens)).
Proof.
  unfold listMonitorsOutput. cbn [writeOutput].
  by rewrite (writeLines_writeOutput _ monitorRecord 0 screens listMonitorsLine_record).
Qed.

Lemma boundsOutput_lines (aware : bool) (screens : list Screen.t) :
  boundsOutput aware screens
  = writeOutput (dpiLine aware :: map boundsRecord (numbered 0 screens)).
Proof.
  unfold boundsOutput. cbn [writeOutput].
  by rewrite (writeLines_writeOutput _ boundsRecord 0 screens boundsLine_record).
Qed.
(* ===================================================================== *)
(** * Probes leave no other mark *)
(* ===================================================================== *)

Lemma spawns_app (t u : list Event) : spawns (t ++ u) = spawns t ++ spawns u.
Proof. apply omap_app. Qed.

Lemma sleeps_app (t u : list Event) : sleeps (t ++ u) = sleeps t ++ sleeps u.
Proof. apply omap_app. Qed.

Lemma probes_quiet (cs : list (string * bool)) :
  allocs (map probeEvent cs) = []
  /\ unlinks (map probeEvent cs) = []
  /\ stats (map probeEvent cs) = []
  /\ writtenScripts (map probeEvent cs) = []
  /\ execs (map probeEvent cs) = [].
Proof. induction cs as [|c cs IH]; cbn; [tauto | exact IH]. Qed.

Lemma spawns_probes (cs : list (string * bool)) :
  spawns (map probeEvent cs) = map probeSpawn cs.
Proof. induction cs as [|c cs IH]; cbn; [reflexivity | by rewrite <- IH]. Qed.

Ltac probes_norm :=
  unfold add_events; cbn [files trace uuids];
  rewrite ?allocs_app, ?unlinks_app, ?stats_app, ?writtenScripts_app, ?execs_app;
  rewrite ?(proj1 (probes_quiet _)),
          ?(proj1 (proj2 (probes_quiet _))),
          ?(proj1 (proj2 (proj2 (probes_quiet _)))),
          ?(proj1 (proj2 (proj2 (proj2 (probes_quiet _))))),
          ?(proj2 (proj2 (proj2 (proj2 (probes_quiet _)))));
  rewrite ?app_nil_r.

Ltac trace_norm' :=
  cbn [files trace uuids fst snd];
  rewrite ?allocs_app, ?unlinks_app, ?stats_app, ?writtenScripts_app, ?execs_app,
          ?spawns_app, ?sleeps_app;
  cbn [allocs unlinks stats writtenScripts execs spawns sleeps omap list_omap];
  rewrite <- ?app_assoc, ?app_nil_r; cbn [app].

Lemma probes_are_version_probes (cs : list (string * bool)) :
  Forall is_version_probe (map probeEvent cs).
Proof. induction cs; constructor; [reflexivity | assumption]. Qed.

(* ===================================================================== *)
(** * FFmpeg resolution order *)
(* ===================================================================== *)

Lemma firstResponding_Some (env : Env) (cs : list (string * bool)) (p : string) :
  firstResponding env cs = Some p
  <-> exists pre shell post,
        cs = pre ++ (p, shell) :: post
        /\ responds env (p, shell) = true
        /\ Forall (fun c => responds env c = false) pre.
Proof.
  unfold firstResponding. induction cs as [|c cs IH]; cbn.
  - split; [discriminate |]. intros (pre & shell & post & H & _).
    destruct pre; discriminate.
  - destruct (responds env c) eqn:Hc; cbn.
    + split.
      * intros [= <-]. exists [], c.2, cs. destruct c as [c1 c2]. cbn.
        split; [reflexivity |]. split; [exact Hc | constructor].
      * intros (pre & shell & post & H & Hp & Hpre).
        destruct pre as [|c' pre]; cbn in H; injection H as -> ->; [reflexivity |].
        apply Forall_cons in Hpre as [Hc' _]. congruence.
    + rewrite IH. split.
      * intros (pre & shell & post & -> & Hp & Hpre).
        exists (c :: pre), shell, post.
        split; [reflexivity |]. split; [exact Hp |].
        apply Forall_cons. split; assumption.
      * intros (pre & shell & post & H & Hp & Hpre).
        destruct pre as [|c' pre]; cbn in H; injection H as -> ->; [congruence |].
        apply Forall_cons in Hpre as [_ Hpre].
        exists pre, shell, post. split; [reflexivity |]. split; assumption.
Qed.

Lemma firstResponding_None (env : Env) (cs : list (string * bool)) :
  Forall (fun c => responds env c = false) cs ->
  firstResponding env cs = None /\ probed env cs = cs.
Proof.
  unfold firstResponding. induction 1 as [|c cs Hc _ [IH1 IH2]]; cbn; [auto |].
  rewrite Hc. cbn. split; [exact IH1 | by rewrite IH2].
Qed.

Lemma firstResponding_None_iff (env : Env) (cs : list (string * bool)) :
  firstResponding env cs = None <-> Forall (fun c => responds env c = false) cs.
Proof.
  split; [| intros H; apply firstResponding_None, H].
  unfold firstResponding. induction cs as [|c cs IH]; cbn; [constructor |].
  destruct (responds env c) eqn:Hc; cbn; [discriminate |].
  intros H. constructor; [exact Hc | exact (IH H)].
Qed.

(** Nothing is probed after the first candidate that responds. *)
Lemma probed_found (env : Env) (pre post : list (string * bool)) (c : string * bool) :
  Forall (fun c => responds env c = false) pre ->
  responds env c = true ->
  probed env (pre ++ c :: post) = pre ++ [c].
Proof.
  intros Hpre Hc. induction Hpre as [|x pre Hx _ IH]; cbn [app probed].
  - rewrite Hc. reflexivity.
  - rewrite Hx, IH. reflexivity.
Qed.

(** No candidate of the lookup is the empty string, so the lookup never
    answers with it. *)
Lemma candidates_named (env : Env) (configPath : option string) (c : string * bool) :
  c ∈ candidates env configPath -> c.1 <> EmptyString.
Proof.
  unfold candidates, commonPaths. intros Hc.
  apply elem_of_app in Hc as [Hc | Hc].
  - destruct configPath as [p|]; [| inversion Hc].
    destruct p as [|a p]; cbn in Hc; [inversion Hc |].
    apply list_elem_of_singleton in Hc as ->. discriminate.
  - cbn in Hc. repeat (apply elem_of_cons in Hc as [-> | Hc]; [cbn; try discriminate |]).
    all: try (unfold path_join; apply append_nonempty; discriminate).
    inversion Hc.
Qed.

Lemma firstResponding_named (env : Env) (configPath : option string) :
  firstResponding env (candidates env configPath) <> Some EmptyString.
Proof.
  intros H. apply firstResponding_Some in H as (pre & shell & post & Hcs & _).
  apply (candidates_named env configPath (EmptyString, shell)); [| reflexivity].
  rewrite Hcs. apply elem_of_app. right. apply elem_of_cons. left. reflexivity.
Qed.

(* ===================================================================== *)
(** * The outcomes of [record_screen] *)
(* ===================================================================== *)

Lemma getMonitorBounds_quiet (env : Env) (monitorIndex : number) (w : World) :
  spawns (trace (getMonitorBounds env monitorIndex w).2) = spawns (trace w)
  /\ sleeps (trace (getMonitorBounds env monitorIndex w).2) = sleeps (trace w).
Proof.
  unfold getMonitorBounds. run.
  set (script := path_join _ _). clearbody script.
  cases; trace_norm'; split; reflexivity.
Qed.

Lemma recordToTemp_spawns (env : Env) (api : Api) (ffmpeg : string)
    (duration fps : number) (monitorIndex : option number)
    (monitorBounds : option MonitorBounds.t) (w : World) :
  spawns (trace (recordToTemp env api ffmpeg duration fps monitorIndex
                   monitorBounds w).2)
  = spawns (trace w)
    ++ (if valid_timeout env (mul (add duration 30) 1000)
        then [encoderSpawn ffmpeg duration fps monitorBounds (recordingPath env w)]
        else [])
  /\ sleeps (trace (recordToTemp env api ffmpeg duration fps monitorIndex
                      monitorBounds w).2)
     = sleeps (trace w).
Proof.
  unfold recordToTemp, encoderSpawn, recordingPath.
  destruct (logger api) as [[hw hi]|] eqn:Hlog; [destruct hi eqn:Hi |].
  all: unfold log; rewrite Hlog; cbn [has_info]; run.
  all: set (out := path_join _ _); clearbody out.
  all: destruct (valid_timeout env _) eqn:Hvalid; simp.
  all: try (destruct (after_encoder _ _ _ _ _ !! out) as [d|] eqn:Hart; simp).
  all: try (destruct (String.length (file_bytes env d)) as [|k] eqn:Hsize;
            cbn [Nat.eqb]; simp; rewrite ?Hart; simp).
  all: try (destruct (media_save _ _ _ _ _ _) as [saved|message] eqn:Hsave; simp).
  all: trace_norm'; split; reflexivity.
Qed.

(** The outcomes of [record_screen], with the subprocesses started and the
    files looked at in each: the three early errors, and the recording,
    which ends before the encoder when [spawnSync] rejects the timeout. *)
Lemma record_screen_outcomes (env : Env) (api : Api)
    (params : gmap string value) (w : World) :
  let probes :=
    map probeSpawn (probed env (candidates env (ffmpegPath (config api)))) in
  let w1 :=
    add_events w
      (map probeEvent (probed env (candidates env (ffmpegPath (config api))))) in
  (resolveDuration (prop params "duration") (maxDuration api) = None
   /\ record_screen env api params w
      = (Returned (JsonResult (durationRequired api)), w))
  \/ (exists duration,
        resolveDuration (prop params "duration") (maxDuration api) = Some duration
        /\ firstResponding env (candidates env (ffmpegPath (config api))) = None
        /\ record_screen env api params w
           = (Returned (JsonResult ffmpegNotFound), w1))
  \/ (exists duration ffmpeg m,
        resolveDuration (prop params "duration") (maxDuration api) = Some duration
        /\ firstResponding env (candidates env (ffmpegPath (config api))) = Some ffmpeg
        /\ requestedMonitor (prop params "monitor") = Some m
        /\ boundsAnswer env m (boundsScriptPath env w1) = None
        /\ (record_screen env api params w).1 = Returned (JsonResult boundsFailed)
        /\ spawns (trace (record_screen env api params w).2)
           = spawns (trace w) ++ probes
        /\ stats (trace (record_screen env api params w).2) = stats (trace w))
  \/ (exists duration ffmpeg monitorBounds out art,
        resolveDuration (prop params "duration") (maxDuration api) = Some duration
        /\ firstResponding env (candidates env (ffmpegPath (config api))) = Some ffmpeg
        /\ match requestedMonitor (prop params "monitor") with
           | Some m =>
               boundsAnswer env m (boundsScriptPath env w1) = monitorBounds
               /\ monitorBounds <> None
           | None => monitorBounds = None
           end
        /\ (exists before,
              allocs (trace (record_screen env api params w).2) = before ++ [out])
        /\ (exists before,
              unlinks (trace (record_screen env api params w).2) = before ++ [out])
        /\ ((valid_timeout env (mul (add duration 30) 1000) = false
             /\ (record_screen env api params w).1
                = Returned (JsonResult
                    (recordingFailed
                       (io_message env
                          (TimeoutOutOfRange (mul (add duration 30) 1000)))))
             /\ spawns (trace (record_screen env api params w).2)
                = spawns (trace w) ++ probes
             /\ stats (trace (record_screen env api params w).2) = stats (trace w))
            \/ (valid_timeout env (mul (add duration 30) 1000) = true
                /\ (record_screen env api params w).1
                   = Returned (JsonResult
                       (recordOutcome env duration (resolveFps (prop params "fps"))
                          (requestedMonitor (prop params "monitor"))
                          monitorBounds art))
                /\ spawns (trace (record_screen env api params w).2)
                   = spawns (trace w) ++ probes
                     ++ [encoderSpawn ffmpeg duration (resolveFps (prop params "fps"))
                           monitorBounds out]
                /\ stats (trace (record_screen env api params w).2)
                   = stats (trace w) ++ [(out, artifactSize env art)]))).
Proof.
  cbv zeta. rewrite record_screen_unfold.
  destruct (resolveDuration _ _) as [duration|]; [| left; split; reflexivity].
  right. cbv zeta.
  pose proof (firstResponding_named env (ffmpegPath (config api))) as Hnamed.
  destruct (firstResponding _ _) as [[|c ffmpeg]|];
    [contradiction | | left; exists duration; repeat split; reflexivity].
  right. clear Hnamed.
  set (w1 := add_events w _).
  assert (Hsp1 : spawns (trace w1)
                 = spawns (trace w)
                   ++ map probeSpawn
                        (probed env (candidates env (ffmpegPath (config api))))).
  { subst w1. unfold add_events. cbn [trace]. by rewrite spawns_app, spawns_probes. }
  assert (Hst1 : stats (trace w1) = stats (trace w))
    by (subst w1; probes_norm; reflexivity).
  assert (Hrecord : forall mi mb w0,
            spawns (trace w0) = spawns (trace w1) ->
            stats (trace w0) = stats (trace w1) ->
            let run := recordToTemp env api (String c ffmpeg) duration
                         (resolveFps (prop params "fps")) mi mb w0 in
            exists out art,
              (exists before, allocs (trace run.2) = before ++ [out])
              /\ (exists before, unlinks (trace run.2) = before ++ [out])
              /\ ((valid_timeout env (mul (add duration 30) 1000) = false
                   /\ run.1
                      = Returned (JsonResult
                          (recordingFailed
                             (io_message env
                                (TimeoutOutOfRange (mul (add duration 30) 1000)))))
                   /\ spawns (trace run.2)
                      = spawns (trace w)
                        ++ map probeSpawn
                             (probed env (candidates env (ffmpegPath (config api))))
                   /\ stats (trace run.2) = stats (trace w))
                  \/ (valid_timeout env (mul (add duration 30) 1000) = true
                      /\ run.1
                         = Returned (JsonResult
                             (recordOutcome env duration
                                (resolveFps (prop params "fps")) mi mb art))
                      /\ spawns (trace run.2)
                         = spawns (trace w)
                           ++ map probeSpawn
                                (probed env
                                   (candidates env (ffmpegPath (config api))))
                           ++ [encoderSpawn (String c ffmpeg) duration
                                 (resolveFps (prop params "fps")) mb out]
                      /\ stats (trace run.2)
                         = stats (trace w) ++ [(out, artifactSize env art)]))).
  { intros mi mb w0 Hsp0 Hst0 run. subst run.
    destruct (recordToTemp_spawns env api (String c ffmpeg) duration
                (resolveFps (prop params "fps")) mi mb w0) as [Hsp _].
    destruct (recordToTemp_run env api (String c ffmpeg) duration
                (resolveFps (prop params "fps")) mi mb w0)
      as (w' & Hrun & _ & Hallocs & Hunlinks & Hst & _).
    rewrite Hrun in Hsp |- *. cbn [fst snd] in Hsp |- *.
    exists (recordingPath env w0),
      (artifact env (String c ffmpeg) duration (resolveFps (prop params "fps")) mb w0).
    split; [eexists; exact Hallocs |]. split; [eexists; exact Hunlinks |].
    unfold recordAnswer. rewrite Hsp, Hst, Hsp0, Hst0, Hsp1, Hst1.
    destruct (valid_timeout env _); [right | left];
      rewrite ?app_nil_r, <- ?app_assoc; repeat split; reflexivity. }
  destruct (requestedMonitor _) as [m|].
  - destruct (getMonitorBounds_effects env m w1)
      as (rb & wb & Hb & _ & _ & _ & Hstats & _).
    destruct (getMonitorBounds_quiet env m w1) as [Hspb _].
    rewrite Hb in Hspb |- *. cbn [snd] in Hspb |- *.
    destruct (boundsAnswer _ _ _) as [b|] eqn:Hanswer.
    + right.
      destruct (Hrecord (Some m) (Some b) wb Hspb Hstats) as (out & art & H).
      exists duration, (String c ffmpeg), (Some b), out, art.
      split; [reflexivity |]. split; [reflexivity |].
      split; [split; [reflexivity | discriminate] |]. exact H.
    + left. exists duration, (String c ffmpeg), m.
      cbn [fst snd]. repeat split; try reflexivity.
      * exact Hanswer.
      * rewrite Hspb. exact Hsp1.
      * rewrite Hstats. exact Hst1.
  - right.
    destruct (Hrecord None None w1 eq_refl eq_refl) as (out & art & H).
    exists duration, (String c ffmpeg), None, out, art.
    split; [reflexivity |]. split; [reflexivity |].
    split; [reflexivity |]. exact H.
Qed.

Lemma recordOutcome_shape (env : Env) (duration fps : number)
    (monitorIndex : option number) (monitorBounds : option MonitorBounds.t)
    (art : option FileData) :
  (exists message,
     recordOutcome env duration fps monitorIndex monitorBounds art
     = recordingFailed message
     /\ (message = "Recording failed - no output file created"
         \/ message = "Recording produced empty file"
         \/ exists buffer,
              media_save env buffer "video/mp4" "recordings" (100 * 1024 * 1024)
                [Txt "screen-recording-"; Num duration; Txt "s.mp4"]
              = SaveFailed message))
  \/ (exists buffer saved,
        media_save env buffer "video/mp4" "recordings" (100 * 1024 * 1024)
          [Txt "screen-recording-"; Num duration; Txt "s.mp4"] = Saved saved
        /\ recordOutcome env duration fps monitorIndex monitorBounds art
           = recordingSucceeded duration fps monitorIndex monitorBounds saved).
Proof.
  unfold recordOutcome. destruct art as [d|]; [| left; eexists; eauto].
  destruct (Nat.eqb _ 0); [left; eexists; eauto |].
  destruct (media_save _ _ _ _ _ _) as [saved|message] eqn:Hsave.
  - right. exists (file_bytes env d), saved. split; [exact Hsave | reflexivity].
  - left. eexists. split; [reflexivity |]. right. right. eauto.
Qed.

Lemma recordOutcome_success (env : Env)
    (duration fps : number) (monitorIndex : option number)
    (monitorBounds : option MonitorBounds.t) (art : option FileData) :
  field "success" (recordOutcome env duration fps monitorIndex monitorBounds art)
  = VBool true ->
  field "duration" (recordOutcome env duration fps monitorIndex monitorBounds art)
  = VNum duration
  /\ field "fps" (recordOutcome env duration fps monitorIndex monitorBounds art)
     = VNum fps
  /\ field "monitor" (recordOutcome env duration fps monitorIndex monitorBounds art)
     = from_option VNum VUndefined monitorIndex
  /\ field "monitorBounds"
       (recordOutcome env duration fps monitorIndex monitorBounds art)
     = from_option MonitorBounds.to_value VNull monitorBounds.
Proof.
  unfold recordOutcome. destruct art as [d|]; [| discriminate].
  destruct (Nat.eqb _ 0); [discriminate |].
  destruct (media_save _ _ _ _ _ _); [repeat split; reflexivity | discriminate].
Qed.

Lemma recordOutcome_not_ffmpegNotFound (env : Env)
    (duration fps : number) (monitorIndex : option number)
    (monitorBounds : option MonitorBounds.t) (art : option FileData) :
  recordOutcome env duration fps monitorIndex monitorBounds art <> ffmpegNotFound.
Proof.
  unfold recordOutcome, ffmpegNotFound, recordingFailed, recordingSucceeded.
  destruct art as [d|]; [| discriminate].
  destruct (Nat.eqb _ 0); [discriminate |].
  destruct (media_save _ _ _ _ _ _); discriminate.
Qed.

(* ===================================================================== *)
(** * Monitor indices *)
(* ===================================================================== *)

Lemma parseMonitors_indices (output : string) :
  map Monitor.index (parseMonitors output) = map echoedIndex (recordLines output).
Proof. unfold parseMonitors. rewrite map_map. reflexivity. Qed.

Lemma positional_echoes (lines : list string) :
  map echoedIndex lines = positions (length lines) -> echoes_position lines.
Proof.
  intros H i line Hi.
  apply (f_equal (fun l => l !! i)) in H. unfold positions in H.
  change (map echoedIndex lines) with (echoedIndex <$> lines) in H.
  change (map (fun i => of_Z (Z.of_nat i)) (seq 0 (length lines)))
    with ((fun i => of_Z (Z.of_nat i)) <$> seq 0 (length lines)) in H.
  rewrite !list_lookup_fmap, Hi in H.
  rewrite lookup_seq_lt in H by (eapply lookup_lt_Some; exact Hi).
  cbn in H. by injection H.
Qed.

Lemma records_one_line (record : Z * Screen.t -> string)
    (entries : list (Z * Screen.t)) :
  Forall (fun e => one_line (record e)) entries ->
  Forall one_line (map record entries).
Proof. induction 1; constructor; assumption. Qed.

Lemma monitorRecords_one_line (entries : list (Z * Screen.t)) :
  Forall (fun e => plain_name e.2) entries ->
  Forall one_line (map monitorRecord entries).
Proof.
  intros H. apply records_one_line.
  eapply Forall_impl; [exact H |]. intros e [_ Hlf].
  apply monitorRecord_one_line, Hlf.
Qed.

Lemma boundsRecords_one_line (entries : list (Z * Screen.t)) :
  Forall one_line (map boundsRecord entries).
Proof.
  apply records_one_line. apply Forall_forall. intros e _.
  apply boundsRecord_one_line.
Qed.

Lemma map_monitorRecords (entries : list (Z * Screen.t)) :
  Forall (fun e => plain_name e.2) entries ->
  map parseMonitorLine (map monitorRecord entries) = map descriptorOf entries.
Proof.
  induction 1 as [|e entries [Hbar _] _ IH]; [reflexivity |].
  cbn [map]. by rewrite IH, (parseMonitorLine_monitorRecord e Hbar).
Qed.

(** Record lines come back as the descriptors of their entries, whatever
    integers they carry as indices. *)
Lemma parseMonitors_records (entries : list (Z * Screen.t)) :
  Forall (fun e => plain_name e.2) entries ->
  parseMonitors (writeOutput (map monitorRecord entries)) = map descriptorOf entries.
Proof.
  intros H. rewrite parseMonitors_lines by (apply monitorRecords_one_line, H).
  apply map_monitorRecords, H.
Qed.

Lemma matchingLine_records (entries : list (Z * Screen.t)) (m : number) :
  boundsOfLine <$> matchingLine (map boundsRecord entries) m
  = (fun e => boundsOf e.2)
      <$> List.find (fun e => strict_eq (to_double e.1) m) entries.
Proof.
  unfold matchingLine. induction entries as [|e entries IH]; [reflexivity |].
  cbn [map List.find]. rewrite echoedIndex_boundsRecord.
  destruct (strict_eq (to_double e.1) m); [| exact IH].
  cbn. by rewrite boundsOfLine_boundsRecord.
Qed.

Lemma head_records (entries : list (Z * Screen.t)) :
  boundsOfLine <$> head (map boundsRecord entries)
  = (fun e => boundsOf e.2) <$> head entries.
Proof.
  destruct entries as [|e entries]; [reflexivity |].
  cbn. by rewrite boundsOfLine_boundsRecord.
Qed.

(** The bounds lookup on record lines: the bounds of the first entry whose
    index is the requested one, else of the first entry. *)
Lemma boundsFromOutput_records (entries : list (Z * Screen.t)) (m : number) :
  boundsFromOutput (writeOutput (map boundsRecord entries)) m
  = (fun e => boundsOf e.2) <$> entryFor entries m.
Proof.
  rewrite boundsFromOutput_lines by apply boundsRecords_one_line.
  rewrite matchingLine_records, head_records. unfold entryFor.
  destruct (List.find _ entries); reflexivity.
Qed.

(** The same after the line of the DPI call: that line matches no index
    and is the first line. *)
Lemma boundsFromOutput_after_dpiLine (aware : bool)
    (entries : list (Z * Screen.t)) (m : number) :
  boundsFromOutput (writeOutput (dpiLine aware :: map boundsRecord entries)) m
  = Some match List.find (fun e => strict_eq (to_double e.1) m) entries with
         | Some e => boundsOf e.2
         | None => strayBounds
         end.
Proof.
  rewrite boundsFromOutput_lines
    by (constructor; [apply dpiLine_one_line | apply boundsRecords_one_line]).
  destruct (dpiLine_parsed aware) as (_ & Hbounds & Hindex).
  unfold matchingLine. cbn [List.find head]. rewrite Hindex. cbn [strict_eq].
  fold (matchingLine (map boundsRecord entries) m).
  rewrite matchingLine_records.
  destruct (List.find _ entries); cbn; [reflexivity |].
  by rewrite Hbounds.
Qed.

Lemma strict_eq_position (a b : nat) :
  strict_eq (of_Z (Z.of_nat a)) (of_Z (Z.of_nat b)) = bool_decide (a = b).
Proof.
  rewrite strict_eq_of_Z. do 2 case_bool_decide; try reflexivity; lia.
Qed.

(** Among the screens numbered from [k], fewer than 2^53, the entry with
    index [i] is the screen at position [i - k]. *)
Lemma find_numbered (screens : list Screen.t) (k i : nat) :
  (Z.of_nat (k + length screens) <= 2 ^ 53)%Z ->
  List.find (fun e => strict_eq (to_double e.1) (of_Z (Z.of_nat i)))
    (numbered k screens)
  = if (i <? k)%nat then None
    else (fun s => (Z.of_nat i, s)) <$> screens !! (i - k)%nat.
Proof.
  revert k. induction screens as [|s rest IH]; intros k Hk.
  - unfold numbered. cbn [imap List.find]. rewrite lookup_nil.
    destruct (i <? k)%nat; reflexivity.
  - rewrite numbered_cons. cbn [List.find fst length] in *.
    rewrite to_double_position by lia. rewrite strict_eq_position.
    case_bool_decide as Hki.
    + subst i. rewrite Nat.ltb_irrefl, Nat.sub_diag. reflexivity.
    + rewrite IH by lia.
      destruct (i <? k)%nat eqn:E1.
      * apply Nat.ltb_lt in E1. rewrite (proj2 (Nat.ltb_lt _ _)) by lia. reflexivity.
      * apply Nat.ltb_ge in E1. rewrite (proj2 (Nat.ltb_ge _ _)) by lia.
        replace (i - k)%nat with (S (i - S k))%nat by lia. reflexivity.
Qed.

Lemma indices_numbered (screens : list Screen.t) (k : nat) :
  (Z.of_nat (k + length screens) <= 2 ^ 53)%Z ->
  map (fun e : Z * Screen.t => to_double e.1) (numbered k screens)
  = map (fun i => of_Z (Z.of_nat i)) (seq k (length screens)).
Proof.
  revert k. induction screens as [|s rest IH]; intros k Hk; [reflexivity |].
  rewrite numbered_cons. cbn [map seq length fst] in *.
  rewrite to_double_position by lia. f_equal. apply IH. lia.
Qed.

Lemma numbered_plain (screens : list Screen.t) (k : nat) :
  Forall plain_name screens -> Forall (fun e => plain_name e.2) (numbered k screens).
Proof.
  intros H. revert k. induction H as [|s rest Hs _ IH]; intros k; [constructor |].
  rewrite numbered_cons. constructor; [exact Hs | apply IH].
Qed.

Lemma descriptors_numbered (screens : list Screen.t) (k : nat) :
  map descriptorOf (numbered k screens)
  = imap (fun j s => monitorOf (k + j) s) screens.
Proof. unfold numbered. rewrite map_imap. reflexivity. Qed.

(** C1, as the code has it.  list_monitors returns one descriptor per
    non-empty line of the enumeration output, in emission order, and the
    index of each descriptor is the number read from the first field of
    its line, not the position of the line; the bounds lookup likewise
    answers with the first line whose first field reads as the requested
    index.  So record lines that carry the integers z1, z2, ... as their
    index fields, in whatever order, come back with the indices z1, z2,
    ... (as numbers: themselves below 2^53), and the lookup for m finds
    the first entry whose index is m.  The indices are 0..N-1 exactly when
    every line echoes its own position, as the lines do that the loops of
    the two scripts write for N screens. *)
Theorem monitor_indices_are_the_echoed_ones (output : string)
    (entries : list (Z * Screen.t)) (screens : list Screen.t) (m : number) :
  length (parseMonitors output) = length (recordLines output)
  /\ map Monitor.index (parseMonitors output) = map echoedIndex (recordLines output)
  /\ (map Monitor.index (parseMonitors output)
      = positions (length (recordLines output))
      <-> echoes_position (recordLines output))
  /\ (Forall (fun e => plain_name e.2) entries ->
      parseMonitors (writeOutput (map monitorRecord entries))
      = map descriptorOf entries
      /\ map Monitor.index (parseMonitors (writeOutput (map monitorRecord entries)))
         = map (fun e => to_double e.1) entries)
  /\ boundsFromOutput (writeOutput (map boundsRecord entries)) m
     = (fun e => boundsOf e.2) <$> entryFor entries m
  /\ (forall z, (Z.abs z < 2 ^ 53)%Z -> to_double z = of_Z z)
  /\ (Forall plain_name screens ->
      (Z.of_nat (length screens) <= 2 ^ 53)%Z ->
      map Monitor.index
        (parseMonitors (writeOutput (map monitorRecord (numbered 0 screens))))
      = positions (length screens))
  /\ (forall i s,
        screens !! i = Some s ->
        (Z.of_nat (length screens) <= 2 ^ 53)%Z ->
        boundsFromOutput (writeOutput (map boundsRecord (numbered 0 screens)))
          (of_Z (Z.of_nat i))
        = Some (boundsOf s)).
Proof.
  split; [unfold parseMonitors; apply length_map |].
  split; [apply parseMonitors_indices |].
  split.
  { rewrite parseMonitors_indices. split;
      [apply positional_echoes | apply indices_positional]. }
  split.
  { intros Hplain. rewrite (parseMonitors_records entries Hplain).
    split; [reflexivity |]. rewrite map_map. reflexivity. }
  split; [apply boundsFromOutput_records |].
  split; [apply to_double_small |].
  split.
  { intros Hplain Hlen.
    rewrite (parseMonitors_records _ (numbered_plain screens 0 Hplain)).
    rewrite map_map. apply (indices_numbered screens 0). exact Hlen. }
  intros i s Hs Hlen. rewrite boundsFromOutput_records. unfold entryFor.
  rewrite (find_numbered screens 0 i) by exact Hlen.
  cbn [Nat.ltb Nat.leb]. rewrite Nat.sub_0_r, Hs. reflexivity.
Qed.

Lemma monitor_indices_are_the_echoed_ones_witness :
  map Monitor.index (parseMonitors (writeOutput (map monitorRecord swapped_entries)))
  = [of_Z 1; of_Z 0]
  /\ boundsFromOutput (writeOutput (map boundsRecord swapped_entries)) (of_Z 0)
     = Some {| MonitorBounds.x := of_Z 1920; MonitorBounds.y := of_Z 0;
               MonitorBounds.width := of_Z 1280; MonitorBounds.height := of_Z 1024 |}
  /\ map Monitor.index
       (parseMonitors (writeOutput (map monitorRecord (numbered 0 demo_screens))))
     = [of_Z 0; of_Z 1].
Proof.
  destruct (monitor_indices_are_the_echoed_ones EmptyString swapped_entries
              demo_screens (of_Z 0))
    as (_ & _ & _ & Hrecords & Hbounds & _ & Hnumbered & _).
  split; [| split].
  - destruct Hrecords as [_ ->]; [| reflexivity].
    apply Forall_cons; split; [split; reflexivity |].
    apply Forall_cons; split; [split; reflexivity | constructor].
  - rewrite Hbounds. reflexivity.
  - rewrite Hnumbered; [reflexivity | | vm_compute; discriminate].
    apply Forall_cons; split; [split; reflexivity |].
    apply Forall_cons; split; [split; reflexivity | constructor].
Defined.

(** The index of a descriptor is not its position: a single line echoing 5
    gives index 5; and with the lines in reverse order, the lookup for 0
    answers with the bounds of the second line. *)
Lemma monitor_indices_are_not_positional :
  map Monitor.index (parseMonitors echo_5) = [of_Z 5]
  /\ map Monitor.index (parseMonitors echo_5)
     <> positions (length (recordLines echo_5))
  /\ recordLines echo_swapped = ["1|0|0|1920|1080"; "0|1920|0|1280|1024"]
  /\ boundsFromOutput echo_swapped (of_Z 0)
     = Some (boundsOfLine "0|1920|0|1280|1024")
  /\ boundsFromOutput echo_swapped (of_Z 0)
     <> Some (boundsOfLine "1|0|0|1920|1080").
Proof.
  repeat split; try reflexivity; vm_compute; discriminate.
Qed.

(* ===================================================================== *)
(** * The bounds lookup *)
(* ===================================================================== *)



(* ===================================================================== *)
(** * FFmpeg resolution order *)
(* ===================================================================== *)

(** C4. The lookup of the capture binary probes, in this order, the
    configured path (when it is a non-empty string), the name "ffmpeg"
    through the shell, and the five well-known install locations, each
    with a "-version" run that must exit with status 0.  It answers with
    the first candidate that responds, whichever it is, and probes no
    candidate after it; it answers with none exactly when no candidate
    responds, after probing them all.  record_screen (given a numeric
    duration) answers "FFmpeg not found" with its installation hint
    exactly in that case, and all it has done then is the probes: no temp
    path allocated, no file written, no script run, no other
    subprocess. *)
Theorem ffmpeg_resolution_is_ordered (env : Env) (api : Api)
    (params : gmap string value) (w : World) (d : number) :
  let cs := candidates env (ffmpegPath (config api)) in
  let run := record_screen env api (<["duration" := VNum d]> params) w in
  (forall configPath w0,
     findFfmpeg env configPath w0
     = (Returned (firstResponding env (candidates env configPath)),
        add_events w0 (map probeEvent (probed env (candidates env configPath)))))
  /\ (forall configPath,
        candidates env configPath
        = match configPath with
          | Some p => if truthy p then [(p, false)] else []
          | None => []
          end
          ++ [("ffmpeg", true);
              ("C:\ffmpeg\bin\ffmpeg.exe", false);
              ("C:\Program Files\ffmpeg\bin\ffmpeg.exe", false);
              ("C:\Program Files (x86)\ffmpeg\bin\ffmpeg.exe", false);
              (path_join (path_join (path_join (homedir env) "ffmpeg") "bin")
                 "ffmpeg.exe", false);
              (path_join (path_join (path_join (homedir env) "scoop") "shims")
                 "ffmpeg.exe", false)])
  /\ (forall c,
        probeEvent c = ESpawn c.1 [[Txt "-version"]] c.2 (of_Z 5000)
        /\ (responds env c = true <-> probe env c.1 c.2 = ProbeStatus (Some 0%Z)))
  /\ (forall l p,
        firstResponding env l = Some p
        <-> exists pre shell post,
              l = pre ++ (p, shell) :: post
              /\ responds env (p, shell) = true
              /\ Forall (fun c => responds env c = false) pre)
  /\ (forall l,
        firstResponding env l = None <-> Forall (fun c => responds env c = false) l)
  /\ (forall pre c post,
        Forall (fun c => responds env c = false) pre ->
        responds env c = true ->
        probed env (pre ++ c :: post) = pre ++ [c])
  /\ (forall l, Forall (fun c => responds env c = false) l -> probed env l = l)
  /\ (run.1 = Returned (JsonResult ffmpegNotFound)
      <-> Forall (fun c => responds env c = false) cs)
  /\ (Forall (fun c => responds env c = false) cs ->
      run = (Returned (JsonResult ffmpegNotFound), add_events w (map probeEvent cs)))
  /\ ffmpegNotFound
     = VObj [("error", VStr "FFmpeg not found");
             ("hint", VStr "Install FFmpeg: winget install ffmpeg, or download from ffmpeg.org and add to PATH, or set ffmpegPath in plugin config")]
  /\ (forall l,
        Forall is_version_probe (map probeEvent l)
        /\ allocs (map probeEvent l) = []
        /\ writtenScripts (map probeEvent l) = []
        /\ execs (map probeEvent l) = []
        /\ spawns (map probeEvent l) = map probeSpawn l).
Proof.
  intros cs run.
  assert (Hd : resolveDuration (prop (<["duration" := VNum d]> params) "duration")
                 (maxDuration api)
               = Some (math_min (math_max (math_round d) (of_Z 1)) (maxDuration api))).
  { unfold resolveDuration, prop. rewrite lookup_insert_eq. reflexivity. }
  split; [intros; apply findFfmpeg_run |].
  split; [intros; reflexivity |].
  split.
  { intros c. split; [reflexivity |]. unfold responds.
    destruct (probe env c.1 c.2) as [[[| |]|]|]; split; congruence. }
  split; [intros; apply firstResponding_Some |].
  split; [intros; apply firstResponding_None_iff |].
  split; [intros; apply probed_found; assumption |].
  split; [intros l Hl; apply firstResponding_None, Hl |].
  split.
  { subst run cs. rewrite <- firstResponding_None_iff.
    destruct (record_screen_outcomes env api (<["duration" := VNum d]> params) w)
      as [[Hnone _]
         | [(d' & _ & Hff & Hrun)
           | [(d' & ffmpeg & m & _ & Hff & _ & _ & Hrun & _)
             | (d' & ffmpeg & mb & out & art & _ & Hff & _ & _ & _ & Hrun)]]].
    - congruence.
    - rewrite Hrun. cbn [fst]. tauto.
    - rewrite Hrun, Hff. split; intros H; [| discriminate].
      injection H as H. discriminate H.
    - rewrite Hff.
      destruct Hrun as [(_ & Hrun & _) | (_ & Hrun & _)]; rewrite Hrun;
        (split; intros H; [| discriminate]); injection H as H; exfalso.
      + discriminate H.
      + exact (recordOutcome_not_ffmpegNotFound _ _ _ _ _ _ H). }
  split.
  { intros Hnone. subst run cs. rewrite record_screen_unfold, Hd. cbv zeta.
    destruct (firstResponding_None env (candidates env (ffmpegPath (config api))) Hnone)
      as [-> ->].
    reflexivity. }
  split; [reflexivity |].
  intros l. split; [apply probes_are_version_probes |].
  destruct (probes_quiet l) as (Ha & _ & _ & Hw & He).
  split; [exact Ha |]. split; [exact Hw |]. split; [exact He |].
  apply spawns_probes.
Qed.

Lemma ffmpeg_resolution_is_ordered_witness :
  findFfmpeg demo_env (Some "C:\tools\ffmpeg.exe") demo_world
  = (Returned (Some "ffmpeg"),
     add_events demo_world
       [ESpawn "C:\tools\ffmpeg.exe" [[Txt "-version"]] false (of_Z 5000);
        ESpawn "ffmpeg" [[Txt "-version"]] true (of_Z 5000)])
  /\ record_screen no_ffmpeg_env demo_api (<["duration" := VNum (of_Z 5)]> ∅) demo_world
     = (Returned (JsonResult ffmpegNotFound),
        add_events demo_world
          (map probeEvent (candidates no_ffmpeg_env (ffmpegPath (config demo_api))))).
Proof.
  split.
  - destruct (ffmpeg_resolution_is_ordered demo_env demo_api ∅ demo_world (of_Z 5))
      as (Hrun & _).
    rewrite Hrun. reflexivity.
  - destruct (ffmpeg_resolution_is_ordered no_ffmpeg_env demo_api ∅ demo_world (of_Z 5))
      as (_ & _ & _ & _ & _ & _ & _ & _ & Hnone & _).
    apply Hnone. repeat constructor.
Defined.
(* ===================================================================== *)
(** * Verification of the recorded artifact *)
(* ===================================================================== *)

Lemma recordToTemp_ignores_status (env : Env) (api : Api)
    (status : string -> list text -> option Z) (ffmpeg : string)
    (duration fps : number) (monitorIndex : option number)
    (monitorBounds : option MonitorBounds.t) (w : World) :
  recordToTemp (override_status status env) api ffmpeg duration fps monitorIndex
    monitorBounds w
  = recordToTemp env api ffmpeg duration fps monitorIndex monitorBounds w.
Proof.
  unfold recordToTemp, spawnEncoder.
  change (valid_timeout (override_status status env)) with (valid_timeout env).
  destruct (logger api) as [[hw hi]|] eqn:Hlog; [destruct hi eqn:Hi |].
  all: unfold log; rewrite Hlog; cbn [has_info]; run.
  all: destruct (valid_timeout env _); reflexivity.
Qed.

Lemma record_screen_ignores_status (env : Env) (api : Api)
    (status : string -> list text -> option Z)
    (params : gmap string value) (w : World) :
  record_screen (override_status status env) api params w
  = record_screen env api params w.
Proof.
  unfold record_screen.
  destruct (resolveDuration _ _) as [duration|]; [| reflexivity].
  change (findFfmpeg (override_status status env)) with (findFfmpeg env).
  change (getMonitorBounds (override_status status env)) with (getMonitorBounds env).
  unfold bind at 1 3.
  destruct (findFfmpeg env _ w) as [[[[|c ffmpeg]|]|message] w1]; try reflexivity.
  destruct (requestedMonitor _) as [m|].
  - unfold bind.
    destruct (getMonitorBounds env m w1) as [[[b|]|message] w2]; try reflexivity.
    apply recordToTemp_ignores_status.
  - unfold bind, ret. apply recordToTemp_ignores_status.
Qed.

(** Either [record_screen] stopped before the encoder, with an error and no
    [stat], or it recorded and its answer is decided by the one [stat] it
    made of the output temp file. *)
Lemma record_screen_verification (env : Env) (api : Api)
    (params : gmap string value) (w : World) :
  exists r w',
    record_screen env api params w = (Returned (JsonResult r), w')
    /\ ((stats (trace w') = stats (trace w)
         /\ field "path" r = VUndefined
         /\ is_error (JsonResult r) = true)
        \/ exists duration fps monitorIndex monitorBounds out art,
             stats (trace w') = stats (trace w) ++ [(out, artifactSize env art)]
             /\ out ∈ allocs (trace w')
             /\ r = recordOutcome env duration fps monitorIndex monitorBounds art).
Proof.
  destruct (record_screen env api params w) as [o w'] eqn:Hrun.
  pose proof (record_screen_outcomes env api params w) as Hcases.
  cbv zeta in Hcases. rewrite Hrun in Hcases. cbn [fst snd] in Hcases.
  destruct Hcases
    as [[_ H]
       | [(d & _ & _ & H)
         | [(d & ffmpeg & m & _ & _ & _ & _ & H & _ & Hst)
           | (d & ffmpeg & mb & out & art & _ & _ & _ & [before Ha] & _ & H)]]].
  - injection H as -> ->. do 2 eexists. split; [reflexivity |].
    left. repeat split; reflexivity.
  - injection H as -> ->. do 2 eexists. split; [reflexivity |].
    left. probes_norm. repeat split; reflexivity.
  - subst o. do 2 eexists. split; [reflexivity |].
    left. split; [exact Hst |]. split; reflexivity.
  - destruct H as [(_ & -> & _ & Hst) | (_ & -> & _ & Hst)];
      do 2 eexists; (split; [reflexivity |]).
    + left. split; [exact Hst |]. split; reflexivity.
    + right. do 6 eexists. split; [exact Hst |]. split; [| reflexivity].
      rewrite Ha. apply elem_of_app. right. apply list_elem_of_singleton.
      reflexivity.
Qed.

Lemma recordOutcome_path (env : Env) (duration fps : number)
    (monitorIndex : option number) (monitorBounds : option MonitorBounds.t)
    (art : option FileData) :
  field "path" (recordOutcome env duration fps monitorIndex monitorBounds art)
  <> VUndefined ->
  field "error" (recordOutcome env duration fps monitorIndex monitorBounds art)
  = VUndefined
  /\ exists size, artifactSize env art = Some (S size).
Proof.
  unfold recordOutcome, artifactSize. destruct art as [d|]; cbn; [| congruence].
  destruct (String.length (file_bytes env d)) as [|size]; cbn; [congruence |].
  destruct (media_save _ _ _ _ _ _); cbn; [eauto | congruence].
Qed.

(** C3. record_screen decides success by the artifact alone.  A result
    without error and with a path is returned only when the [stat] of the
    output temp file found it with a size that is not zero; when the
    [stat] found no file the answer is the error whose details are
    "Recording failed - no output file created", when it found an empty
    file the details are "Recording produced empty file".  The exit status
    of the encoder changes nothing. *)
Theorem recording_success_is_decided_by_the_artifact (env : Env) (api : Api)
    (params : gmap string value) (fs : gmap string FileData) (n : nat)
    (r : value) :
  let run := record_screen env api params (initial_world fs n) in
  run.1 = Returned (JsonResult r) ->
  (field "path" r <> VUndefined ->
   field "error" r = VUndefined
   /\ exists out size,
        stats (trace run.2) = [(out, Some (S size))]
        /\ out ∈ allocs (trace run.2))
  /\ (forall out,
        stats (trace run.2) = [(out, None)] ->
        r = recordingFailed "Recording failed - no output file created")
  /\ (forall out,
        stats (trace run.2) = [(out, Some 0%nat)] ->
        r = recordingFailed "Recording produced empty file")
  /\ (forall status,
        record_screen (override_status status env) api params (initial_world fs n)
        = run).
Proof.
  intros run Hrun. subst run.
  destruct (record_screen_verification env api params (initial_world fs n))
    as (r' & w' & Heq & Hcases).
  rewrite Heq in *. cbn [fst snd] in *. injection Hrun as ->.
  split; [| split; [| split]].
  - intros Hpath. destruct Hcases as [(_ & Hnone & _) | Hrec]; [contradiction |].
    destruct Hrec as (duration & fps & mi & mb & out & art & Hst & Hout & ->).
    apply recordOutcome_path in Hpath as [Herr [size Hsize]].
    split; [exact Herr |]. exists out, size.
    rewrite Hst, Hsize. split; [reflexivity | exact Hout].
  - intros out Hstat. destruct Hcases as [[Hst _] | Hrec].
    + rewrite Hst in Hstat. discriminate.
    + destruct Hrec as (duration & fps & mi & mb & out' & art & Hst & _ & ->).
      rewrite Hst in Hstat. cbn in Hstat. injection Hstat as _ Hsize.
      unfold recordOutcome. unfold artifactSize in Hsize.
      destruct art; [discriminate | reflexivity].
  - intros out Hstat. destruct Hcases as [[Hst _] | Hrec].
    + rewrite Hst in Hstat. discriminate.
    + destruct Hrec as (duration & fps & mi & mb & out' & art & Hst & _ & ->).
      rewrite Hst in Hstat. cbn in Hstat. injection Hstat as _ Hsize.
      unfold recordOutcome. unfold artifactSize in Hsize.
      destruct art as [d|]; [| discriminate].
      cbn in Hsize. injection Hsize as ->. reflexivity.
  - intros status. rewrite <- Heq. apply record_screen_ignores_status.
Qed.

Lemma recording_success_is_decided_by_the_artifact_witness :
  exists out size,
    stats (trace (record_screen demo_env demo_api record_5s demo_world).2)
    = [(out, Some (S size))].
Proof.
  edestruct (recording_success_is_decided_by_the_artifact demo_env demo_api
               record_5s no_files 0) as (Hsuccess & _);
    [vm_compute; reflexivity |].
  destruct Hsuccess as (_ & out & size & Hstat & _); [vm_compute; discriminate |].
  exists out, size. exact Hstat.
Defined.

(* ===================================================================== *)
(** * What a result says about files *)
(* ===================================================================== *)

(** [take_screenshot] answers by the answers of the outside world. *)
Lemma take_screenshot_answer (env : Env) (api : Api)
    (params : gmap string value) (w : World) :
  let delay := resolveDelay (prop params "delay") in
  let monitor := resolveMonitor (prop params "monitor") (config api) in
  let format := default Png (screenshotFormat (config api)) in
  let out := path_join (tmpdir env)
               ("screenshot-" +:+ uuid_at env (uuids w) +:+ "."
                +:+ format_name format) in
  let script := path_join (tmpdir env)
                  ("screenshot-" +:+ uuid_at env (S (uuids w)) +:+ ".ps1") in
  (take_screenshot env api params w).1
  = Returned (screenshotAnswer env (files w) out script monitor delay format).
Proof.
  intros delay monitor format out script.
  unfold take_screenshot, screenshotAnswer, screenshotFailed, screenshotSucceeded.
  fold delay monitor format.
  destruct (gt delay (of_Z 0)); run.
  all: fold out script.
  all: clearbody out script delay monitor.
  all: cases; congruence.
Qed.

Lemma screenshotAnswer_shape (env : Env) (fs : gmap string FileData)
    (out script : string) (monitor delay : number) (format : ImageFormat) :
  (exists message,
     screenshotAnswer env fs out script monitor delay format
     = screenshotFailed env message)
  \/ (exists buffer saved,
        media_save env buffer (mime_of format) "screenshots" (10 * 1024 * 1024)
          [Txt "screenshot."; Txt (format_name format)] = Saved saved
        /\ screenshotAnswer env fs out script monitor delay format
           = screenshotSucceeded monitor delay format saved).
Proof.
  unfold screenshotAnswer. cbv zeta.
  destruct (write_fails env script); [left; eauto |].
  destruct (ps_result _); [| left; eauto].
  destruct (after_script _ _ _ !! out) as [image|]; [| left; eauto].
  destruct (media_save _ _ _ _ _ _) as [saved|message] eqn:Hsave; [| left; eauto].
  destruct (image_result_fails env _); [left; eauto |].
  right. eauto.
Qed.

(** C7, as the code has it.  The path of a result is the path of the
    persisted media, never a temp path: a success result of
    take_screenshot or record_screen is built from the echoed parameters
    and from what the media store's save call answered, and its path is
    the path the save call assigned; an error result has no path.  An
    error result does carry, as its details, the message of the error that
    was caught, as it is.  For take_screenshot that is the message of the
    first operation that failed: writing the script, running it, reading
    the image, saving it, or building the image result; when the script
    ran to its end without saving the image, it is the message of the
    missing file, which names the temp image path.  For record_screen it
    is the message of the rejected timeout, of the missing or empty
    recording, or of the media store. *)
Theorem success_results_carry_the_media_store_path (env : Env) (api : Api)
    (params : gmap string value) (w : World) (r : ToolResult) :
  let delay := resolveDelay (prop params "delay") in
  let monitor := resolveMonitor (prop params "monitor") (config api) in
  let format := default Png (screenshotFormat (config api)) in
  let out := path_join (tmpdir env)
               ("screenshot-" +:+ uuid_at env (uuids w) +:+ "."
                +:+ format_name format) in
  let script := path_join (tmpdir env)
                  ("screenshot-" +:+ uuid_at env (S (uuids w)) +:+ ".ps1") in
  (take_screenshot env api params w).1
  = Returned (screenshotAnswer env (files w) out script monitor delay format)
  /\ ((take_screenshot env api params w).1 = Returned r ->
      (is_error r = true /\ result_path r = None
       /\ exists message,
            r = screenshotFailed env message
            /\ field "details" (payload_of r) = VStr message)
      \/ (is_error r = false
          /\ exists buffer saved,
               media_save env buffer (mime_of format) "screenshots"
                 (10 * 1024 * 1024)
                 [Txt "screenshot."; Txt (format_name format)] = Saved saved
               /\ r = screenshotSucceeded monitor delay format saved
               /\ result_path r = Some (saved_path saved)
               /\ field "savedPath" (payload_of r) = VStr (saved_path saved)))
  /\ (forall output,
        write_fails env script = false ->
        powershell env (ScreenshotScript out monitor format)
        = {| ps_result := Completed output; ps_saved := None |} ->
        files w !! out = None ->
        (take_screenshot env api params w).1
        = Returned
            (screenshotFailed env
               ("ENOENT: no such file or directory, open '" +:+ out +:+ "'")))
  /\ ((record_screen env api params w).1 = Returned r ->
      (is_error r = true /\ result_path r = None
       /\ (r = JsonResult (durationRequired api)
           \/ r = JsonResult ffmpegNotFound
           \/ r = JsonResult boundsFailed
           \/ exists message,
                r = JsonResult (recordingFailed message)
                /\ field "details" (payload_of r) = VStr message
                /\ ((exists duration,
                       message
                       = io_message env
                           (TimeoutOutOfRange (mul (add duration 30) 1000)))
                    \/ message = "Recording failed - no output file created"
                    \/ message = "Recording produced empty file"
                    \/ exists buffer duration,
                         media_save env buffer "video/mp4" "recordings"
                           (100 * 1024 * 1024)
                           [Txt "screen-recording-"; Num duration; Txt "s.mp4"]
                         = SaveFailed message)))
      \/ (is_error r = false
          /\ exists buffer saved duration fps monitorIndex monitorBounds,
               media_save env buffer "video/mp4" "recordings" (100 * 1024 * 1024)
                 [Txt "screen-recording-"; Num duration; Txt "s.mp4"] = Saved saved
               /\ r = JsonResult
                        (recordingSucceeded duration fps monitorIndex
                           monitorBounds saved)
               /\ result_path r = Some (saved_path saved))).
Proof.
  intros delay monitor format out script.
  pose proof (take_screenshot_answer env api params w) as Hanswer.
  cbv zeta in Hanswer. fold delay monitor format out script in Hanswer.
  split; [exact Hanswer |].
  split.
  { rewrite Hanswer. intros [= <-].
    destruct (screenshotAnswer_shape env (files w) out script monitor delay format)
      as [[message ->] | (buffer & saved & Hsave & ->)].
    - left. split; [reflexivity |]. split; [reflexivity |].
      exists message. split; reflexivity.
    - right. split; [reflexivity |]. exists buffer, saved. repeat split. exact Hsave. }
  split.
  { intros output Hwrite Hps Hfile. rewrite Hanswer. unfold screenshotAnswer.
    cbv zeta. rewrite Hwrite, Hps. cbn [ps_result].
    unfold after_script. rewrite Hps. cbn [ps_saved].
    assert (Hne : script <> out)
      by (apply not_eq_sym; subst out script; apply screenshot_paths_differ).
    rewrite lookup_insert_ne by exact Hne. rewrite Hfile. reflexivity. }
  intros Hrun.
  destruct (record_screen_outcomes env api params w)
    as [[_ H]
       | [(d & _ & _ & H)
         | [(d & ffmpeg & m & _ & _ & _ & _ & H & _)
           | (d & ffmpeg & mb & out' & art & _ & _ & _ & _ & _ & H)]]].
  - rewrite H in Hrun. injection Hrun as <-. left. repeat split. auto.
  - rewrite H in Hrun. injection Hrun as <-. left. repeat split. auto.
  - rewrite H in Hrun. injection Hrun as <-. left. repeat split. auto.
  - destruct H as [(_ & H & _) | (_ & H & _)];
      rewrite H in Hrun; injection Hrun as <-.
    + left. repeat split. right. right. right. eexists.
      split; [reflexivity |]. split; [reflexivity |]. left. eauto.
    + destruct (recordOutcome_shape env d (resolveFps (prop params "fps"))
                  (requestedMonitor (prop params "monitor")) mb art)
        as [(message & -> & Hmessage) | (buffer & saved & Hsave & ->)].
      * left. repeat split. right. right. right. exists message.
        split; [reflexivity |]. split; [reflexivity |]. right.
        destruct Hmessage as [-> | [-> | [buffer Hsave]]]; eauto.
      * right. split; [reflexivity |].
        exists buffer, saved, d, (resolveFps (prop params "fps")),
          (requestedMonitor (prop params "monitor")), mb.
        repeat split. exact Hsave.
Qed.

Lemma success_results_carry_the_media_store_path_witness :
  (exists r,
     (record_screen demo_env demo_api record_5s demo_world).1 = Returned r
     /\ result_path r = Some "C:\media\recordings\4d2a")
  /\ (take_screenshot blank_capture_env demo_api no_params demo_world).1
     = Returned
         (screenshotFailed blank_capture_env
            "ENOENT: no such file or directory, open 'C:\Temp\screenshot-1f0e.png'").
Proof.
  split.
  - eexists. split; [vm_compute; reflexivity |].
    edestruct (success_results_carry_the_media_store_path demo_env demo_api
                 record_5s demo_world) as (_ & _ & _ & Hrecord).
    edestruct Hrecord
      as [[Herr _] | (_ & buffer & saved & d & f & mi & mb & _ & _ & _)];
      [vm_compute; reflexivity | vm_compute in Herr; discriminate |].
    vm_compute. reflexivity.
  - destruct (success_results_carry_the_media_store_path blank_capture_env demo_api
                no_params demo_world (JsonResult VNull))
      as (_ & _ & Hmissing & _).
    exact (Hmissing _ eq_refl eq_refl eq_refl).
Defined.

(** A result can name a temp file: when the capture script ran to its end
    without saving the image, the details of the error result are the
    message of the failed read, with the path of the temp image that this
    very call allocated. *)
Lemma error_details_can_name_a_temp_file :
  let run := take_screenshot blank_capture_env demo_api no_params demo_world in
  run.1
  = Returned (JsonResult (VObj
      [("error", VStr "Screenshot capture failed");
       ("details",
         VStr "ENOENT: no such file or directory, open 'C:\Temp\screenshot-1f0e.png'");
       ("platform", VStr "win32")]))
  /\ allocs (trace run.2)
     = ["C:\Temp\screenshot-1f0e.png"; "C:\Temp\screenshot-2a9c.ps1"]
  /\ mentions "C:\Temp\screenshot-1f0e.png"
       "ENOENT: no such file or directory, open 'C:\Temp\screenshot-1f0e.png'"
     = true.
Proof. cbv zeta. repeat split; vm_compute; reflexivity. Qed.

(* ===================================================================== *)
(** * Release of the temp artifacts *)
(* ===================================================================== *)

Lemma elem_of_one (p a : string) : p ∈ [a] -> p = a.
Proof. intros H. apply list_elem_of_singleton in H. exact H. Qed.

Lemma elem_of_two (p a b : string) : p ∈ [a; b] -> p = a \/ p = b.
Proof.
  intros H. apply elem_of_cons in H as [H|H]; [left; exact H |].
  right. apply elem_of_one, H.
Qed.

Lemma eqb_differ (a b : string) : a <> b -> String.eqb a b = false.
Proof. apply String.eqb_neq. Qed.

Ltac count_paths :=
  unfold occurrences; cbn [List.filter];
  rewrite ?String.eqb_refl;
  rewrite ?eqb_differ by (assumption || (apply not_eq_sym; assumption));
  cbn [length]; lia.

(** A path with a deletion attempt is among the started deletions. *)
Lemma attempted_elem (p : string) (deleted : list string) :
  1 <= occurrences p deleted -> p ∈ deleted.
Proof.
  unfold occurrences. induction deleted as [|q rest IH]; cbn [List.filter length].
  - lia.
  - destruct (String.eqb p q) eqn:E.
    + intros _. apply String.eqb_eq in E as ->. apply elem_of_cons. left. reflexivity.
    + intros H. apply elem_of_cons. right. apply IH, H.
Qed.

Lemma cleans_up_intro (once : Prop) (env : Env) (w w' : World)
    (allocated deleted : list string) :
  allocs (trace w') = allocs (trace w) ++ allocated ->
  unlinks (trace w') = unlinks (trace w) ++ deleted ->
  (forall p, p ∈ allocated -> 1 <= occurrences p deleted) ->
  (once -> forall p, p ∈ allocated -> occurrences p deleted = 1) ->
  cleans_up once env w w'.
Proof.
  intros Hallocs Hunlinks Hsome Honce. exists allocated, deleted.
  repeat (split; [assumption |]).
  intros Hd p Hp. apply settle_gone; [apply attempted_elem, Hsome, Hp | apply Hd].
Qed.

Lemma list_monitors_cleans_up (env : Env) (params : gmap string value) (w : World) :
  cleans_up True env w (list_monitors env params w).2.
Proof.
  destruct (list_monitors_effects env params w)
    as (r & w' & -> & Hallocs & Hunlinks & _).
  cbn [snd]. apply (cleans_up_intro _ _ _ _ _ _ Hallocs Hunlinks).
  - intros q Hq. apply elem_of_one in Hq as ->. count_paths.
  - intros _ q Hq. apply elem_of_one in Hq as ->. count_paths.
Qed.

Lemma take_screenshot_cleans_up (env : Env) (api : Api)
    (params : gmap string value) (w : World) :
  cleans_up (result_construction_succeeds env) env w
    (take_screenshot env api params w).2.
Proof.
  destruct (take_screenshot_effects env api params w)
    as (r & w' & out & script & -> & Hne & Hallocs & Hunlinks).
  cbn [snd].
  destruct Hunlinks as [Hunlinks | [Hunlinks Hfail]];
    apply (cleans_up_intro _ _ _ _ _ _ Hallocs Hunlinks).
  - intros q Hq. apply elem_of_two in Hq as [-> | ->]; count_paths.
  - intros _ q Hq. apply elem_of_two in Hq as [-> | ->]; count_paths.
  - intros q Hq. apply elem_of_two in Hq as [-> | ->]; count_paths.
  - intros Hok. contradiction.
Qed.

Lemma getMonitorBounds_cleans_up (env : Env) (monitorIndex : number) (w : World) :
  cleans_up (deletions_succeed env) env w (getMonitorBounds env monitorIndex w).2.
Proof.
  destruct (getMonitorBounds_effects env monitorIndex w)
    as (r & w' & -> & _ & Hallocs & Hunlinks & _).
  cbn [snd]. set (script := boundsScriptPath env w) in *.
  destruct Hunlinks as [Hunlinks | [Hunlinks Hfail]];
    apply (cleans_up_intro _ _ _ _ _ _ Hallocs Hunlinks).
  - intros q Hq. apply elem_of_one in Hq as ->. count_paths.
  - intros _ q Hq. apply elem_of_one in Hq as ->. count_paths.
  - intros q Hq. apply elem_of_one in Hq as ->. count_paths.
  - intros Hd. contradiction.
Qed.

Lemma cleans_up_refl (once : Prop) (env : Env) (w : World) : cleans_up once env w w.
Proof.
  apply (cleans_up_intro _ _ _ _ [] []); rewrite ?app_nil_r; try reflexivity;
    intros; exfalso; eapply not_elem_of_nil; eassumption.
Qed.

Lemma cleans_up_probes (once : Prop) (env : Env) (w : World)
    (cs : list (string * bool)) :
  cleans_up once env w (add_events w (map probeEvent cs)).
Proof.
  apply (cleans_up_intro _ _ _ _ [] []); probes_norm; rewrite ?app_nil_r;
    try reflexivity; intros; exfalso; eapply not_elem_of_nil; eassumption.
Qed.

Lemma record_screen_cleans_up (env : Env) (api : Api)
    (params : gmap string value) (w : World) :
  cleans_up (deletions_succeed env) env w (record_screen env api params w).2.
Proof.
  rewrite record_screen_unfold.
  destruct (resolveDuration _ _) as [duration|]; [| apply cleans_up_refl].
  cbv zeta.
  destruct (firstResponding _ _) as [[|c ffmpeg]|]; try apply cleans_up_probes.
  set (w1 := add_events w _).
  assert (Ha1 : allocs (trace w1) = allocs (trace w))
    by (subst w1; probes_norm; reflexivity).
  assert (Hu1 : unlinks (trace w1) = unlinks (trace w))
    by (subst w1; probes_norm; reflexivity).
  destruct (requestedMonitor _) as [m|].
  - destruct (getMonitorBounds_effects env m w1)
      as (rb & wb & Hb & _ & Hallocs & Hunlinks & _).
    rewrite Hb. cbn [snd]. set (script := boundsScriptPath env w1) in *.
    rewrite Ha1 in Hallocs. rewrite Hu1 in Hunlinks.
    destruct (boundsAnswer _ _ _) as [b|].
    + match goal with
      | |- context [recordToTemp ?e ?a ?f ?d ?fps ?mi ?mb ?w0] =>
          destruct (recordToTemp_run e a f d fps mi mb w0)
            as (w' & -> & _ & Hallocs' & Hunlinks' & _)
      end.
      cbn [snd]. set (out := recordingPath env wb) in *.
      assert (Hne : script <> out) by apply recording_paths_differ.
      rewrite Hallocs, <- app_assoc in Hallocs'. cbn [app] in Hallocs'.
      destruct Hunlinks as [Hunlinks | [Hunlinks Hfail]];
        rewrite Hunlinks, <- app_assoc in Hunlinks'; cbn [app] in Hunlinks';
        apply (cleans_up_intro _ _ _ _ _ _ Hallocs' Hunlinks').
      * intros q Hq. apply elem_of_two in Hq as [-> | ->]; count_paths.
      * intros _ q Hq. apply elem_of_two in Hq as [-> | ->]; count_paths.
      * intros q Hq. apply elem_of_two in Hq as [-> | ->]; count_paths.
      * intros Hd. contradiction.
    + destruct Hunlinks as [Hunlinks | [Hunlinks Hfail]];
        apply (cleans_up_intro _ _ _ _ _ _ Hallocs Hunlinks).
      * intros q Hq. apply elem_of_one in Hq as ->. count_paths.
      * intros _ q Hq. apply elem_of_one in Hq as ->. count_paths.
      * intros q Hq. apply elem_of_one in Hq as ->. count_paths.
      * intros Hd. contradiction.
  - match goal with
    | |- context [recordToTemp ?e ?a ?f ?d ?fps ?mi ?mb ?w0] =>
        destruct (recordToTemp_run e a f d fps mi mb w0)
          as (w' & -> & _ & Hallocs' & Hunlinks' & _)
    end.
    cbn [snd]. rewrite Ha1 in Hallocs'. rewrite Hu1 in Hunlinks'.
    apply (cleans_up_intro _ _ _ _ _ _ Hallocs' Hunlinks').
    + intros q Hq. apply elem_of_one in Hq as ->. count_paths.
    + intros _ q Hq. apply elem_of_one in Hq as ->. count_paths.
Qed.

(** The tools always answer: no exception escapes them. *)
Lemma tools_return (env : Env) (api : Api) (params : gmap string value)
    (monitorIndex : number) (w : World) :
  (exists r, (list_monitors env params w).1 = Returned r)
  /\ (exists r, (take_screenshot env api params w).1 = Returned r)
  /\ (exists r, (getMonitorBounds env monitorIndex w).1 = Returned r)
  /\ (exists r, (record_screen env api params w).1 = Returned r).
Proof.
  split; [| split; [| split]].
  - destruct (list_monitors_effects env params w) as (r & w' & -> & _). eauto.
  - destruct (take_screenshot_effects env api params w)
      as (r & w' & out & script & -> & _). eauto.
  - rewrite getMonitorBounds_result. eauto.
  - destruct (record_screen_verification env api params w) as (r & w' & -> & _).
    eauto.
Qed.

Lemma cleans_up_initial (once : Prop) (env : Env) (fs : gmap string FileData)
    (n : nat) (w' : World) :
  cleans_up once env (initial_world fs n) w' ->
  released (trace w')
  /\ (once -> released_once (trace w'))
  /\ (deletions_succeed env ->
      removed (trace w') (settle env (unlinks (trace w')) (files w'))).
Proof.
  intros (allocated & deleted & Hallocs & Hunlinks & Hsome & Honce & Hgone).
  cbn in Hallocs, Hunlinks.
  unfold released, released_once, removed, attempts.
  rewrite Hallocs, Hunlinks. auto.
Qed.

(** C2, as the code has it.  For list_monitors, take_screenshot, the
    bounds lookup and record_screen, on every exit: a deletion is
    attempted at least once for every temp path the invocation allocated;
    exactly once for list_monitors, for take_screenshot provided building
    the image result does not fail after the cleanup, and for the bounds
    lookup and record_screen provided the deletions themselves succeed.
    The bounds lookup deletes its script before it returns: when the
    deletion succeeds the script is gone by then.  The three tools only
    start their deletions and do not wait for them: a file the tool wrote
    can still be there when the tool answers (before any started deletion
    has taken effect, the script of list_monitors is), and none of the
    allocated paths is left once the started deletions have taken effect,
    when they succeed.  No exception escapes. *)
Theorem temp_artifacts_are_released (env : Env) (api : Api)
    (params : gmap string value) (monitorIndex : number)
    (fs : gmap string FileData) (n : nat) :
  let w := initial_world fs n in
  let listed := (list_monitors env params w).2 in
  let shot := (take_screenshot env api params w).2 in
  let looked := (getMonitorBounds env monitorIndex w).2 in
  let recorded := (record_screen env api params w).2 in
  (released (trace listed)
   /\ released_once (trace listed)
   /\ (deletions_succeed env ->
       removed (trace listed) (settle env (unlinks (trace listed)) (files listed))))
  /\ (released (trace shot)
      /\ (result_construction_succeeds env -> released_once (trace shot))
      /\ (deletions_succeed env ->
          removed (trace shot) (settle env (unlinks (trace shot)) (files shot))))
  /\ (released (trace looked)
      /\ (deletions_succeed env -> released_once (trace looked))
      /\ (deletions_succeed env -> removed (trace looked) (files looked)))
  /\ (released (trace recorded)
      /\ (deletions_succeed env -> released_once (trace recorded))
      /\ (deletions_succeed env ->
          removed (trace recorded)
            (settle env (unlinks (trace recorded)) (files recorded))))
  /\ (write_fails env (listScriptPath env w) = false ->
      listScriptPath env w ∈ unlinks (trace listed)
      /\ files listed !! listScriptPath env w = Some (ScriptFile ListMonitorsScript))
  /\ (exists r, (list_monitors env params w).1 = Returned r)
  /\ (exists r, (take_screenshot env api params w).1 = Returned r)
  /\ (exists r, (getMonitorBounds env monitorIndex w).1 = Returned r)
  /\ (exists r, (record_screen env api params w).1 = Returned r).
Proof.
  cbv zeta.
  split.
  { destruct (cleans_up_initial True env fs n _ (list_monitors_cleans_up env params _))
      as (H1 & H2 & H3). auto. }
  split; [exact (cleans_up_initial _ env fs n _ (take_screenshot_cleans_up env api params _)) |].
  split.
  { destruct (cleans_up_initial _ env fs n _
                (getMonitorBounds_cleans_up env monitorIndex _)) as (H1 & H2 & _).
    split; [exact H1 |]. split; [exact H2 |].
    intros Hd p Hp.
    destruct (getMonitorBounds_effects env monitorIndex (initial_world fs n))
      as (r & w' & Hrun & _ & Hallocs & _ & _ & Hgone & _).
    rewrite Hrun in Hp |- *. cbn [snd] in Hp |- *.
    rewrite Hallocs in Hp. cbn in Hp. apply elem_of_one in Hp as ->.
    apply Hgone, Hd. }
  split; [exact (cleans_up_initial _ env fs n _ (record_screen_cleans_up env api params _)) |].
  split.
  { intros Hwrite.
    destruct (list_monitors_effects env params (initial_world fs n))
      as (r & w' & -> & _ & Hunlinks & Hfiles).
    cbn [snd]. rewrite Hunlinks, Hfiles, Hwrite. split.
    - apply elem_of_app. right. apply list_elem_of_singleton. reflexivity.
    - apply lookup_insert_eq. }
  apply tools_return.
Qed.

Lemma temp_artifacts_are_released_witness :
  released_once (trace (take_screenshot demo_env demo_api no_params demo_world).2)
  /\ removed (trace (record_screen demo_env demo_api record_5s_monitor_1 demo_world).2)
       (settle demo_env
          (unlinks (trace (record_screen demo_env demo_api record_5s_monitor_1
                             demo_world).2))
          (files (record_screen demo_env demo_api record_5s_monitor_1 demo_world).2))
  /\ files (list_monitors demo_env no_params demo_world).2
       !! listScriptPath demo_env demo_world
     = Some (ScriptFile ListMonitorsScript).
Proof.
  split; [| split].
  - apply (temp_artifacts_are_released demo_env demo_api no_params (of_Z 0) no_files 0).
    intros p. reflexivity.
  - apply (temp_artifacts_are_released demo_env demo_api record_5s_monitor_1 (of_Z 0)
             no_files 0).
    intros p. reflexivity.
  - apply (temp_artifacts_are_released demo_env demo_api no_params (of_Z 0) no_files 0).
    reflexivity.
Defined.

(** Deletion is not always attempted exactly once: when the screenshot was
    captured, saved and cleaned up, and building the image result from the
    saved file then fails, the [catch] block tries to delete both temp
    files a second time. *)
Lemma deletion_can_be_attempted_twice :
  let t := trace (take_screenshot unreadable_image_env demo_api no_params demo_world).2 in
  allocs t = ["C:\Temp\screenshot-1f0e.png"; "C:\Temp\screenshot-2a9c.ps1"]
  /\ attempts "C:\Temp\screenshot-1f0e.png" t = 2
  /\ attempts "C:\Temp\screenshot-2a9c.ps1" t = 2
  /\ ~ released_once t.
Proof.
  cbv zeta.
  assert (Ht : trace (take_screenshot unreadable_image_env demo_api no_params
                        demo_world).2
               = [EAllocTemp "C:\Temp\screenshot-1f0e.png";
                  EAllocTemp "C:\Temp\screenshot-2a9c.ps1";
                  EWriteFile "C:\Temp\screenshot-2a9c.ps1"
                    (ScreenshotScript "C:\Temp\screenshot-1f0e.png" (of_Z 0) Png);
                  EExec "C:\Temp\screenshot-2a9c.ps1" 30000;
                  EReadFile "C:\Temp\screenshot-1f0e.png";
                  ESave "image/png" "screenshots" (10 * 1024 * 1024)
                    [Txt "screenshot."; Txt "png"];
                  EUnlink "C:\Temp\screenshot-1f0e.png";
                  EUnlink "C:\Temp\screenshot-2a9c.ps1";
                  EUnlink "C:\Temp\screenshot-1f0e.png";
                  EUnlink "C:\Temp\screenshot-2a9c.ps1"])
    by (vm_compute; reflexivity).
  rewrite Ht. split; [reflexivity |]. split; [reflexivity |]. split; [reflexivity |].
  intros Honce.
  specialize (Honce "C:\Temp\screenshot-1f0e.png" ltac:(cbn; left)).
  vm_compute in Honce. discriminate.
Qed.
(* ===================================================================== *)
(** * Clamping of the numeric parameters *)
(* ===================================================================== *)

Section ClampFacts.
Local Open Scope Q_scope.

Lemma clampQ_inside (lo hi x : Q) : lo <= x -> x <= hi -> clampQ lo hi x == x.
Proof.
  intros Hlo Hhi. unfold clampQ.
  rewrite (Q.max_l x lo Hlo). apply Q.min_l, Hhi.
Qed.

Lemma clampQ_below (lo hi x : Q) : x <= lo -> lo <= hi -> clampQ lo hi x == lo.
Proof.
  intros Hx Hle. unfold clampQ.
  rewrite (Q.max_r x lo Hx). apply Q.min_l, Hle.
Qed.

Lemma clampQ_above (lo hi x : Q) : hi <= x -> lo <= hi -> clampQ lo hi x == hi.
Proof.
  intros Hx Hle. unfold clampQ.
  rewrite (Q.max_l x lo) by (eapply Qle_trans; eassumption).
  apply Q.min_r, Hx.
Qed.

Lemma clampQ_crossed (lo hi x : Q) : hi < lo -> clampQ lo hi x == hi.
Proof.
  intros Hlt. unfold clampQ. apply Q.min_r.
  eapply Qle_trans; [apply Qlt_le_weak, Hlt | apply Q.le_max_r].
Qed.

End ClampFacts.

Lemma take_screenshot_trace (env : Env) (api : Api)
    (params : gmap string value) (w : World) :
  exists r w' out rest,
    take_screenshot env api params w = (Returned r, w')
    /\ trace w' = trace w ++ waitFor (resolveDelay (prop params "delay"))
                  ++ EAllocTemp out :: rest
    /\ sleeps rest = [].
Proof.
  unfold take_screenshot, waitFor.
  set (delay := resolveDelay _). set (monitor := resolveMonitor _ _).
  set (format := default Png _).
  destruct (gt delay (of_Z 0)); run.
  all: set (out := path_join (tmpdir env)
                ("screenshot-" +:+ uuid_at env (uuids w) +:+ "." +:+ format_name format)).
  all: set (script := path_join (tmpdir env)
                   ("screenshot-" +:+ uuid_at env (S (uuids w)) +:+ ".ps1")).
  all: clearbody out script delay monitor.
  all: cases.
  all: do 3 eexists; eexists; split; [reflexivity |];
       cbn [trace]; rewrite <- ?app_assoc; cbn [app];
       split; [reflexivity | reflexivity].
Qed.

Lemma take_screenshot_sleeps (env : Env) (api : Api)
    (params : gmap string value) (w : World) :
  sleeps (trace (take_screenshot env api params w).2)
  = sleeps (trace w)
    ++ (if gt (resolveDelay (prop params "delay")) (of_Z 0)
        then [mul (resolveDelay (prop params "delay")) 1000]
        else []).
Proof.
  destruct (take_screenshot_trace env api params w)
    as (r & w' & out & rest & Hrun & Htrace & Hrest).
  rewrite Hrun. cbn [snd]. rewrite Htrace, !sleeps_app. cbn [sleeps omap list_omap].
  fold (sleeps rest). rewrite Hrest, app_nil_r. f_equal.
  unfold waitFor. destruct (gt _ _); reflexivity.
Qed.

(** A successful recording reports the resolved duration and frame
    rate. *)
Lemma record_screen_reports (env : Env) (api : Api)
    (params : gmap string value) (w : World) (r : value) :
  (record_screen env api params w).1 = Returned (JsonResult r) ->
  field "success" r = VBool true ->
  exists duration,
    resolveDuration (prop params "duration") (maxDuration api) = Some duration
    /\ field "duration" r = VNum duration
    /\ field "fps" r = VNum (resolveFps (prop params "fps")).
Proof.
  intros Hrun Hok.
  destruct (record_screen_outcomes env api params w)
    as [[_ H]
       | [(d & _ & _ & H)
         | [(d & ffmpeg & m & _ & _ & _ & _ & H & _)
           | (d & ffmpeg & mb & out & art & Hd & _ & _ & _ & _ & H)]]].
  - rewrite H in Hrun. injection Hrun as <-. discriminate.
  - rewrite H in Hrun. injection Hrun as <-. discriminate.
  - rewrite H in Hrun. injection Hrun as <-. discriminate.
  - destruct H as [(_ & H & _) | (_ & H & _)];
      rewrite H in Hrun; injection Hrun as <-; [discriminate |].
    exists d. split; [exact Hd |].
    destruct (recordOutcome_success _ _ _ _ _ _ Hok) as (H1 & H2 & _). auto.
Qed.

(** C5, as the code has it.  Numeric parameters are clamped, not
    rejected.  A numeric delay d becomes min(max(d, 0), 10); a numeric
    duration and a numeric fps are rounded first and become
    min(max(round(d), 1), maxDuration) and min(max(round(f), 10), 60).
    These are the value itself inside the range, the lower bound below it
    and the upper bound above it; since the upper bound is applied last,
    a ceiling below 1 makes every duration the ceiling.  The infinities
    are clamped like any other number, and NaN, which is of type number
    too, passes through all three clamps.  An absent or non-numeric delay
    is 0, an absent or non-numeric fps is 30, and only an absent or
    non-numeric duration is rejected, with "duration is required".
    take_screenshot waits for the clamped delay, goes on to write its
    capture script and reports the clamped delay; a successful
    record_screen reports the clamped duration and fps. *)
Theorem out_of_range_parameters_are_clamped (q maxD : Q) :
  (exists r, resolveDelay (VNum (Fin q)) = Fin r /\ (r == clampQ 0 10 q)%Q)
  /\ (exists r, resolveDuration (VNum (Fin q)) (Fin maxD) = Some (Fin r)
                /\ (r == clampQ 1 maxD (inject_Z (round_half_up q)))%Q)
  /\ (exists r, resolveFps (VNum (Fin q)) = Fin r
                /\ (r == clampQ 10 60 (inject_Z (round_half_up q)))%Q)
  /\ (forall lo hi x,
        ((lo <= x -> x <= hi -> clampQ lo hi x == x)
         /\ (x <= lo -> lo <= hi -> clampQ lo hi x == lo)
         /\ (hi <= x -> lo <= hi -> clampQ lo hi x == hi)
         /\ (hi < lo -> clampQ lo hi x == hi))%Q)
  /\ nearest_integer q (round_half_up q)
  /\ (resolveDelay (VNum PosInf) = of_Z 10
      /\ resolveDelay (VNum NegInf) = of_Z 0
      /\ resolveDelay (VNum NaN) = NaN)
  /\ (resolveDuration (VNum PosInf) (Fin maxD) = Some (Fin maxD)
      /\ (exists r, resolveDuration (VNum NegInf) (Fin maxD) = Some (Fin r)
                    /\ (r == Qmin 1 maxD)%Q)
      /\ resolveDuration (VNum NaN) (Fin maxD) = Some NaN)
  /\ (resolveFps (VNum PosInf) = of_Z 60
      /\ resolveFps (VNum NegInf) = of_Z 10
      /\ resolveFps (VNum NaN) = NaN)
  /\ (forall v ceiling,
        as_number v = None ->
        resolveDelay v = of_Z 0
        /\ resolveFps v = of_Z 30
        /\ resolveDuration v ceiling = None)
  /\ (forall params, resolveFps (prop (delete "fps" params) "fps") = of_Z 30)
  /\ (forall env api params w,
        let delay := resolveDelay (prop params "delay") in
        sleeps (trace (take_screenshot env api params w).2)
        = sleeps (trace w)
          ++ (if gt delay (of_Z 0) then [mul delay 1000] else [])
        /\ (exists out,
              writtenScripts (trace (take_screenshot env api params w).2)
              = writtenScripts (trace w)
                ++ [ScreenshotScript out
                      (resolveMonitor (prop params "monitor") (config api))
                      (default Png (screenshotFormat (config api)))])
        /\ (forall r,
              (take_screenshot env api params w).1 = Returned r ->
              is_error r = false ->
              field "delay" (payload_of r) = VNum delay))
  /\ (forall env api params w,
        ((record_screen env api params w).1
         = Returned (JsonResult (durationRequired api))
         <-> as_number (prop params "duration") = None)
        /\ field "error" (durationRequired api) = VStr "duration is required"
        /\ (forall r,
              (record_screen env api params w).1 = Returned (JsonResult r) ->
              field "success" r = VBool true ->
              exists duration,
                resolveDuration (prop params "duration") (maxDuration api)
                = Some duration
                /\ field "duration" r = VNum duration
                /\ field "fps" r = VNum (resolveFps (prop params "fps")))).
Proof.
  split; [apply clamp_finite |].
  split.
  { destruct (clamp_finite (inject_Z (round_half_up q)) 1 maxD) as (r & Hr & Hq).
    exists r. split; [| exact Hq].
    unfold resolveDuration, math_round, of_Z. cbn [as_number]. f_equal. exact Hr. }
  split.
  { destruct (clamp_finite (inject_Z (round_half_up q)) 10 60) as (r & Hr & Hq).
    exists r. split; [| exact Hq].
    unfold resolveFps, math_round, of_Z. cbn [as_number]. exact Hr. }
  split.
  { intros lo hi x. split; [apply clampQ_inside |].
    split; [apply clampQ_below |]. split; [apply clampQ_above | apply clampQ_crossed]. }
  split; [apply round_half_up_nearest |].
  split; [repeat split; reflexivity |].
  split.
  { split; [reflexivity |]. split; [| reflexivity].
    unfold resolveDuration. cbn [as_number math_round math_max of_Z math_min].
    destruct (Qle_bool (inject_Z 1) maxD) eqn:E; eexists; (split; [reflexivity |]).
    - apply Qle_bool_iff in E. symmetry. apply Q.min_l. exact E.
    - apply Qle_bool_false in E. symmetry. apply Q.min_r.
      apply Qlt_le_weak. exact E. }
  split; [repeat split; reflexivity |].
  split.
  { intros v ceiling Hv. unfold resolveDelay, resolveFps, resolveDuration.
    rewrite Hv. repeat split; reflexivity. }
  split.
  { intros params. unfold prop. rewrite lookup_delete_eq. reflexivity. }
  split.
  { intros env api params w delay. split; [apply take_screenshot_sleeps |].
    destruct (take_screenshot_result env api params w)
      as (r & w' & out & Hrun & Hscripts & Hshape).
    rewrite Hrun. cbn [fst snd]. split; [exists out; exact Hscripts |].
    intros r' [= <-] Hok.
    destruct Hshape as [[message ->] | (buffer & saved & _ & ->)];
      [discriminate | reflexivity]. }
  intros env api params w. split; [apply record_screen_rejects_iff |].
  split; [reflexivity |]. intros r. apply record_screen_reports.
Qed.

Lemma out_of_range_parameters_are_clamped_witness :
  (exists r, resolveDelay (VNum (of_Z 15)) = Fin r /\ (r == 10)%Q)
  /\ (exists r, resolveDuration (VNum (of_Z 120)) (of_Z 60) = Some (Fin r)
                /\ (r == 60)%Q)
  /\ (exists r, resolveFps (VNum (of_Z 5)) = Fin r /\ (r == 10)%Q).
Proof.
  destruct (out_of_range_parameters_are_clamped 15 60)
    as ((r1 & H1 & E1) & _).
  destruct (out_of_range_parameters_are_clamped 120 60)
    as (_ & (r2 & H2 & E2) & _).
  destruct (out_of_range_parameters_are_clamped 5 60)
    as (_ & _ & (r3 & H3 & E3) & _).
  split; [| split].
  - exists r1. split; [exact H1 |]. rewrite E1.
    vm_compute. reflexivity.
  - exists r2. split; [exact H2 |]. rewrite E2.
    vm_compute. reflexivity.
  - exists r3. split; [exact H3 |]. rewrite E3.
    vm_compute. reflexivity.
Defined.

(** A number is not always brought into its range: with a configured
    ceiling of 0 a requested duration of 5 becomes 0, below 1; and NaN,
    which is of type number, comes out of all three clamps as NaN. *)
Lemma clamps_let_some_numbers_through :
  maxDurationOf (configSchema.parse (RObj [("maxVideoDuration", RNum (of_Z 0))]))
  = of_Z 0
  /\ resolveDuration (VNum (of_Z 5)) (of_Z 0) = Some (of_Z 0)
  /\ ~ within 1 0 (of_Z 0)
  /\ resolveDelay (VNum NaN) = NaN
  /\ ~ within 0 10 NaN
  /\ resolveDuration (VNum NaN) (of_Z 60) = Some NaN
  /\ resolveFps (VNum NaN) = NaN
  /\ ~ within 10 60 NaN.
Proof.
  repeat split; try reflexivity; cbn; try tauto.
  intros [H _]. revert H. vm_compute. intros H. apply H. reflexivity.
Qed.

(* ===================================================================== *)
(** * The scenarios of the specification, on the concrete machine *)
(* ===================================================================== *)

(** list_monitors on the two-display machine: the line of the DPI call
    comes back as a descriptor without index, then the two displays with
    the indices 0 and 1, the first one primary. *)
Example scenario_two_monitors :
  map (fun m => (Monitor.index m, Monitor.primary m))
      (parseMonitors two_monitors)
  = [(NaN, false); (of_Z 0, true); (of_Z 1, false)]
  /\ field "count"
       (payload_of
          (default (JsonResult VNull)
             (as_returned (list_monitors demo_env no_params demo_world).1)))
     = VNum (of_Z 3).
Proof. split; vm_compute; reflexivity. Qed.

(** record_screen({ duration: 120 }) with the default ceiling of 60
    records for 60 seconds. *)
Example scenario_duration_capped :
  resolveDuration (VNum (of_Z 120)) (maxDurationOf empty_config) = Some (of_Z 60).
Proof. reflexivity. Qed.

(** No FFmpeg anywhere: the error, and nothing on disk. *)
Example scenario_no_ffmpeg :
  (record_screen no_ffmpeg_env demo_api record_5s demo_world).1
  = Returned (JsonResult ffmpegNotFound)
  /\ allocs (trace (record_screen no_ffmpeg_env demo_api record_5s demo_world).2) = [].
Proof. split; vm_compute; reflexivity. Qed.

(** An encoder that exits with status 0 without writing its output is
    reported as a failed recording. *)
Example scenario_silent_encoder :
  (record_screen silent_encoder_env demo_api record_5s demo_world).1
  = Returned (JsonResult
                (recordingFailed "Recording failed - no output file created")).
Proof. vm_compute. reflexivity. Qed.

(** A successful five-second recording of monitor 1. *)
Example scenario_recording :
  let r := default (JsonResult VNull)
             (as_returned
                (record_screen demo_env demo_api record_5s_monitor_1 demo_world).1) in
  field "duration" (payload_of r) = VNum (of_Z 5)
  /\ field "fps" (payload_of r) = VNum (of_Z 30)
  /\ field "contentType" (payload_of r) = VStr "video/mp4"
  /\ field "monitorBounds" (payload_of r)
     = VObj [("x", VNum (of_Z 1920)); ("y", VNum (of_Z 0));
             ("width", VNum (of_Z 1280)); ("height", VNum (of_Z 1024))].
Proof. repeat split; vm_compute; reflexivity. Qed.

(* ===================================================================== *)
(** * The configuration ([config.ts]) *)
(* ===================================================================== *)

(** [Math.min(a, b)] is not above anything [b] is not above. *)
Lemma math_min_bounded (a b c : number) :
  gt b c = false -> gt (math_min a b) c = false.
Proof.
  destruct a as [| | |p], b as [| | |q], c as [| | |r]; cbn; try congruence.
  all: destruct (Qle_bool p q) eqn:Hpq; cbn; try congruence.
  intros Hqr. apply negb_false_iff in Hqr. apply negb_false_iff.
  apply Qle_bool_iff. apply Qle_bool_iff in Hqr, Hpq.
  eapply Qle_trans; eassumption.
Qed.

Lemma math_min_nan (a b : number) :
  is_nan (math_min a b) = is_nan a || is_nan b.
Proof.
  destruct a as [| | |p], b as [| | |q]; cbn; try reflexivity.
  destruct (Qle_bool p q); reflexivity.
Qed.

Lemma math_max_nan (a b : number) :
  is_nan (math_max a b) = is_nan a || is_nan b.
Proof.
  destruct a as [| | |p], b as [| | |q]; cbn; try reflexivity.
  destruct (Qle_bool p q); reflexivity.
Qed.

Lemma math_round_nan (a : number) : is_nan (math_round a) = is_nan a.
Proof. destruct a; reflexivity. Qed.

(** The ceiling of a parsed configuration, by the raw value. *)
Lemma parse_ceiling (v : raw) :
  maxDurationOf (configSchema.parse v)
  = match get v "maxVideoDuration" with
    | RNum n => math_min n (of_Z 60)
    | _ => of_Z 60
    end.
Proof.
  unfold configSchema.parse.
  destruct v; cbn [falsy typeof get]; rewrite ?orb_true_r; reflexivity.
Qed.

(** Anything but an object or an array parses to the empty object. *)
Lemma parse_non_object (v : raw) :
  is_object v = false -> configSchema.parse v = empty_config.
Proof.
  unfold configSchema.parse.
  destruct v; cbn [falsy typeof is_object]; rewrite ?orb_true_r;
    reflexivity || discriminate.
Qed.

Lemma parsed_ceiling_facts (v : raw) (d : number) :
  gt (maxDurationOf (configSchema.parse v)) (of_Z 60) = false
  /\ (is_nan (maxDurationOf (configSchema.parse v)) = true
      -> get v "maxVideoDuration" = RNum NaN)
  /\ (exists r,
        resolveDuration (VNum d) (maxDurationOf (configSchema.parse v)) = Some r
        /\ gt r (of_Z 60) = false
        /\ is_nan r = is_nan d || is_nan (maxDurationOf (configSchema.parse v))).
Proof.
  rewrite parse_ceiling. repeat split.
  - destruct (get v "maxVideoDuration"); try reflexivity.
    apply math_min_bounded. reflexivity.
  - destruct (get v "maxVideoDuration") as [| | |n| | |]; try discriminate.
    rewrite math_min_nan, orb_false_r. destruct n; cbn; congruence.
  - eexists. split; [reflexivity |]. split.
    + apply math_min_bounded.
      destruct (get v "maxVideoDuration"); try reflexivity.
      apply math_min_bounded. reflexivity.
    + rewrite math_min_nan, math_max_nan, math_round_nan, orb_false_r.
      reflexivity.
Qed.

(** X1. Whatever the configuration file holds, the ceiling the video tool
    takes from a parsed configuration is never above 60: it is the
    configured number capped at 60, and 60 when no number is configured
    (or the configuration is no object at all).  So no requested duration
    resolves to more than 60 seconds.  The ceiling is NaN only when the
    configured value is. *)
Theorem parsed_ceiling_never_exceeds_60 (v : raw) (d : number) :
  let ceiling := maxDurationOf (configSchema.parse v) in
  gt ceiling (of_Z 60) = false
  /\ ((forall n, get v "maxVideoDuration" <> RNum n) -> ceiling = of_Z 60)
  /\ (is_nan ceiling = true <-> get v "maxVideoDuration" = RNum NaN)
  /\ (exists r, resolveDuration (VNum d) ceiling = Some r
                /\ gt r (of_Z 60) = false
                /\ is_nan r = is_nan d || is_nan ceiling).
Proof.
  cbv zeta.
  destruct (parsed_ceiling_facts v d) as (Hle & Hnan & Hr).
  split; [exact Hle |]. split; [| split; [split; [exact Hnan |] | exact Hr]].
  - rewrite parse_ceiling. intros Hn.
    destruct (get v "maxVideoDuration"); try reflexivity.
    exfalso. exact (Hn n eq_refl).
  - rewrite parse_ceiling. intros H. rewrite H. reflexivity.
Qed.

(** X2. Parsing is idempotent: parsing the object that [parse] returned for
    an object (or array) gives the same configuration again; for any other
    value [parse] returns the empty object, and parsing that gives the
    defaults.  In both cases the tools read the same settings from the
    result as from the re-parsed result. *)
Theorem parse_is_idempotent (v : raw) :
  configSchema.parse (config_value (configSchema.parse v))
  = (if is_object v then configSchema.parse v else configSchema.parse (RObj []))
  /\ settings (configSchema.parse (config_value (configSchema.parse v)))
     = settings (configSchema.parse v).
Proof.
  assert (Hobj : forall members,
            configSchema.parse (config_value (configSchema.parse (RObj members)))
            = configSchema.parse (RObj members)).
  { intros members. unfold configSchema.parse, config_value.
    cbn [falsy typeof String.eqb Ascii.eqb Bool.eqb negb orb get
         ffmpegPath defaultMonitor screenshotFormat maxVideoDuration
         from_option member].
    f_equal.
    - destruct (member "ffmpegPath" members); reflexivity.
    - destruct (member "defaultMonitor" members); reflexivity.
    - f_equal. destruct (member "screenshotFormat" members) as [| | | |s| |];
        try reflexivity.
      destruct (String.eqb s "png"), (String.eqb s "jpeg"); reflexivity.
    - f_equal. destruct (member "maxVideoDuration" members) as [| | |n| | |];
        try reflexivity.
      destruct n as [| | |q]; try reflexivity.
      unfold of_Z. cbn [math_min].
      destruct (Qle_bool q (inject_Z 60)) eqn:Hq; cbn [math_min]; rewrite ?Hq;
        reflexivity. }
  destruct (is_object v) eqn:Hv.
  - destruct v as [| |b|n|s|items|members]; try discriminate.
    + split; reflexivity.
    + rewrite Hobj. split; reflexivity.
  - rewrite (parse_non_object v Hv). split; reflexivity.
Qed.

(** X3. The defaults of [parse] are the defaults of the tools.  With a
    configuration value that holds none of the settings (undefined, null,
    any non-object, an empty object or array), take_screenshot and
    record_screen behave exactly as without any plugin configuration. *)
Theorem blank_configuration_means_defaults (env : Env) (lg : option Logger)
    (v : raw) (params : gmap string value) (w : World) :
  (forall k, get v k = RUndefined) ->
  settings (configSchema.parse v) = (None, of_Z 0, Png, of_Z 60)
  /\ take_screenshot env (configured (Some (configSchema.parse v)) lg) params w
     = take_screenshot env (configured None lg) params w
  /\ record_screen env (configured (Some (configSchema.parse v)) lg) params w
     = record_screen env (configured None lg) params w.
Proof.
  intros Hblank.
  assert (Hcases : configSchema.parse v = empty_config
                   \/ configSchema.parse v
                      = {| ffmpegPath := None; defaultMonitor := None;
                           screenshotFormat := Some Png;
                           maxVideoDuration := Some (of_Z 60) |}).
  { unfold configSchema.parse. rewrite !Hblank.
    destruct (falsy v || negb (String.eqb (typeof v) "object")); auto. }
  destruct Hcases as [-> | ->]; repeat split; reflexivity.
Qed.

Lemma blank_configuration_means_defaults_witness :
  settings (configSchema.parse RNull) = (None, of_Z 0, Png, of_Z 60)
  /\ take_screenshot demo_env (configured (Some (configSchema.parse RNull)) None)
       no_params demo_world
     = take_screenshot demo_env (configured None None) no_params demo_world
  /\ record_screen demo_env (configured (Some (configSchema.parse RNull)) None)
       record_5s demo_world
     = record_screen demo_env (configured None None) record_5s demo_world.
Proof.
  split; [reflexivity |].
  split;
    [ apply (blank_configuration_means_defaults demo_env None RNull no_params demo_world)
    | apply (blank_configuration_means_defaults demo_env None RNull record_5s demo_world) ];
    intros k; reflexivity.
Defined.

(** X4. [parse] caps the ceiling from above only.  With a configured
    ceiling below 1 the lower bound of the duration is lost: every
    requested duration (other than NaN) resolves to the ceiling itself,
    be it 0 or negative. *)
Theorem ceiling_below_one_becomes_the_duration (v : raw) (q : Q) (d : number) :
  get v "maxVideoDuration" = RNum (Fin q) -> (q < 1)%Q -> is_nan d = false ->
  maxDurationOf (configSchema.parse v) = Fin q
  /\ resolveDuration (VNum d) (maxDurationOf (configSchema.parse v)) = Some (Fin q).
Proof.
  intros Hv Hq Hd. rewrite parse_ceiling, Hv.
  assert (Hcap : math_min (Fin q) (of_Z 60) = Fin q).
  { cbn. destruct (Qle_bool q (inject_Z 60)) eqn:E; [reflexivity |].
    apply Qle_bool_false in E. exfalso.
    apply (Qlt_irrefl q). eapply Qlt_trans; [exact Hq |].
    eapply Qlt_trans; [| exact E]. reflexivity. }
  rewrite Hcap. split; [reflexivity |].
  unfold resolveDuration. cbn [as_number]. f_equal.
  assert (Hmax : math_max (math_round d) (of_Z 1) = PosInf
                 \/ exists p, math_max (math_round d) (of_Z 1) = Fin p /\ (1 <= p)%Q).
  { destruct d as [| | |x]; [discriminate | left; reflexivity | right | right].
    - exists 1%Q. split; [reflexivity | apply Qle_refl].
    - cbn. destruct (Qle_bool _ _) eqn:E.
      + exists (inject_Z 1). split; [reflexivity | apply Qle_refl].
      + eexists. split; [reflexivity |]. apply Qlt_le_weak, Qle_bool_false, E. }
  destruct Hmax as [-> | (p & -> & Hp)]; [reflexivity |].
  cbn. destruct (Qle_bool p q) eqn:E; [| reflexivity].
  apply Qle_bool_iff in E. exfalso.
  apply (Qlt_irrefl q). eapply Qlt_le_trans; [exact Hq |].
  eapply Qle_trans; eassumption.
Qed.

Lemma ceiling_below_one_becomes_the_duration_witness :
  maxDurationOf (configSchema.parse (RObj [("maxVideoDuration", RNum (of_Z 0))]))
  = of_Z 0
  /\ resolveDuration (VNum (of_Z 5))
       (maxDurationOf (configSchema.parse (RObj [("maxVideoDuration", RNum (of_Z 0))])))
     = Some (of_Z 0).
Proof.
  apply (ceiling_below_one_becomes_the_duration
           (RObj [("maxVideoDuration", RNum (of_Z 0))]) (inject_Z 0) (of_Z 5));
    reflexivity.
Defined.

(* ===================================================================== *)
(** * Output without any record line *)
(* ===================================================================== *)

(** X5. The two enumeration parsers find no record line exactly when the
    output is blank (empty or white space only): then, and only then,
    list_monitors has an empty [monitors] array and the bounds lookup
    answers null, whatever index is asked for. *)
Theorem blank_output_means_no_monitor (output : string) (m : number) :
  (parseMonitors output = [] <-> trim output = EmptyString)
  /\ (boundsFromOutput output m = None <-> trim output = EmptyString)
  /\ (trim output = EmptyString ->
      monitorsListed (parseMonitors output) = monitorsListed []).
Proof.
  split; [| split].
  - rewrite <- recordLines_nil. unfold parseMonitors.
    destruct (recordLines output); cbn; split; congruence.
  - rewrite <- recordLines_nil. rewrite boundsFromOutput_spec.
    destruct (matchingLine _ _) eqn:Hm.
    + split; [discriminate |]. intros E. rewrite E in Hm. discriminate.
    + destruct (recordLines output); cbn; split; congruence.
  - intros H. apply recordLines_nil in H. unfold parseMonitors. rewrite H.
    reflexivity.
Qed.

(* ===================================================================== *)
(** * A requested index that is no integer *)
(* ===================================================================== *)

Lemma strict_eq_whole (z : Z) (m : number) :
  strict_eq (of_Z z) m = true -> is_fractional m = false.
Proof.
  destruct m as [| | |q]; cbn; try discriminate.
  intros H. apply Qeq_bool_iff in H. apply negb_false_iff, Qeq_bool_iff.
  rewrite <- H. rewrite Qfloor_Z. reflexivity.
Qed.

(** An integer or an infinity is never strictly equal to NaN or to a
    number with a fractional part. *)
Lemma strict_eq_fractional (a m : number) :
  ((exists z, a = of_Z z) \/ a = PosInf \/ a = NegInf) ->
  is_fractional m = true -> strict_eq a m = false.
Proof.
  intros Ha Hm. destruct (strict_eq a m) eqn:E; [| reflexivity].
  destruct Ha as [[z ->] | [-> | ->]].
  - apply strict_eq_whole in E. congruence.
  - destruct m; discriminate.
  - destruct m; discriminate.
Qed.

Lemma matchingLine_fractional (lines : list string) (m : number) :
  is_fractional m = true -> matchingLine lines m = None.
Proof.
  intros Hm. unfold matchingLine.
  induction lines as [|line rest IH]; [reflexivity |].
  cbn [List.find].
  assert (E : strict_eq (echoedIndex line) m = false).
  { unfold echoedIndex, parseIntOpt.
    destruct (parseInt_integer (default "undefined" (recordFields line !! 0%nat)))
      as [H | H].
    - rewrite H. reflexivity.
    - apply strict_eq_fractional; assumption. }
  rewrite E. exact IH.
Qed.

Lemma find_fractional (entries : list (Z * Screen.t)) (m : number) :
  is_fractional m = true ->
  List.find (fun e => strict_eq (to_double e.1) m) entries = None.
Proof.
  intros Hm. induction entries as [|e rest IH]; [reflexivity |].
  cbn [List.find].
  rewrite (strict_eq_fractional _ m (to_double_cases e.1) Hm). exact IH.
Qed.

(** X6. The requested monitor index is compared as it is, without
    rounding: an index that is NaN or has a fractional part (1.5) matches
    no line, since every index read from a line is an integer, an infinity
    or NaN, and the bounds lookup answers with its first record line: on
    record lines with the bounds of the first entry, and on the output of
    the bundled script, whose first line is the line of the DPI call, with
    NaN bounds. *)
Theorem fractional_monitor_falls_back_to_first (output : string) (m : number)
    (entries : list (Z * Screen.t)) (aware : bool) (screens : list Screen.t) :
  is_fractional m = true ->
  boundsFromOutput output m = boundsOfLine <$> head (recordLines output)
  /\ boundsFromOutput (writeOutput (map boundsRecord entries)) m
     = (fun e => boundsOf e.2) <$> head entries
  /\ boundsFromOutput (boundsOutput aware screens) m = Some strayBounds.
Proof.
  intros Hm. split; [| split].
  - rewrite boundsFromOutput_spec, matchingLine_fractional by exact Hm.
    reflexivity.
  - rewrite boundsFromOutput_records. unfold entryFor.
    rewrite find_fractional by exact Hm. reflexivity.
  - rewrite boundsOutput_lines, boundsFromOutput_after_dpiLine.
    rewrite find_fractional by exact Hm. reflexivity.
Qed.

Lemma fractional_monitor_falls_back_to_first_witness :
  is_fractional (Fin (3 # 2)) = true
  /\ boundsFromOutput (writeOutput (map boundsRecord (numbered 0 demo_screens)))
       (Fin (3 # 2))
     = Some {| MonitorBounds.x := of_Z 0; MonitorBounds.y := of_Z 0;
               MonitorBounds.width := of_Z 1920; MonitorBounds.height := of_Z 1080 |}
  /\ boundsFromOutput two_bounds (Fin (3 # 2)) = Some strayBounds.
Proof.
  destruct (fractional_monitor_falls_back_to_first EmptyString (Fin (3 # 2))
              (numbered 0 demo_screens) true demo_screens eq_refl)
    as (_ & Hrecords & Hbundled).
  split; [reflexivity |]. split.
  - rewrite Hrecords. reflexivity.
  - exact Hbundled.
Defined.

(* ===================================================================== *)
(** * Reading back what the scripts print *)
(* ===================================================================== *)

(** The monitor list of the bundled script: the line of the DPI call,
    then one descriptor per screen. *)
Lemma parseMonitors_listMonitorsOutput (aware : bool) (screens : list Screen.t) :
  Forall plain_name screens ->
  parseMonitors (listMonitorsOutput aware screens)
  = strayMonitor :: imap monitorOf screens.
Proof.
  intros Hnames. rewrite listMonitorsOutput_lines.
  rewrite parseMonitors_lines
    by (constructor;
        [apply dpiLine_one_line
        | apply monitorRecords_one_line, numbered_plain, Hnames]).
  cbn [map]. rewrite (proj1 (dpiLine_parsed aware)). f_equal.
  rewrite map_monitorRecords by (apply numbered_plain, Hnames).
  apply descriptors_numbered.
Qed.

(** [list_monitors] answers by the answers of the outside world. *)
Lemma list_monitors_result (env : Env) (params : gmap string value) (w : World) :
  (list_monitors env params w).1
  = Returned (JsonResult (listAnswer env (listScriptPath env w))).
Proof.
  unfold list_monitors, listAnswer, listScriptPath, monitorsListed, listFailed. run.
  set (script := path_join _ _). clearbody script.
  cases; reflexivity.
Qed.

(** X7. list_monitors reads back what its script prints.  The script
    prints the line of its DPI call before the records, and every
    non-empty line becomes a descriptor: on a machine whose screens have
    device names without ["|"] and line feed, the monitors array holds
    first a descriptor without name whose numbers are all NaN, and then
    one descriptor per screen, in order, whose index is the position of
    the screen, whose name is the trimmed device name and whose width,
    height, x, y (negative coordinates included) and primary flag are
    those of the screen.  The count is the number of screens plus one. *)
Theorem list_monitors_reads_back_the_screens (env : Env) (aware : bool)
    (screens : list Screen.t) (params : gmap string value) (w : World) :
  Forall plain_name screens ->
  write_fails env (listScriptPath env w) = false ->
  parseMonitors (listMonitorsOutput aware screens)
  = strayMonitor :: imap monitorOf screens
  /\ (list_monitors (with_screens aware screens env) params w).1
     = Returned (JsonResult (monitorsListed (strayMonitor :: imap monitorOf screens)))
  /\ field "count" (monitorsListed (strayMonitor :: imap monitorOf screens))
     = VNum (of_Z (Z.of_nat (S (length screens))))
  /\ ((Z.of_nat (length screens) <= 2 ^ 53)%Z ->
      map Monitor.index (imap monitorOf screens) = positions (length screens)).
Proof.
  intros Hnames Hwrite.
  pose proof (parseMonitors_listMonitorsOutput aware screens Hnames) as Hparse.
  split; [exact Hparse |]. split; [| split].
  - rewrite list_monitors_result. unfold listAnswer.
    change (write_fails (with_screens aware screens env)) with (write_fails env).
    change (listScriptPath (with_screens aware screens env) w)
      with (listScriptPath env w).
    rewrite Hwrite. cbn [with_screens powershell ps_result]. rewrite Hparse.
    reflexivity.
  - cbn [monitorsListed field lookup_field String.eqb Ascii.eqb Bool.eqb length].
    rewrite length_imap. reflexivity.
  - intros Hlen.
    change (imap monitorOf screens)
      with (imap (fun j s => monitorOf (0 + j) s) screens).
    rewrite <- (descriptors_numbered screens 0), map_map.
    apply (indices_numbered screens 0). exact Hlen.
Qed.

Lemma list_monitors_reads_back_the_screens_witness :
  parseMonitors (listMonitorsOutput true demo_screens)
  = strayMonitor :: imap monitorOf demo_screens
  /\ (list_monitors (with_screens true demo_screens demo_env) no_params demo_world).1
     = Returned (JsonResult
                   (monitorsListed (strayMonitor :: imap monitorOf demo_screens)))
  /\ field "count" (monitorsListed (strayMonitor :: imap monitorOf demo_screens))
     = VNum (of_Z 3)
  /\ map Monitor.index (imap monitorOf demo_screens) = [of_Z 0; of_Z 1].
Proof.
  destruct (list_monitors_reads_back_the_screens demo_env true demo_screens
              no_params demo_world) as (H1 & H2 & H3 & H4).
  - apply Forall_cons; split; [split; reflexivity |].
    apply Forall_cons; split; [split; reflexivity | constructor].
  - reflexivity.
  - split; [exact H1 |]. split; [exact H2 |]. split; [exact H3 |].
    apply H4. vm_compute. discriminate.
Defined.

(* ===================================================================== *)
(** * The bounds of the requested screen *)
(* ===================================================================== *)

Lemma boundsFromOutput_boundsOutput (aware : bool) (screens : list Screen.t)
    (i : nat) :
  (Z.of_nat (length screens) <= 2 ^ 53)%Z ->
  boundsFromOutput (boundsOutput aware screens) (of_Z (Z.of_nat i))
  = Some match screens !! i with
         | Some s => boundsOf s
         | None => strayBounds
         end.
Proof.
  intros Hlen. rewrite boundsOutput_lines, boundsFromOutput_after_dpiLine.
  rewrite (find_numbered screens 0 i) by exact Hlen.
  cbn [Nat.ltb Nat.leb]. rewrite Nat.sub_0_r.
  destruct (screens !! i); reflexivity.
Qed.

Lemma boundsAnswer_with_screens (env : Env) (aware : bool)
    (screens : list Screen.t) (i : nat) (script : string) :
  write_fails env script = false ->
  unlink_fails env script = false ->
  (Z.of_nat (length screens) <= 2 ^ 53)%Z ->
  boundsAnswer (with_screens aware screens env) (of_Z (Z.of_nat i)) script
  = Some match screens !! i with
         | Some s => boundsOf s
         | None => strayBounds
         end.
Proof.
  intros Hwrite Hunlink Hlen. unfold boundsAnswer.
  change (write_fails (with_screens aware screens env)) with (write_fails env).
  change (unlink_fails (with_screens aware screens env)) with (unlink_fails env).
  rewrite Hwrite, Hunlink. cbn [with_screens powershell ps_result].
  apply boundsFromOutput_boundsOutput, Hlen.
Qed.

(** X8. The bounds lookup reads back what its script prints: for a
    position [i] it answers with the X, Y, width and height of screen [i]
    (negative coordinates included).  The script prints the line of its
    DPI call before the records, and this line is the first line of the
    output: for a position beyond the last screen, and when there is no
    screen at all, the lookup answers with the bounds read from that line,
    which are all NaN, and never with null. *)
Theorem bounds_lookup_reads_back_the_screen (env : Env) (aware : bool)
    (screens : list Screen.t) (i : nat) (w : World) :
  write_fails env (boundsScriptPath env w) = false ->
  unlink_fails env (boundsScriptPath env w) = false ->
  (Z.of_nat (length screens) <= 2 ^ 53)%Z ->
  let answer := match screens !! i with
                | Some s =>
                    {| MonitorBounds.x := to_double (Screen.X s);
                       MonitorBounds.y := to_double (Screen.Y s);
                       MonitorBounds.width := to_double (Screen.Width s);
                       MonitorBounds.height := to_double (Screen.Height s) |}
                | None =>
                    {| MonitorBounds.x := NaN; MonitorBounds.y := NaN;
                       MonitorBounds.width := NaN; MonitorBounds.height := NaN |}
                end in
  boundsFromOutput (boundsOutput aware screens) (of_Z (Z.of_nat i)) = Some answer
  /\ (getMonitorBounds (with_screens aware screens env) (of_Z (Z.of_nat i)) w).1
     = Returned (Some answer)
  /\ (forall z, (Z.abs z < 2 ^ 53)%Z -> to_double z = of_Z z).
Proof.
  intros Hwrite Hunlink Hlen answer.
  assert (Hanswer : answer = match screens !! i with
                             | Some s => boundsOf s
                             | None => strayBounds
                             end)
    by (subst answer; destruct (screens !! i); reflexivity).
  rewrite Hanswer.
  split; [apply boundsFromOutput_boundsOutput, Hlen |].
  split; [| apply to_double_small].
  rewrite getMonitorBounds_result.
  change (boundsScriptPath (with_screens aware screens env) w)
    with (boundsScriptPath env w).
  by rewrite boundsAnswer_with_screens.
Qed.

Lemma bounds_lookup_reads_back_the_screen_witness :
  (getMonitorBounds (with_screens true demo_screens demo_env) (of_Z 1) demo_world).1
  = Returned (Some {| MonitorBounds.x := of_Z 1920; MonitorBounds.y := of_Z 0;
                      MonitorBounds.width := of_Z 1280;
                      MonitorBounds.height := of_Z 1024 |})
  /\ (getMonitorBounds (with_screens true demo_screens demo_env) (of_Z 7) demo_world).1
     = Returned (Some strayBounds)
  /\ (getMonitorBounds (with_screens false [] demo_env) (of_Z 0) demo_world).1
     = Returned (Some strayBounds).
Proof.
  split; [| split].
  - exact (proj1 (proj2 (bounds_lookup_reads_back_the_screen demo_env true
                           demo_screens 1 demo_world eq_refl eq_refl
                           ltac:(vm_compute; discriminate)))).
  - exact (proj1 (proj2 (bounds_lookup_reads_back_the_screen demo_env true
                           demo_screens 7 demo_world eq_refl eq_refl
                           ltac:(vm_compute; discriminate)))).
  - exact (proj1 (proj2 (bounds_lookup_reads_back_the_screen demo_env false
                           [] 0 demo_world eq_refl eq_refl
                           ltac:(vm_compute; discriminate)))).
Defined.

(* ===================================================================== *)
(** * The subprocesses of [record_screen] *)
(* ===================================================================== *)

Lemma last_encoderArgs (fps duration : number)
    (monitorBounds : option MonitorBounds.t) (outputPath : string) :
  last (encoderArgs fps duration monitorBounds outputPath) = Some [Txt outputPath].
Proof. destruct monitorBounds; reflexivity. Qed.

(** X9. record_screen starts the encoder at most once, after the lookup
    probes, and only when the duration was valid, FFmpeg was found, the
    bounds of a requested monitor were obtained and [spawnSync] accepts
    the timeout (duration + 30) * 1000 ms.  The command is the FFmpeg the
    lookup answered with, and the last argument is the temp path allocated
    for the recording: the very path that is examined afterwards and
    deleted last.  When one of the three early errors is answered, nothing
    but probes was started and no file was examined; when the timeout is
    rejected (it is negative, not whole or not finite), the answer is
    "Screen recording failed" with the message of that error, and again
    nothing but probes was started and no file was examined, while the temp
    path was allocated and its deletion attempted. *)
Theorem encoder_runs_once_on_the_verified_file (env : Env) (api : Api)
    (params : gmap string value) (fs : gmap string FileData) (n : nat) :
  let run := record_screen env api params (initial_world fs n) in
  let probes :=
    map probeSpawn (probed env (candidates env (ffmpegPath (config api)))) in
  (exists r,
     run.1 = Returned (JsonResult r)
     /\ r ∈ [durationRequired api; ffmpegNotFound; boundsFailed]
     /\ (spawns (trace run.2) = [] \/ spawns (trace run.2) = probes)
     /\ stats (trace run.2) = [])
  \/ (exists duration out,
        resolveDuration (prop params "duration") (maxDuration api) = Some duration
        /\ valid_timeout env (mul (add duration 30) 1000) = false
        /\ run.1
           = Returned (JsonResult
               (recordingFailed
                  (io_message env (TimeoutOutOfRange (mul (add duration 30) 1000)))))
        /\ field "error"
             (recordingFailed
                (io_message env (TimeoutOutOfRange (mul (add duration 30) 1000))))
           = VStr "Screen recording failed"
        /\ spawns (trace run.2) = probes
        /\ stats (trace run.2) = []
        /\ out ∈ allocs (trace run.2)
        /\ last (unlinks (trace run.2)) = Some out)
  \/ (exists ffmpeg duration monitorBounds out size,
        firstResponding env (candidates env (ffmpegPath (config api))) = Some ffmpeg
        /\ resolveDuration (prop params "duration") (maxDuration api) = Some duration
        /\ valid_timeout env (mul (add duration 30) 1000) = true
        /\ spawns (trace run.2)
           = probes ++ [(ffmpeg,
                         encoderArgs (resolveFps (prop params "fps")) duration
                           monitorBounds out,
                         false, mul (add duration 30) 1000)]
        /\ last (encoderArgs (resolveFps (prop params "fps")) duration
                   monitorBounds out) = Some [Txt out]
        /\ out ∈ allocs (trace run.2)
        /\ stats (trace run.2) = [(out, size)]
        /\ last (unlinks (trace run.2)) = Some out).
Proof.
  cbv zeta.
  destruct (record_screen_outcomes env api params (initial_world fs n))
    as [[Hd Hrun]
       | [(duration & Hd & Hff & Hrun)
         | [(duration & ffmpeg & m & Hd & Hff & Hm & Hb & Hrun & Hsp & Hst)
           | (duration & ffmpeg & mb & out & art & Hd & Hff & Hmb
              & [a Ha] & [u Hu] & Hrun)]]].
  - left. rewrite Hrun. cbn. eexists. split; [reflexivity |].
    split; [apply elem_of_cons; left; reflexivity |]. split; [left |]; reflexivity.
  - left. rewrite Hrun. cbn [fst snd]. eexists. split; [reflexivity |].
    split; [apply elem_of_cons; right; apply elem_of_cons; left; reflexivity |].
    unfold add_events. cbn [trace initial_world app].
    split; [right; apply spawns_probes |].
    apply (proj1 (proj2 (proj2 (probes_quiet _)))).
  - left. eexists. split; [exact Hrun |].
    split; [do 2 (apply elem_of_cons; right); apply elem_of_cons; left; reflexivity |].
    split; [right; exact Hsp | exact Hst].
  - right.
    assert (Hout : out ∈ allocs (trace (record_screen env api params
                                          (initial_world fs n)).2))
      by (rewrite Ha; apply elem_of_app; right; apply list_elem_of_singleton;
          reflexivity).
    assert (Hlast : last (unlinks (trace (record_screen env api params
                                            (initial_world fs n)).2)) = Some out)
      by (rewrite Hu; apply last_snoc).
    destruct Hrun as [(Hvalid & Hrun & Hsp & Hst) | (Hvalid & Hrun & Hsp & Hst)].
    + left. exists duration, out. repeat split; assumption || reflexivity.
    + right. exists ffmpeg, duration, mb, out, (artifactSize env art).
      split; [exact Hff |]. split; [exact Hd |]. split; [exact Hvalid |].
      split; [exact Hsp |]. split; [apply last_encoderArgs |].
      split; [exact Hout |]. split; [exact Hst | exact Hlast].
Qed.

(* ===================================================================== *)
(** * "FFmpeg not found" *)
(* ===================================================================== *)

(** X10. Given a numeric duration, record_screen answers "FFmpeg not
    found" exactly when no candidate of the lookup responds.  The lookup
    never answers with the empty string (the configured path counts only
    when it is not empty, and no built-in candidate is empty), so a found
    FFmpeg is never mistaken for a missing one; what it answers with is
    one of its candidates, and that candidate responded. *)
Theorem ffmpeg_not_found_exactly_when_nothing_responds (env : Env) (api : Api)
    (params : gmap string value) (w : World) (duration : number) :
  resolveDuration (prop params "duration") (maxDuration api) = Some duration ->
  ((record_screen env api params w).1 = Returned (JsonResult ffmpegNotFound)
   <-> Forall (fun c => responds env c = false)
         (candidates env (ffmpegPath (config api))))
  /\ (forall configPath w0 p,
        (findFfmpeg env configPath w0).1 = Returned (Some p) ->
        p <> EmptyString
        /\ exists shell,
             (p, shell) ∈ candidates env configPath
             /\ responds env (p, shell) = true).
Proof.
  intros Hduration. split.
  - rewrite <- firstResponding_None_iff.
    destruct (record_screen_outcomes env api params w)
      as [[Hd Hrun]
         | [(d & Hd & Hff & Hrun)
           | [(d & ffmpeg & m & Hd & Hff & Hm & Hb & Hrun & _)
             | (d & ffmpeg & mb & out & art & Hd & Hff & Hmb & _ & _ & Hrun)]]].
    + congruence.
    + rewrite Hrun. cbn [fst]. tauto.
    + rewrite Hrun, Hff. split; intros H; [| discriminate].
      injection H as H. discriminate H.
    + rewrite Hff.
      destruct Hrun as [(_ & Hrun & _) | (_ & Hrun & _)]; rewrite Hrun;
        (split; intros H; [| discriminate]); injection H as H; exfalso.
      * discriminate H.
      * exact (recordOutcome_not_ffmpegNotFound _ _ _ _ _ _ H).
  - intros configPath w0 p. rewrite findFfmpeg_run. cbn [fst].
    intros [= H]. split.
    + intros ->. exact (firstResponding_named env configPath H).
    + apply firstResponding_Some in H as (pre & shell & post & Hcs & Hp & _).
      exists shell. split; [| exact Hp].
      rewrite Hcs. apply elem_of_app. right. apply elem_of_cons. left. reflexivity.
Qed.

Lemma ffmpeg_not_found_exactly_when_nothing_responds_witness :
  (record_screen no_ffmpeg_env demo_api record_5s demo_world).1
  = Returned (JsonResult ffmpegNotFound)
  <-> Forall (fun c => responds no_ffmpeg_env c = false)
        (candidates no_ffmpeg_env (ffmpegPath (config demo_api))).
Proof.
  apply (ffmpeg_not_found_exactly_when_nothing_responds
           no_ffmpeg_env demo_api record_5s demo_world (of_Z 5)).
  reflexivity.
Defined.

(* ===================================================================== *)
(** * Recordings under a parsed configuration *)
(* ===================================================================== *)

Lemma at_most_timeout (a : number) :
  at_most a (of_Z 60) -> at_most (mul (add a 30) 1000) (of_Z 90000).
Proof.
  unfold at_most. destruct a as [| | |q]; cbn; try tauto.
  intros [_ H]. split; [reflexivity |].
  apply negb_false_iff in H. apply negb_false_iff.
  apply Qle_bool_iff in H. apply Qle_bool_iff.
  unfold Qle, Qplus, Qmult, inject_Z in *. cbn in *. lia.
Qed.

(** X11. With a configuration that went through [parse], no recording
    lasts longer than 60 seconds, whatever the configuration file and the
    request say: the resolved duration is at most 60, it is the duration a
    success result reports, and no subprocess of the call is given more
    than 90 seconds. *)
Theorem parsed_configuration_bounds_every_recording (env : Env)
    (lg : option Logger) (v : raw) (params : gmap string value)
    (fs : gmap string FileData) (n : nat) (d : number) :
  prop params "duration" = VNum d ->
  is_nan d = false ->
  get v "maxVideoDuration" <> RNum NaN ->
  let api := configured (Some (configSchema.parse v)) lg in
  let run := record_screen env api params (initial_world fs n) in
  exists duration,
    resolveDuration (prop params "duration") (maxDuration api) = Some duration
    /\ at_most duration (of_Z 60)
    /\ Forall (fun p => at_most p.2 (of_Z 90000)) (spawns (trace run.2))
    /\ (forall r,
          run.1 = Returned (JsonResult r) ->
          field "success" r = VBool true ->
          field "duration" r = VNum duration).
Proof.
  intros Hd Hnan Hv api run.
  destruct (parsed_ceiling_facts v d) as (Hceil & Hceil_nan & r & Hr & Hle & Hr_nan).
  assert (Hmax : maxDuration api = maxDurationOf (configSchema.parse v))
    by reflexivity.
  assert (Hres : resolveDuration (prop params "duration") (maxDuration api) = Some r)
    by (rewrite Hd, Hmax; exact Hr).
  assert (Hr60 : at_most r (of_Z 60)).
  { split; [| exact Hle]. rewrite Hr_nan, Hnan. cbn [orb].
    destruct (is_nan (maxDurationOf (configSchema.parse v))) eqn:E; [| reflexivity].
    exfalso. apply Hv, Hceil_nan. reflexivity. }
  assert (Hprobes : forall cs,
            Forall (fun p : string * list text * bool * number =>
                      at_most p.2 (of_Z 90000)) (map probeSpawn cs)).
  { intros cs. induction cs as [|c cs IH]; constructor; [| exact IH].
    split; reflexivity. }
  exists r. split; [exact Hres |]. split; [exact Hr60 |].
  subst run.
  destruct (record_screen_outcomes env api params (initial_world fs n))
    as [[Hnone Hrun]
       | [(duration & Hsome & Hff & Hrun)
         | [(duration & ffmpeg & m & Hsome & Hff & Hm & Hb & Hrun & Hsp & Hst)
           | (duration & ffmpeg & mb & out & art & Hsome & Hff & Hmb & _ & _
              & Hrun)]]].
  - congruence.
  - rewrite Hrun. cbn [fst snd]. split.
    + unfold add_events. cbn [trace initial_world app]. rewrite spawns_probes.
      apply Hprobes.
    + intros x [= <-]. discriminate.
  - rewrite Hrun, Hsp. cbn [initial_world trace spawns omap list_omap app]. split.
    + apply Hprobes.
    + intros x [= <-]. discriminate.
  - assert (duration = r) as -> by congruence.
    destruct Hrun as [(_ & Hrun & Hsp & _) | (_ & Hrun & Hsp & _)];
      rewrite Hrun, Hsp; cbn [initial_world trace spawns omap list_omap app].
    + split; [apply Hprobes |]. intros x [= <-]. discriminate.
    + split.
      * apply Forall_app. split; [apply Hprobes |].
        constructor; [| constructor]. apply at_most_timeout, Hr60.
      * intros x [= <-] Hok. apply recordOutcome_success, Hok.
Qed.

Lemma parsed_configuration_bounds_every_recording_witness :
  exists duration,
    resolveDuration (prop record_120s "duration")
      (maxDuration (configured (Some (configSchema.parse ceiling_300)) None))
    = Some duration
    /\ at_most duration (of_Z 60)
    /\ Forall (fun p => at_most p.2 (of_Z 90000))
         (spawns (trace (record_screen demo_env
                           (configured (Some (configSchema.parse ceiling_300)) None)
                           record_120s (initial_world no_files 0)).2))
    /\ (forall r,
          (record_screen demo_env
             (configured (Some (configSchema.parse ceiling_300)) None)
             record_120s (initial_world no_files 0)).1
          = Returned (JsonResult r) ->
          field "success" r = VBool true ->
          field "duration" r = VNum duration).
Proof.
  apply (parsed_configuration_bounds_every_recording demo_env None ceiling_300
           record_120s no_files 0 (of_Z 120)).
  - reflexivity.
  - reflexivity.
  - discriminate.
Defined.

(* ===================================================================== *)
(** * The rectangle that is recorded *)
(* ===================================================================== *)

Lemma probed_with_screens (env : Env) (aware : bool) (screens : list Screen.t)
    (cs : list (string * bool)) :
  probed (with_screens aware screens env) cs = probed env cs.
Proof.
  induction cs as [|c cs IH]; [reflexivity |].
  cbn [probed]. rewrite IH. reflexivity.
Qed.

(** X12. A recording of monitor [i] captures the rectangle of screen [i].
    On a machine with the given screens, when FFmpeg is found, the scripts
    can be written and deleted and [spawnSync] accepts the timeout, the
    encoder is started with the X and Y of that screen as [-offset_x] and
    [-offset_y] and with its width and height as [-video_size], before
    [-i desktop], at the resolved frame rate and for the resolved
    duration; and a success result reports the requested index and these
    bounds. *)
Theorem recording_targets_the_requested_screen (env : Env) (api : Api)
    (aware : bool) (screens : list Screen.t) (params : gmap string value)
    (w : World) (i : nat) (s : Screen.t) (duration : number) (ffmpeg : string) :
  prop params "monitor" = VNum (of_Z (Z.of_nat i)) ->
  screens !! i = Some s ->
  (Z.of_nat (length screens) <= 2 ^ 53)%Z ->
  resolveDuration (prop params "duration") (maxDuration api) = Some duration ->
  firstResponding env (candidates env (ffmpegPath (config api))) = Some ffmpeg ->
  (forall p, write_fails env p = false) ->
  deletions_succeed env ->
  valid_timeout env (mul (add duration 30) 1000) = true ->
  let fps := resolveFps (prop params "fps") in
  exists out,
    spawns (trace (record_screen (with_screens aware screens env) api params w).2)
    = spawns (trace w)
      ++ map probeSpawn (probed env (candidates env (ffmpegPath (config api))))
      ++ [(ffmpeg,
           [[Txt "-f"]; [Txt "gdigrab"]; [Txt "-framerate"]; [Num fps];
            [Txt "-offset_x"]; [Num (to_double (Screen.X s))];
            [Txt "-offset_y"]; [Num (to_double (Screen.Y s))];
            [Txt "-video_size"];
            [Num (to_double (Screen.Width s)); Txt "x";
             Num (to_double (Screen.Height s))];
            [Txt "-i"]; [Txt "desktop"]; [Txt "-t"]; [Num duration];
            [Txt "-vf"]; [Txt "pad=ceil(iw/2)*2:ceil(ih/2)*2"];
            [Txt "-c:v"]; [Txt "libx264"]; [Txt "-pix_fmt"]; [Txt "yuv420p"];
            [Txt "-preset"]; [Txt "ultrafast"]; [Txt "-y"]; [Txt out]],
           false, mul (add duration 30) 1000)]
    /\ (forall z, (Z.abs z < 2 ^ 53)%Z -> to_double z = of_Z z)
    /\ (forall r,
          (record_screen (with_screens aware screens env) api params w).1
          = Returned (JsonResult r) ->
          field "success" r = VBool true ->
          field "monitor" r = VNum (of_Z (Z.of_nat i))
          /\ field "monitorBounds" r
             = VObj [("x", VNum (to_double (Screen.X s)));
                     ("y", VNum (to_double (Screen.Y s)));
                     ("width", VNum (to_double (Screen.Width s)));
                     ("height", VNum (to_double (Screen.Height s)))]).
Proof.
  intros Hm Hs Hlen Hd Hff Hwrite Hunlink Hvalid fps.
  assert (Hanswer : forall script,
            boundsAnswer (with_screens aware screens env) (of_Z (Z.of_nat i)) script
            = Some (boundsOf s)).
  { intros script. rewrite boundsAnswer_with_screens by auto.
    rewrite Hs. reflexivity. }
  destruct (record_screen_outcomes (with_screens aware screens env) api params w)
    as [[Hnone Hrun]
       | [(d' & Hsome & Hff' & Hrun)
         | [(d' & f' & m & Hsome & Hff' & Hm' & Hb & _)
           | (d' & f' & mb & out & art & Hsome & Hff' & Hmb & _ & _ & Hrun)]]].
  - congruence.
  - change (firstResponding (with_screens aware screens env)
              (candidates (with_screens aware screens env) (ffmpegPath (config api))))
      with (firstResponding env (candidates env (ffmpegPath (config api)))) in Hff'.
    congruence.
  - unfold requestedMonitor in Hm'. rewrite Hm in Hm'. cbn in Hm'.
    injection Hm' as <-. rewrite Hanswer in Hb. discriminate.
  - change (firstResponding (with_screens aware screens env)
              (candidates (with_screens aware screens env) (ffmpegPath (config api))))
      with (firstResponding env (candidates env (ffmpegPath (config api)))) in Hff'.
    unfold requestedMonitor in Hmb. rewrite Hm in Hmb. cbn [as_number] in Hmb.
    rewrite Hanswer in Hmb. destruct Hmb as [<- _].
    assert (f' = ffmpeg) as -> by congruence.
    assert (d' = duration) as -> by congruence.
    change (valid_timeout (with_screens aware screens env))
      with (valid_timeout env) in Hrun.
    destruct Hrun as [(Hinvalid & _) | (_ & Hrun & Hsp & _)]; [congruence |].
    change (candidates (with_screens aware screens env) (ffmpegPath (config api)))
      with (candidates env (ffmpegPath (config api))) in Hsp.
    rewrite probed_with_screens in Hsp.
    exists out. split; [exact Hsp |]. split; [apply to_double_small |].
    intros r Hr Hok. rewrite Hrun in Hr. injection Hr as <-.
    unfold requestedMonitor in Hok |- *. rewrite Hm in Hok |- *.
    cbn [as_number] in Hok |- *.
    destruct (recordOutcome_success _ _ _ _ _ _ Hok) as (_ & _ & Hmon & Hbounds).
    split; assumption.
Qed.

Lemma recording_targets_the_requested_screen_witness :
  exists out,
    spawns (trace (record_screen (with_screens true demo_screens demo_env) demo_api
                     record_5s_monitor_1 demo_world).2)
    = [("ffmpeg", [[Txt "-version"]], true, of_Z 5000);
       ("ffmpeg",
        [[Txt "-f"]; [Txt "gdigrab"]; [Txt "-framerate"]; [Num (of_Z 30)];
         [Txt "-offset_x"]; [Num (of_Z 1920)];
         [Txt "-offset_y"]; [Num (of_Z 0)];
         [Txt "-video_size"]; [Num (of_Z 1280); Txt "x"; Num (of_Z 1024)];
         [Txt "-i"]; [Txt "desktop"]; [Txt "-t"]; [Num (of_Z 5)];
         [Txt "-vf"]; [Txt "pad=ceil(iw/2)*2:ceil(ih/2)*2"];
         [Txt "-c:v"]; [Txt "libx264"]; [Txt "-pix_fmt"]; [Txt "yuv420p"];
         [Txt "-preset"]; [Txt "ultrafast"]; [Txt "-y"]; [Txt out]],
        false, mul (add (of_Z 5) 30) 1000)].
Proof.
  destruct (recording_targets_the_requested_screen demo_env demo_api true demo_screens
              record_5s_monitor_1 demo_world 1
              {| Screen.DeviceName := "\\.\DISPLAY2"; Screen.X := 1920;
                 Screen.Y := 0; Screen.Width := 1280; Screen.Height := 1024;
                 Screen.Primary := false |}
              (of_Z 5) "ffmpeg" eq_refl eq_refl ltac:(vm_compute; discriminate)
              eq_refl eq_refl (fun _ => eq_refl) (fun _ => eq_refl) eq_refl)
    as (out & Hsp & _).
  exists out. exact Hsp.
Defined.

(* ===================================================================== *)
(** * The tools keep to their own temp files *)
(* ===================================================================== *)

Lemma after_script_other (env : Env) (out : string)
    (m : number) (f : ImageFormat) (p : string) (fs : gmap string FileData) :
  p <> out ->
  after_script env (ScreenshotScript out m f) fs !! p = fs !! p.
Proof.
  intros H. unfold after_script. destruct (ps_saved _); [| reflexivity].
  apply lookup_insert_ne. auto.
Qed.

Ltac frame :=
  repeat first
    [ rewrite after_unlink_other by assumption
    | rewrite after_script_other by assumption
    | rewrite after_encoder_other by assumption
    | rewrite lookup_insert_ne by (apply not_eq_sym; assumption)
    | rewrite lookup_delete_ne by (apply not_eq_sym; assumption) ];
  reflexivity.

Lemma not_elem_of_one (p a : string) : p ∉ [a] -> p <> a.
Proof. intros H ->. apply H. apply list_elem_of_singleton. reflexivity. Qed.

Lemma not_elem_of_two (p a b : string) : p ∉ [a; b] -> p <> a /\ p <> b.
Proof.
  intros H. split; intros ->; apply H.
  - apply elem_of_cons. left. reflexivity.
  - apply elem_of_cons. right. apply list_elem_of_singleton. reflexivity.
Qed.

Lemma NoDup_one (a : string) : NoDup [a].
Proof. apply NoDup_singleton. Qed.

Lemma NoDup_two (a b : string) : a <> b -> NoDup [a; b].
Proof.
  intros H. apply NoDup_cons. split; [| apply NoDup_singleton].
  intros Hin. apply list_elem_of_singleton in Hin. contradiction.
Qed.

(** What is needed to keep to one's temp files, with the state of the disk
    once the deletions have taken effect derived from the state at the
    return. *)
Lemma keeps_intro (env : Env) (w w' : World) (allocated deleted stored : list string) :
  allocs (trace w') = allocs (trace w) ++ allocated ->
  unlinks (trace w') = unlinks (trace w) ++ deleted ->
  NoDup allocated ->
  (forall p, p ∈ deleted -> p ∈ allocated) ->
  (stored = []
   \/ exists buffer contentType subdir maxBytes filename saved,
        media_save env buffer contentType subdir maxBytes filename = Saved saved
        /\ stored = [saved_path saved]) ->
  (forall p, p ∉ allocated -> p ∉ stored -> files w' !! p = files w !! p) ->
  keeps_to_its_temp_files env w w'.
Proof.
  intros Hallocs Hunlinks Hdup Hown Hstored Hframe.
  exists allocated, deleted, stored.
  repeat (split; [assumption |]).
  intros p Hp Hs. split; [apply Hframe; assumption |].
  rewrite settle_other; [apply Hframe; assumption |].
  intros Hin. apply Hp, Hown, Hin.
Qed.

Lemma list_monitors_keeps (env : Env) (params : gmap string value) (w : World) :
  keeps_to_its_temp_files env w (list_monitors env params w).2.
Proof.
  destruct (list_monitors_effects env params w)
    as (r & w' & -> & Hallocs & Hunlinks & Hfiles).
  cbn [snd]. apply (keeps_intro env w w' _ _ [] Hallocs Hunlinks).
  - apply NoDup_one.
  - tauto.
  - left. reflexivity.
  - intros p Hp _. apply not_elem_of_one in Hp. rewrite Hfiles.
    destruct (write_fails env _); [reflexivity |].
    apply lookup_insert_ne. auto.
Qed.

Lemma take_screenshot_keeps (env : Env) (api : Api)
    (params : gmap string value) (w : World) :
  keeps_to_its_temp_files env w (take_screenshot env api params w).2.
Proof.
  unfold take_screenshot.
  set (delay := resolveDelay _). set (monitor := resolveMonitor _ _).
  set (format := default Png _).
  destruct (gt delay (of_Z 0)); run.
  all: set (out := path_join (tmpdir env)
                ("screenshot-" +:+ uuid_at env (uuids w) +:+ "." +:+ format_name format)).
  all: set (script := path_join (tmpdir env)
                   ("screenshot-" +:+ uuid_at env (S (uuids w)) +:+ ".ps1")).
  all: assert (Hne : out <> script) by apply screenshot_paths_differ.
  all: clearbody out script delay monitor.
  all: cases.
  all: match goal with
       | H : media_save _ _ _ _ _ _ = Saved ?s,
         H' : image_result_fails _ _ = Some _ |- _ =>
           apply (keeps_intro env w _ [out; script] [out; script; out; script]
                    [saved_path s])
       | H : media_save _ _ _ _ _ _ = Saved ?s |- _ =>
           apply (keeps_intro env w _ [out; script] [out; script] [saved_path s])
       | _ =>
           apply (keeps_intro env w _ [out; script] [out; script] [])
       end.
  all: trace_norm'; try reflexivity.
  all: try (apply NoDup_two, Hne).
  all: try (intros p Hp;
            repeat (apply elem_of_cons in Hp as [-> | Hp];
                    [first [ apply elem_of_cons; left; reflexivity
                           | apply elem_of_cons; right; apply elem_of_cons; left;
                             reflexivity ] |]);
            inversion Hp).
  all: try (left; reflexivity).
  all: try (right; do 6 eexists; split; [eassumption | reflexivity]).
  all: intros p Hp Hs; apply not_elem_of_two in Hp as [Hp1 Hp2];
       try apply not_elem_of_one in Hs; frame.
Qed.

Lemma getMonitorBounds_keeps (env : Env) (monitorIndex : number) (w : World) :
  keeps_to_its_temp_files env w (getMonitorBounds env monitorIndex w).2.
Proof.
  destruct (getMonitorBounds_effects env monitorIndex w)
    as (r & w' & -> & _ & Hallocs & Hunlinks & _ & _ & Hframe).
  cbn [snd]. set (script := boundsScriptPath env w) in *.
  destruct Hunlinks as [Hunlinks | [Hunlinks _]];
    apply (keeps_intro env w w' _ _ [] Hallocs Hunlinks).
  all: try apply NoDup_one.
  all: try (left; reflexivity).
  all: try (intros p Hp _; apply Hframe, not_elem_of_one, Hp).
  - tauto.
  - intros p Hp. apply elem_of_two in Hp as [-> | ->];
      apply list_elem_of_singleton; reflexivity.
Qed.

(** The recording leaves every file but its temp file and the one the
    media store wrote as it was. *)
Lemma recordToTemp_frame (env : Env) (api : Api) (ffmpeg : string)
    (duration fps : number) (monitorIndex : option number)
    (monitorBounds : option MonitorBounds.t) (w : World) :
  exists stored,
    (stored = []
     \/ exists buffer contentType subdir maxBytes filename saved,
          media_save env buffer contentType subdir maxBytes filename = Saved saved
          /\ stored = [saved_path saved])
    /\ forall p,
         p <> recordingPath env w -> p ∉ stored ->
         files (recordToTemp env api ffmpeg duration fps monitorIndex
                  monitorBounds w).2 !! p
         = files w !! p.
Proof.
  unfold recordToTemp, recordingPath.
  destruct (logger api) as [[hw hi]|] eqn:Hlog; [destruct hi eqn:Hi |].
  all: unfold log; rewrite Hlog; cbn [has_info]; run.
  all: set (out := path_join _ _); clearbody out.
  all: destruct (valid_timeout env _) eqn:Hvalid; simp.
  all: try (destruct (after_encoder _ _ _ _ _ !! out) as [d|] eqn:Hart; simp).
  all: try (destruct (String.length (file_bytes env d)) as [|k] eqn:Hsize;
            cbn [Nat.eqb]; simp; rewrite ?Hart; simp).
  all: try (destruct (media_save _ _ _ _ _ _) as [saved|message] eqn:Hsave; simp).
  all: match goal with
       | H : media_save _ _ _ _ _ _ = Saved ?s |- _ =>
           exists [saved_path s]; split;
           [right; do 6 eexists; split; [exact H | reflexivity] |]
       | _ => exists []; split; [left; reflexivity |]
       end.
  all: intros p Hp Hs; try apply not_elem_of_one in Hs; frame.
Qed.

Lemma record_screen_keeps (env : Env) (api : Api)
    (params : gmap string value) (w : World) :
  keeps_to_its_temp_files env w (record_screen env api params w).2.
Proof.
  assert (Hnone : forall cs,
            keeps_to_its_temp_files env w (add_events w (map probeEvent cs))).
  { intros cs. apply (keeps_intro env w _ [] [] []); probes_norm;
      rewrite ?app_nil_r; try reflexivity; try tauto; constructor. }
  rewrite record_screen_unfold.
  destruct (resolveDuration _ _) as [duration|];
    [| specialize (Hnone []); rewrite add_events_nil in Hnone; exact Hnone].
  cbv zeta.
  destruct (firstResponding _ _) as [[|c ffmpeg]|]; try apply Hnone.
  set (w1 := add_events w _).
  assert (Ha1 : allocs (trace w1) = allocs (trace w))
    by (subst w1; probes_norm; reflexivity).
  assert (Hu1 : unlinks (trace w1) = unlinks (trace w))
    by (subst w1; probes_norm; reflexivity).
  assert (Hf1 : files w1 = files w) by reflexivity.
  destruct (requestedMonitor _) as [m|].
  - destruct (getMonitorBounds_effects env m w1)
      as (rb & wb & Hb & _ & Hallocs & Hunlinks & _ & _ & Hframe).
    rewrite Hb. cbn [snd]. set (script := boundsScriptPath env w1) in *.
    rewrite Ha1 in Hallocs. rewrite Hu1 in Hunlinks. rewrite Hf1 in Hframe.
    destruct (boundsAnswer _ _ _) as [b|].
    + match goal with
      | |- context [recordToTemp ?e ?a ?f ?d ?fps ?mi ?mb ?w0] =>
          destruct (recordToTemp_run e a f d fps mi mb w0)
            as (w' & Hrun & _ & Hallocs' & Hunlinks' & _);
          destruct (recordToTemp_frame e a f d fps mi mb w0)
            as (stored & Hstored & Hkept)
      end.
      rewrite Hrun in Hkept |- *. cbn [snd] in Hkept |- *.
      set (out := recordingPath env wb) in *.
      assert (Hne : script <> out) by apply recording_paths_differ.
      rewrite Hallocs, <- app_assoc in Hallocs'. cbn [app] in Hallocs'.
      assert (Hdel : exists deleted,
                unlinks (trace w') = unlinks (trace w) ++ deleted
                /\ forall p, p ∈ deleted -> p ∈ [script; out]).
      { destruct Hunlinks as [Hunlinks | [Hunlinks _]];
          rewrite Hunlinks, <- app_assoc in Hunlinks'; cbn [app] in Hunlinks';
          eexists; (split; [exact Hunlinks' |]); intros p Hp;
          repeat (apply elem_of_cons in Hp as [-> | Hp];
                  [first [ apply elem_of_cons; left; reflexivity
                         | apply elem_of_cons; right; apply elem_of_cons; left;
                           reflexivity ] |]);
          inversion Hp. }
      destruct Hdel as (deleted & Hdeleted & Hown).
      apply (keeps_intro env w w' _ _ stored Hallocs' Hdeleted).
      * apply NoDup_two, Hne.
      * exact Hown.
      * exact Hstored.
      * intros p Hp Hs. apply not_elem_of_two in Hp as [Hp1 Hp2].
        rewrite Hkept by assumption. apply Hframe, Hp1.
    + destruct Hunlinks as [Hunlinks | [Hunlinks _]];
        apply (keeps_intro env w wb _ _ [] Hallocs Hunlinks).
      all: try apply NoDup_one.
      all: try (left; reflexivity).
      all: try (intros p Hp _; apply Hframe, not_elem_of_one, Hp).
      * tauto.
      * intros p Hp. apply elem_of_two in Hp as [-> | ->];
          apply list_elem_of_singleton; reflexivity.
  - match goal with
    | |- context [recordToTemp ?e ?a ?f ?d ?fps ?mi ?mb ?w0] =>
        destruct (recordToTemp_run e a f d fps mi mb w0)
          as (w' & Hrun & _ & Hallocs' & Hunlinks' & _);
        destruct (recordToTemp_frame e a f d fps mi mb w0)
          as (stored & Hstored & Hkept)
    end.
    rewrite Hrun in Hkept |- *. cbn [snd] in Hkept |- *.
    rewrite Ha1 in Hallocs'. rewrite Hu1 in Hunlinks'. rewrite Hf1 in Hkept.
    apply (keeps_intro env w w' _ _ stored Hallocs' Hunlinks').
    + apply NoDup_one.
    + tauto.
    + exact Hstored.
    + intros p Hp Hs. apply Hkept; [apply not_elem_of_one, Hp | exact Hs].
Qed.

(** X13. Every invocation of list_monitors, take_screenshot, the bounds
    lookup and record_screen keeps to temp files of its own.  The temp
    paths it allocates are pairwise distinct whatever the UUIDs are (the
    script, the image and the video differ in their extensions); every
    deletion it attempts is of a path it allocated; and every file at any
    other path is after the call, and once the started deletions have
    taken effect, what it was before, except the file in which the media
    store persisted the capture: a successful take_screenshot or
    record_screen leaves this one new file behind, at the path the media
    store answered with. *)
Theorem tools_keep_to_their_temp_files (env : Env) (api : Api)
    (params : gmap string value) (monitorIndex : number) (w : World) :
  keeps_to_its_temp_files env w (list_monitors env params w).2
  /\ keeps_to_its_temp_files env w (take_screenshot env api params w).2
  /\ keeps_to_its_temp_files env w (getMonitorBounds env monitorIndex w).2
  /\ keeps_to_its_temp_files env w (record_screen env api params w).2
  /\ (forall r,
        (take_screenshot env api params w).1 = Returned r ->
        is_error r = false ->
        exists image saved,
          result_path r = Some (saved_path saved)
          /\ files (take_screenshot env api params w).2 !! saved_path saved
             = Some (Bytes image)).
Proof.
  split; [apply list_monitors_keeps |].
  split; [apply take_screenshot_keeps |].
  split; [apply getMonitorBounds_keeps |].
  split; [apply record_screen_keeps |].
  unfold take_screenshot.
  set (delay := resolveDelay _). set (monitor := resolveMonitor _ _).
  set (format := default Png _).
  destruct (gt delay (of_Z 0)); run.
  all: set (out := path_join (tmpdir env)
                ("screenshot-" +:+ uuid_at env (uuids w) +:+ "." +:+ format_name format)).
  all: set (script := path_join (tmpdir env)
                   ("screenshot-" +:+ uuid_at env (S (uuids w)) +:+ ".ps1")).
  all: clearbody out script delay monitor.
  all: cases.
  all: intros r [= <-] Hok; try discriminate Hok.
  all: do 2 eexists; split; [reflexivity |]; apply lookup_insert_eq.
Qed.

(* ===================================================================== *)
(** * The wait of [take_screenshot] *)
(* ===================================================================== *)

Lemma resolveDelay_wait (v : value) :
  gt (resolveDelay v) (of_Z 0) = true ->
  at_most (mul (resolveDelay v) 1000) (of_Z 10000)
  /\ gt (mul (resolveDelay v) 1000) (of_Z 0) = true.
Proof.
  unfold resolveDelay, at_most.
  destruct (as_number v) as [[| | |q]|]; cbn; try discriminate.
  - intros _. split; [split |]; reflexivity.
  - destruct (Qle_bool q (inject_Z 0)) eqn:E0; cbn.
    + discriminate.
    + destruct (Qle_bool q (inject_Z 10)) eqn:E10; cbn.
      * intros _. apply Qle_bool_false in E0. apply Qle_bool_iff in E10.
        split; [split; [reflexivity |] |]; apply negb_false_iff || apply negb_true_iff.
        -- apply Qle_bool_iff. unfold Qle, Qmult, inject_Z in *. cbn in *. lia.
        -- destruct (Qle_bool (q * 1000) (inject_Z 0)) eqn:E; [| reflexivity].
           apply Qle_bool_iff in E. exfalso.
           unfold Qle, Qlt, Qmult, inject_Z in *. cbn in *. lia.
      * intros _. split; [split |]; reflexivity.
Qed.

Lemma resolveDelay_no_wait (d : number) :
  gt d (of_Z 0) = false -> gt (resolveDelay (VNum d)) (of_Z 0) = false.
Proof.
  unfold resolveDelay. destruct d as [| | |q]; cbn; try discriminate; try reflexivity.
  intros H. apply negb_false_iff in H. rewrite H. reflexivity.
Qed.

(** X14. take_screenshot waits before it does anything else, once, and
    never longer than ten seconds: a wait of delay * 1000 ms happens
    exactly when the clamped delay is above 0, it is the first thing the
    call does (the temp paths are allocated after it), and nothing waits
    again.  An absent or non-numeric delay, a delay of 0 or below, and a
    NaN delay do not wait at all. *)
Theorem screenshot_waits_first_and_at_most_ten_seconds (env : Env) (api : Api)
    (params : gmap string value) (w : World) :
  let delay := resolveDelay (prop params "delay") in
  let wait := if gt delay (of_Z 0) then [ESleep (mul delay 1000)] else [] in
  (exists r w' out rest,
     take_screenshot env api params w = (Returned r, w')
     /\ trace w' = trace w ++ wait ++ EAllocTemp out :: rest
     /\ sleeps rest = [])
  /\ Forall (fun ms => at_most ms (of_Z 10000) /\ gt ms (of_Z 0) = true)
       (sleeps wait)
  /\ (as_number (prop params "delay") = None -> wait = [])
  /\ (forall d, prop params "delay" = VNum d -> gt d (of_Z 0) = false -> wait = []).
Proof.
  intros delay wait. split; [| split; [| split]].
  - subst wait. exact (take_screenshot_trace env api params w).
  - subst wait. destruct (gt delay (of_Z 0)) eqn:E; cbn; constructor; [| constructor].
    apply resolveDelay_wait, E.
  - intros Hnone. subst wait delay. unfold resolveDelay. rewrite Hnone. reflexivity.
  - intros d Hd Hle. subst wait delay. rewrite Hd.
    rewrite (resolveDelay_no_wait d Hle). reflexivity.
Qed.

(* ===================================================================== *)
(** * When [list_monitors] fails *)
(* ===================================================================== *)

(** X15. list_monitors fails exactly when its script cannot be written or
    PowerShell fails, and then answers "Failed to list monitors" with the
    message of the failure.  Whatever a completed PowerShell printed is
    parsed without error, into as many descriptors as there are record
    lines, and [count] is that number.  Whether the deletion of the script
    fails changes nothing in the answer. *)
Theorem list_monitors_fails_only_with_its_script (env : Env)
    (params : gmap string value) (w : World) :
  let script := listScriptPath env w in
  (list_monitors env params w).1 = Returned (JsonResult (listAnswer env script))
  /\ (is_error (JsonResult (listAnswer env script)) = true
      <-> write_fails env script = true
          \/ exists message,
               ps_result (powershell env ListMonitorsScript) = ExecFailed message)
  /\ (is_error (JsonResult (listAnswer env script)) = true ->
      exists message, listAnswer env script = listFailed message)
  /\ (forall output,
        write_fails env script = false ->
        ps_result (powershell env ListMonitorsScript) = Completed output ->
        listAnswer env script = monitorsListed (parseMonitors output)
        /\ field "count" (listAnswer env script)
           = VNum (of_Z (Z.of_nat (length (recordLines output)))))
  /\ (forall fails,
        (list_monitors (with_unlink_failures fails env) params w).1
        = (list_monitors env params w).1).
Proof.
  intros script. split; [apply list_monitors_result |].
  split; [| split; [| split]].
  - unfold listAnswer.
    destruct (write_fails env script); [split; [auto | reflexivity] |].
    destruct (ps_result _) as [output|message]; cbn.
    + split; [discriminate |]. intros [H | [m H]]; discriminate.
    + split; [eauto | reflexivity].
  - unfold listAnswer.
    destruct (write_fails env script); [eauto |].
    destruct (ps_result _) as [output|message]; cbn; [discriminate | eauto].
  - intros output Hwrite Hps. unfold listAnswer. rewrite Hwrite, Hps.
    split; [reflexivity |]. cbn. unfold parseMonitors. rewrite length_map.
    reflexivity.
  - intros fails. rewrite !list_monitors_result. reflexivity.
Qed.

(* ===================================================================== *)
(** * Whole numbers for the encoder *)
(* ===================================================================== *)

Lemma round_half_up_Z (z : Z) : round_half_up (inject_Z z) = z.
Proof.
  symmetry. apply (nearest_integer_unique (inject_Z z)).
  - unfold nearest_integer, Qle, Qlt, Qminus, Qplus, Qopp, inject_Z. cbn. lia.
  - apply round_half_up_nearest.
Qed.

Lemma Qle_bool_Z (a b : Z) : Qle_bool (inject_Z a) (inject_Z b) = (a <=? b)%Z.
Proof. unfold Qle_bool, inject_Z. cbn. by rewrite !Z.mul_1_r. Qed.

(** Clamping a rounded number between two whole numbers gives a whole
    number between them, and clamping that again changes nothing. *)
Lemma clamp_whole (x : number) (lo hi : Z) :
  is_nan x = false -> (lo <= hi)%Z ->
  exists k,
    math_min (math_max (math_round x) (of_Z lo)) (of_Z hi) = of_Z k
    /\ (lo <= k <= hi)%Z
    /\ math_min (math_max (math_round (of_Z k)) (of_Z lo)) (of_Z hi) = of_Z k.
Proof.
  intros Hx Hlohi.
  assert (Hfix : forall k, (lo <= k <= hi)%Z ->
            math_min (math_max (math_round (of_Z k)) (of_Z lo)) (of_Z hi) = of_Z k).
  { intros k Hk. unfold math_round, of_Z. rewrite round_half_up_Z.
    cbn [math_max]. rewrite Qle_bool_Z.
    destruct (k <=? lo)%Z eqn:E.
    - apply Z.leb_le in E. assert (k = lo) as -> by lia.
      cbn [math_min]. rewrite Qle_bool_Z.
      rewrite (proj2 (Z.leb_le _ _)) by lia. reflexivity.
    - cbn [math_min]. rewrite Qle_bool_Z.
      rewrite (proj2 (Z.leb_le _ _)) by lia. reflexivity. }
  destruct x as [| | |q]; [discriminate | | |].
  - exists hi. split; [reflexivity |]. split; [lia | apply Hfix; lia].
  - exists lo. split; [| split; [lia | apply Hfix; lia]].
    cbn. rewrite Qle_bool_Z. rewrite (proj2 (Z.leb_le _ _)) by lia. reflexivity.
  - unfold math_round, of_Z. set (r := round_half_up q).
    cbn [math_max]. rewrite Qle_bool_Z.
    destruct (r <=? lo)%Z eqn:E; cbn [math_min]; rewrite Qle_bool_Z.
    + exists lo. rewrite (proj2 (Z.leb_le _ _)) by lia.
      split; [reflexivity |]. split; [lia | apply Hfix; lia].
    + apply Z.leb_gt in E. destruct (r <=? hi)%Z eqn:E'.
      * apply Z.leb_le in E'. exists r.
        split; [reflexivity |]. split; [lia | apply Hfix; lia].
      * exists hi. split; [reflexivity |]. split; [lia | apply Hfix; lia].
Qed.

(** X17. What the encoder is given are whole numbers.  For every numeric
    fps other than NaN the resolved frame rate is a whole number from 10
    to 60; for every numeric duration other than NaN and a whole ceiling
    of at least 1 (the default 60 is one) the resolved duration is a
    whole number from 1 to the ceiling.  Resolving is idempotent on them:
    the fps and the duration a result reports, passed as parameters again,
    resolve to themselves. *)
Theorem encoder_gets_whole_numbers (x : number) (ceiling : Z) :
  is_nan x = false -> (1 <= ceiling)%Z ->
  (exists k,
     resolveFps (VNum x) = of_Z k
     /\ (10 <= k <= 60)%Z
     /\ resolveFps (VNum (of_Z k)) = of_Z k)
  /\ (exists k,
        resolveDuration (VNum x) (of_Z ceiling) = Some (of_Z k)
        /\ (1 <= k <= ceiling)%Z
        /\ resolveDuration (VNum (of_Z k)) (of_Z ceiling) = Some (of_Z k))
  /\ maxDurationOf empty_config = of_Z 60.
Proof.
  intros Hx Hc. split; [| split; [| reflexivity]].
  - destruct (clamp_whole x 10 60 Hx ltac:(lia)) as (k & Hk & Hrange & Hfix).
    exists k. unfold resolveFps. cbn [as_number]. auto.
  - destruct (clamp_whole x 1 ceiling Hx Hc) as (k & Hk & Hrange & Hfix).
    exists k. unfold resolveDuration. cbn [as_number]. rewrite Hk, Hfix. auto.
Qed.

Lemma encoder_gets_whole_numbers_witness :
  (exists k,
     resolveFps (VNum (Fin (57 # 10))) = of_Z k
     /\ (10 <= k <= 60)%Z
     /\ resolveFps (VNum (of_Z k)) = of_Z k)
  /\ (exists k,
        resolveDuration (VNum (Fin (57 # 10))) (of_Z 60) = Some (of_Z k)
        /\ (1 <= k <= 60)%Z
        /\ resolveDuration (VNum (of_Z k)) (of_Z 60) = Some (of_Z k))
  /\ maxDurationOf empty_config = of_Z 60.
Proof.
  apply (encoder_gets_whole_numbers (Fin (57 # 10)) 60); [reflexivity | lia].
Defined.

(* ===================================================================== *)
(** * The steps of a successful call *)
(* ===================================================================== *)

(** X18. A take_screenshot that succeeds has done exactly this, in this
    order: the wait (if any), the allocation of the image path and of the
    script path, the writing of the script instantiated with that image
    path, the resolved monitor and the configured format, its run through
    PowerShell with a timeout of 30 s, the reading of the image, the
    saving to the media store with the 10 MB quota, and only then the
    deletion of the image and of the script. *)
Theorem successful_screenshot_steps (env : Env) (api : Api)
    (params : gmap string value) (w : World) (r : ToolResult) :
  (take_screenshot env api params w).1 = Returned r ->
  is_error r = false ->
  let delay := resolveDelay (prop params "delay") in
  let monitor := resolveMonitor (prop params "monitor") (config api) in
  let format := default Png (screenshotFormat (config api)) in
  let out := path_join (tmpdir env)
               ("screenshot-" +:+ uuid_at env (uuids w) +:+ "."
                +:+ format_name format) in
  let script := path_join (tmpdir env)
                  ("screenshot-" +:+ uuid_at env (S (uuids w)) +:+ ".ps1") in
  trace (take_screenshot env api params w).2
  = trace w ++ waitFor delay ++ screenshotSteps out script monitor format.
Proof.
  intros Hr Hok delay monitor format out script. revert Hr.
  unfold take_screenshot, waitFor, screenshotSteps.
  fold delay monitor format.
  destruct (gt delay (of_Z 0)); run.
  all: fold out script.
  all: clearbody out script delay monitor.
  all: cases.
  all: cbn [fst snd trace]; intros [= <-]; try discriminate Hok.
  all: rewrite <- ?app_assoc; reflexivity.
Qed.

Lemma successful_screenshot_steps_witness :
  trace (take_screenshot demo_env demo_api no_params demo_world).2
  = [EAllocTemp "C:\Temp\screenshot-1f0e.png";
     EAllocTemp "C:\Temp\screenshot-2a9c.ps1";
     EWriteFile "C:\Temp\screenshot-2a9c.ps1"
       (ScreenshotScript "C:\Temp\screenshot-1f0e.png" (of_Z 0) Png);
     EExec "C:\Temp\screenshot-2a9c.ps1" 30000;
     EReadFile "C:\Temp\screenshot-1f0e.png";
     ESave "image/png" "screenshots" (10 * 1024 * 1024)
       [Txt "screenshot."; Txt "png"];
     EUnlink "C:\Temp\screenshot-1f0e.png";
     EUnlink "C:\Temp\screenshot-2a9c.ps1"].
Proof.
  exact (successful_screenshot_steps demo_env demo_api no_params demo_world _
           eq_refl eq_refl).
Defined.

Lemma getMonitorBounds_steps (env : Env) (monitorIndex : number) (w : World)
    (b : MonitorBounds.t) :
  (getMonitorBounds env monitorIndex w).1 = Returned (Some b) ->
  trace (getMonitorBounds env monitorIndex w).2
  = trace w ++ boundsSteps (boundsScriptPath env w).
Proof.
  unfold getMonitorBounds, boundsSteps, boundsScriptPath. run.
  set (script := path_join _ _). clearbody script.
  cases.
  all: cbn [fst snd trace]; intros [= H]; try discriminate H.
  all: rewrite <- ?app_assoc; reflexivity.
Qed.

Lemma recordToTemp_steps (env : Env) (api : Api) (ffmpeg : string)
    (duration fps : number) (monitorIndex : option number)
    (monitorBounds : option MonitorBounds.t) (w : World) (r : value) :
  (recordToTemp env api ffmpeg duration fps monitorIndex monitorBounds w).1
  = Returned (JsonResult r) ->
  field "success" r = VBool true ->
  exists size,
    trace (recordToTemp env api ffmpeg duration fps monitorIndex monitorBounds w).2
    = trace w
      ++ recordingSteps api ffmpeg duration fps monitorBounds
           (recordingPath env w) (S size).
Proof.
  unfold recordToTemp, recordingSteps, recordingPath, can_info.
  destruct (logger api) as [[hw hi]|] eqn:Hlog; [destruct hi eqn:Hi |].
  all: unfold log; rewrite Hlog; cbn [has_info from_option]; run.
  all: set (out := path_join _ _); clearbody out.
  all: destruct (valid_timeout env _) eqn:Hvalid; simp.
  all: try (destruct (after_encoder _ _ _ _ _ !! out) as [d|] eqn:Hart; simp).
  all: try (destruct (String.length (file_bytes env d)) as [|k] eqn:Hsize;
            cbn [Nat.eqb]; simp; rewrite ?Hart; simp).
  all: try (destruct (media_save _ _ _ _ _ _) as [saved|message] eqn:Hsave; simp).
  all: cbn [fst snd trace]; intros [= <-] Hok; try discriminate Hok.
  all: exists k; rewrite <- ?app_assoc; reflexivity.
Qed.

(** X19. A record_screen that succeeds has done exactly this, in this
    order: the probes of the FFmpeg lookup up to the first that responds;
    when a monitor was requested, the bounds lookup (allocation, writing,
    run with a timeout of 10 s and deletion of its script); the allocation
    of the recording path; the log line, when the host's logger takes it;
    the encoder; the examination of the recording, which found it with a
    size above 0; its reading; its saving to the media store with the
    100 MB quota; and only then its deletion. *)
Theorem successful_recording_steps (env : Env) (api : Api)
    (params : gmap string value) (w : World) (r : value) :
  (record_screen env api params w).1 = Returned (JsonResult r) ->
  field "success" r = VBool true ->
  exists ffmpeg duration monitorBounds lookup out size,
    firstResponding env (candidates env (ffmpegPath (config api))) = Some ffmpeg
    /\ resolveDuration (prop params "duration") (maxDuration api) = Some duration
    /\ ((requestedMonitor (prop params "monitor") = None
         /\ monitorBounds = None /\ lookup = [])
        \/ (exists m b script,
              requestedMonitor (prop params "monitor") = Some m
              /\ monitorBounds = Some b /\ lookup = boundsSteps script))
    /\ trace (record_screen env api params w).2
       = trace w
         ++ map probeEvent (probed env (candidates env (ffmpegPath (config api))))
         ++ lookup
         ++ recordingSteps api ffmpeg duration (resolveFps (prop params "fps"))
              monitorBounds out (S size).
Proof.
  rewrite record_screen_unfold.
  destruct (resolveDuration _ _) as [duration|];
    [| cbn; intros [= <-] H; discriminate H].
  cbv zeta.
  destruct (firstResponding _ _) as [[|c ffmpeg]|];
    try (cbn; intros [= <-] H; discriminate H).
  set (w1 := add_events w _).
  destruct (requestedMonitor _) as [m|].
  - pose proof (getMonitorBounds_result env m w1) as Hanswer.
    pose proof (getMonitorBounds_steps env m w1) as Hsteps.
    destruct (boundsAnswer _ _ _) as [b|];
      [| cbn; intros [= <-] H; discriminate H].
    specialize (Hsteps b Hanswer).
    intros Hr Hok.
    destruct (recordToTemp_steps _ _ _ _ _ _ _ _ _ Hr Hok) as [size Hrec].
    exists (String c ffmpeg), duration, (Some b),
      (boundsSteps (boundsScriptPath env w1)),
      (recordingPath env (getMonitorBounds env m w1).2), size.
    split; [reflexivity |]. split; [reflexivity |].
    split; [right; exists m, b, (boundsScriptPath env w1); auto |].
    rewrite Hrec, Hsteps. subst w1. unfold add_events. cbn [trace].
    rewrite <- !app_assoc. reflexivity.
  - intros Hr Hok.
    destruct (recordToTemp_steps _ _ _ _ _ _ _ _ _ Hr Hok) as [size Hrec].
    exists (String c ffmpeg), duration, None, [],
      (recordingPath env w1), size.
    split; [reflexivity |]. split; [reflexivity |].
    split; [left; auto |].
    rewrite Hrec. subst w1. unfold add_events. cbn [trace app].
    rewrite <- !app_assoc. reflexivity.
Qed.

Lemma successful_recording_steps_witness :
  exists ffmpeg duration monitorBounds lookup out size,
    firstResponding demo_env (candidates demo_env (ffmpegPath (config demo_api)))
    = Some ffmpeg
    /\ resolveDuration (prop record_5s "duration") (maxDuration demo_api)
       = Some duration
    /\ ((requestedMonitor (prop record_5s "monitor") = None
         /\ monitorBounds = None /\ lookup = [])
        \/ (exists m b script,
              requestedMonitor (prop record_5s "monitor") = Some m
              /\ monitorBounds = Some b /\ lookup = boundsSteps script))
    /\ trace (record_screen demo_env demo_api record_5s demo_world).2
       = trace demo_world
         ++ map probeEvent
              (probed demo_env (candidates demo_env (ffmpegPath (config demo_api))))
         ++ lookup
         ++ recordingSteps demo_api ffmpeg duration
              (resolveFps (prop record_5s "fps")) monitorBounds out (S size).
Proof.
  exact (successful_recording_steps demo_env demo_api record_5s demo_world _
           eq_refl eq_refl).
Defined.
